(** * Remen Printing point of sale: cart, checkout, report edit, withdrawals
      and product codes

    A shallow embedding of the sales screen ([src/pages/Cashier.tsx]), the
    report screen ([src/pages/Reports.tsx]), the withdrawal screen and the
    product screen, together with the tables of the SQL migrations they talk
    to; then of the printing-order screen and of the earlier copy of the sales
    screen kept beside it.

    Modelling conventions.
    - A React state variable is a value; a handler is a function from the
      state it closes over (and the replies of the store) to the new state,
      the new store and the notifications it raised.
    - Stored amounts and quantities are integers ([Z]): the shop works in whole
      rupiah and JavaScript doubles are exact on integers below 2^53, so on
      that range [+], [-], [*] and the comparisons below are the ones the
      code runs.  What [parseFloat] / [parseInt] hand back is a [JS.number]:
      [NaN] or a finite value.  A text field that is parsed on use is
      represented by the value that parse returns ([NaN] for the empty field).
    - Strings are [string]; a character is a UTF-16 code unit below 256.
    - The store is the set of tables of the migrations, each a list of rows;
      every call may fail, which the caller sees as an [error]. *)

From Stdlib Require Import ZArith List String Ascii Bool Lia Sorted Permutation.
Import ListNotations.
Local Open Scope string_scope.
Local Open Scope list_scope.
Local Open Scope Z_scope.

(** ** JavaScript values *)

Module JS.

Inductive number : Type :=
| NaN : number
| Num : Z -> number.

(** [isNaN(x)] *)
Definition isNaN (x : number) : bool :=
  match x with NaN => true | Num _ => false end.

(** Truthiness of a number: [NaN] and [0] are falsy. *)
Definition ToBoolean (x : number) : bool :=
  match x with NaN => false | Num v => negb (v =? 0) end.

(** [x < y], [x <= y], [x > y]: false as soon as one side is [NaN]. *)
Definition lt (x y : number) : bool :=
  match x, y with Num a, Num b => a <? b | _, _ => false end.

Definition le (x y : number) : bool :=
  match x, y with Num a, Num b => a <=? b | _, _ => false end.

Definition gt (x y : number) : bool := lt y x.

Definition add (x y : number) : number :=
  match x, y with Num a, Num b => Num (a + b) | _, _ => NaN end.

(** [x || 0] on a number. *)
Definition orZero (x : number) : Z :=
  match x with NaN => 0 | Num v => v end.

(** White space and line terminators among the code units below 256:
    TAB, LF, VT, FF, CR, SP and NBSP. *)
Definition isWhiteSpace (c : ascii) : bool :=
  let n := N_of_ascii c in
  ((n =? 9) || (n =? 10) || (n =? 11) || (n =? 12) || (n =? 13)
   || (n =? 32) || (n =? 160))%N.

Fixpoint trimStart (s : string) : string :=
  match s with
  | EmptyString => EmptyString
  | String c r => if isWhiteSpace c then trimStart r else s
  end.

Fixpoint trimEnd (s : string) : string :=
  match s with
  | EmptyString => EmptyString
  | String c r =>
      match trimEnd r with
      | EmptyString => if isWhiteSpace c then EmptyString else String c EmptyString
      | r' => String c r'
      end
  end.

(** [s.trim()] *)
Definition trim (s : string) : string := trimEnd (trimStart s).

(** [s.substring(1)] *)
Definition substring1 (s : string) : string :=
  match s with EmptyString => EmptyString | String _ r => r end.

(** Value of a digit in the given radix, if it is one. *)
Definition digitValue (radix : Z) (c : ascii) : option Z :=
  let n := Z.of_N (N_of_ascii c) in
  let v := if (48 <=? n) && (n <=? 57) then Some (n - 48)
           else if (97 <=? n) && (n <=? 122) then Some (n - 87)
           else if (65 <=? n) && (n <=? 90) then Some (n - 55)
           else None in
  match v with
  | Some d => if d <? radix then Some d else None
  | None => None
  end.

Definition orZeroOpt (o : option Z) : Z :=
  match o with Some v => v | None => 0 end.

(** Longest prefix of digits, accumulated most significant first;
    [None] when there is no digit at all. *)
Fixpoint parseDigits (radix : Z) (acc : option Z) (s : string) : option Z :=
  match s with
  | EmptyString => acc
  | String c r =>
      match digitValue radix c with
      | Some d => parseDigits radix (Some (orZeroOpt acc * radix + d)) r
      | None => acc
      end
  end.

Definition stripHexPrefix (s : string) : option string :=
  match s with
  | String "0"%char (String "x"%char r) => Some r
  | String "0"%char (String "X"%char r) => Some r
  | _ => None
  end.

Definition parseUnsigned (s : string) : number :=
  let r := match stripHexPrefix s with
           | Some h => parseDigits 16 None h
           | None => parseDigits 10 None s
           end in
  match r with Some v => Num v | None => NaN end.

(** [parseInt(s)] without a radix argument. *)
Definition parseInt (s : string) : number :=
  match trimStart s with
  | String "-"%char r =>
      match parseUnsigned r with Num v => Num (- v) | NaN => NaN end
  | String "+"%char r => parseUnsigned r
  | r => parseUnsigned r
  end.

Definition digitChar (d : Z) : ascii := ascii_of_N (Z.to_N (48 + d)).

(** Decimal digits of a non-negative integer, most significant first. *)
Fixpoint digitsFuel (fuel : nat) (n : Z) (acc : string) : string :=
  match fuel with
  | O => acc
  | S f =>
      let acc' := String (digitChar (n mod 10)) acc in
      if n <? 10 then acc' else digitsFuel f (n / 10) acc'
  end.

Definition decimal (n : Z) : string :=
  digitsFuel (S (Z.to_nat (Z.log2 n))) n EmptyString.

(** [x.toString()] for a number in the exact range. *)
Definition toString (x : number) : string :=
  match x with
  | NaN => "NaN"
  | Num v => if v <? 0 then String "-"%char (decimal (- v)) else decimal v
  end.

Fixpoint repeatChar (n : nat) (c : ascii) : string :=
  match n with O => EmptyString | S k => String c (repeatChar k c) end.

(** [s.padStart(width, "0")] *)
Definition padStart0 (width : nat) (s : string) : string :=
  (repeatChar (width - String.length s) "0"%char ++ s)%string.

(** Lower case of a code unit below 256: A to Z and the accented capitals
    of Latin-1 move up by 32. *)
Definition lowerChar (c : ascii) : ascii :=
  let n := N_of_ascii c in
  if (((65 <=? n) && (n <=? 90)) || ((192 <=? n) && (n <=? 214))
      || ((216 <=? n) && (n <=? 222)))%N
  then ascii_of_N (n + 32) else c.

(** [s.toLowerCase()] *)
Fixpoint toLowerCase (s : string) : string :=
  match s with
  | EmptyString => EmptyString
  | String c r => String (lowerChar c) (toLowerCase r)
  end.

(** [s.includes(search)] *)
Fixpoint includes (s search : string) : bool :=
  String.prefix search s
  || match s with
     | EmptyString => false
     | String _ r => includes r search
     end.

End JS.


(** ** Records of the screens and rows of the tables *)

Module Product.
Record t : Type := mk {
  id : string;
  code : string;
  name : string;
  price : Z
}.
End Product.

Module CartItem.
Record t : Type := mk {
  product : Product.t;
  quantity : Z;
  displayPrice : Z;
  displayName : string
}.
End CartItem.

Module Transaction.
Record t : Type := mk {
  id : string;
  transaction_date : string;
  total_amount : Z;
  payment_amount : Z;
  change_amount : Z
}.
End Transaction.

Module TransactionItem.
Record t : Type := mk {
  id : string;
  transaction_id : string;
  product_code : string;
  product_name : string;
  quantity : Z;
  price : Z;
  subtotal : Z
}.
End TransactionItem.

Module Withdrawal.
Record t : Type := mk {
  id : string;
  withdrawal_date : string;
  withdrawal_name : string;
  amount : Z
}.
End Withdrawal.

(** Notifications raised with [toast.error] and [toast.success]. *)
Inductive Toast : Type :=
| toast_error : string -> Toast
| toast_success : string -> Toast.

(** ** The store *)

Module Store.

(** Modelled from the spec: the external data store behind [supabase], the
    client of [@/integrations/supabase/client], which is not among the
    sources.  The specification gives it as generic create, read, update and
    delete operations on record collections, where every operation either
    succeeds or returns a description of what failed.  The tables, their
    columns, the primary key [id] of every table, the unique [code] of
    [products] and the foreign key of [transaction_items] are those of the
    SQL migrations; an insert that would break one of them is refused.
    Every call also takes a [fault] flag: the store, or the path to it, may
    fail for reasons of its own. *)
Record t : Type := mk {
  products : list Product.t;
  transactions : list Transaction.t;
  transaction_items : list TransactionItem.t;
  withdrawals : list Withdrawal.t
}.

Definition empty : t := mk [] [] [] [].

Inductive reply (A : Type) : Type :=
| data : A -> reply A
| error : string -> reply A.
Arguments data {A} _.
Arguments error {A} _.

Definition with_transactions (db : t) (l : list Transaction.t) : t :=
  mk (products db) l (transaction_items db) (withdrawals db).

Definition with_transaction_items (db : t) (l : list TransactionItem.t) : t :=
  mk (products db) (transactions db) l (withdrawals db).

Definition with_withdrawals (db : t) (l : list Withdrawal.t) : t :=
  mk (products db) (transactions db) (transaction_items db) l.

Definition with_products (db : t) (l : list Product.t) : t :=
  mk l (transactions db) (transaction_items db) (withdrawals db).

(** Is [k] among the keys [ks]? *)
Definition mem (k : string) (ks : list string) : bool :=
  existsb (String.eqb k) ks.

Fixpoint distinct (ks : list string) : bool :=
  match ks with
  | [] => true
  | k :: r => negb (mem k r) && distinct r
  end.

(** Modelled from the spec:
    [from("transactions").insert({...}).select().single()]; the new row gets
    the key and the date the store generates for it. *)
Definition insert_transaction (db : t) (fault : bool) (new_id now : string)
    (total payment change : Z) : t * reply Transaction.t :=
  if fault || mem new_id (map Transaction.id (transactions db))
  then (db, error "insert transactions")
  else
    let row := Transaction.mk new_id now total payment change in
    (with_transactions db (transactions db ++ [row]), data row).

(** What the sales screen sends for one line: a row without its key. *)
Record new_item : Type := mk_new_item {
  transaction_id : string;
  product_code : string;
  product_name : string;
  quantity : Z;
  price : Z;
  subtotal : Z
}.

(** The rows the store makes of the payloads: the [i]-th gets the key
    [new_id i]. *)
Fixpoint keyed (new_id : nat -> string) (i : nat) (l : list new_item)
    : list TransactionItem.t :=
  match l with
  | [] => []
  | x :: r =>
      TransactionItem.mk (new_id i) (transaction_id x) (product_code x)
        (product_name x) (quantity x) (price x) (subtotal x)
      :: keyed new_id (S i) r
  end.

(** Modelled from the spec: [from("transaction_items").insert(items)], all
    rows or none; every row refers to a stored transaction (foreign key). *)
Definition insert_transaction_items (db : t) (fault : bool)
    (new_id : nat -> string) (items : list new_item) : t * reply unit :=
  let rows := keyed new_id 0 items in
  let ids := map TransactionItem.id rows in
  if fault
     || negb (distinct ids)
     || existsb (fun k => mem k (map TransactionItem.id (transaction_items db))) ids
     || negb (forallb (fun r => mem (TransactionItem.transaction_id r)
                                    (map Transaction.id (transactions db))) rows)
  then (db, error "insert transaction_items")
  else (with_transaction_items db (transaction_items db ++ rows), data tt).

(** Modelled from the spec: [from("transactions").update({...}).eq("id", key)] *)
Definition update_transaction (db : t) (fault : bool) (key : string)
    (total payment change : Z) : t * reply unit :=
  if fault then (db, error "update transactions")
  else
    (with_transactions db
       (map (fun r =>
               if (Transaction.id r =? key)%string
               then Transaction.mk (Transaction.id r) (Transaction.transaction_date r)
                      total payment change
               else r)
            (transactions db)),
     data tt).

(** Modelled from the spec:
    [from("transaction_items").update({quantity, price, subtotal}).eq("id", key)] *)
Definition update_transaction_item (db : t) (fault : bool) (key : string)
    (quantity price subtotal : Z) : t * reply unit :=
  if fault then (db, error "update transaction_items")
  else
    (with_transaction_items db
       (map (fun r =>
               if (TransactionItem.id r =? key)%string
               then TransactionItem.mk (TransactionItem.id r)
                      (TransactionItem.transaction_id r)
                      (TransactionItem.product_code r)
                      (TransactionItem.product_name r)
                      quantity price subtotal
               else r)
            (transaction_items db)),
     data tt).

(** Modelled from the spec:
    [from("transaction_items").select("*").eq("transaction_id", key)] *)
Definition items_of (db : t) (key : string) : list TransactionItem.t :=
  filter (fun r => (TransactionItem.transaction_id r =? key)%string)
         (transaction_items db).

(** Modelled from the spec: [from("withdrawals").insert({...})] *)
Definition insert_withdrawal (db : t) (fault : bool) (new_id : string)
    (date name : string) (amount : Z) : t * reply unit :=
  if fault || mem new_id (map Withdrawal.id (withdrawals db))
  then (db, error "insert withdrawals")
  else
    (with_withdrawals db (withdrawals db ++ [Withdrawal.mk new_id date name amount]),
     data tt).

(** The greater of two codes in the order the store sorts text by; modelled
    as the order of the code units. *)
Definition greater (a b : string) : string :=
  if String.leb a b then b else a.

(** Modelled from the spec:
    [from("products").select("code").order("code", {ascending: false}).limit(1)];
    [None] stands for a failed call (no [data]). *)
Definition last_code (db : t) (fault : bool) : option (list string) :=
  if fault then None
  else
    match map Product.code (products db) with
    | [] => Some []
    | c :: r => Some [fold_left greater r c]
    end.

(** Modelled from the spec: [from("products").insert({code, name, price})];
    the price column is NOT NULL, and a [NaN] is sent as [null]. *)
Definition insert_product (db : t) (fault : bool) (new_id : string)
    (code name : string) (price : JS.number) : t * reply unit :=
  match price with
  | JS.NaN => (db, error "insert products")
  | JS.Num v =>
      if fault
         || mem new_id (map Product.id (products db))
         || mem code (map Product.code (products db))
      then (db, error "insert products")
      else (with_products db (products db ++ [Product.mk new_id code name v]), data tt)
  end.

(** Modelled from the spec:
    [from("products").update({code, name, price}).eq("id", key)] *)
Definition update_product (db : t) (fault : bool) (key : string)
    (code name : string) (price : JS.number) : t * reply unit :=
  match price with
  | JS.NaN => (db, error "update products")
  | JS.Num v =>
      if fault
         || mem code (map Product.code
                        (filter (fun r => negb (Product.id r =? key)%string) (products db)))
      then (db, error "update products")
      else
        (with_products db
           (map (fun r => if (Product.id r =? key)%string
                          then Product.mk (Product.id r) code name v else r)
                (products db)),
         data tt)
  end.

(** Modelled from the spec:
    [from("transaction_items").delete().eq("transaction_id", key)] *)
Definition delete_transaction_items (db : t) (fault : bool) (key : string)
    : t * reply unit :=
  if fault then (db, error "delete transaction_items")
  else
    (with_transaction_items db
       (filter (fun r => negb (TransactionItem.transaction_id r =? key)%string)
               (transaction_items db)),
     data tt).

(** Modelled from the spec: [from("transactions").delete().eq("id", key)];
    the item rows of the transaction go with it (ON DELETE CASCADE). *)
Definition delete_transaction (db : t) (fault : bool) (key : string)
    : t * reply unit :=
  if fault then (db, error "delete transactions")
  else
    (mk (products db)
       (filter (fun r => negb (Transaction.id r =? key)%string) (transactions db))
       (filter (fun r => negb (TransactionItem.transaction_id r =? key)%string)
               (transaction_items db))
       (withdrawals db),
     data tt).

(** Modelled from the spec: [from("withdrawals").delete().eq("id", key)] *)
Definition delete_withdrawal (db : t) (fault : bool) (key : string)
    : t * reply unit :=
  if fault then (db, error "delete withdrawals")
  else
    (with_withdrawals db
       (filter (fun r => negb (Withdrawal.id r =? key)%string) (withdrawals db)),
     data tt).

(** Modelled from the spec: [from("products").delete().eq("id", key)] *)
Definition delete_product (db : t) (fault : bool) (key : string)
    : t * reply unit :=
  if fault then (db, error "delete products")
  else
    (with_products db
       (filter (fun r => negb (Product.id r =? key)%string) (products db)),
     data tt).

(** Rows in descending order of a text column, as
    [order(column, {ascending: false})] hands them back.  Rows that agree on
    the column come out in the order the table keeps them: the store
    promises no order among them, and nothing proved below relies on one. *)
Fixpoint insert_descending {Row : Type} (column : Row -> string) (o : Row)
    (sorted : list Row) : list Row :=
  match sorted with
  | [] => [o]
  | x :: r =>
      if String.leb (column x) (column o)
      then o :: sorted
      else x :: insert_descending column o r
  end.

Definition descending {Row : Type} (column : Row -> string) (rows : list Row)
    : list Row :=
  fold_right (insert_descending column) [] rows.

(** Modelled from the spec:
    [from("withdrawals").select("*").order("withdrawal_date", {ascending: false})];
    the dates are compared as the text the store prints them as. *)
Definition select_withdrawals (db : t) : list Withdrawal.t :=
  descending Withdrawal.withdrawal_date (withdrawals db).

End Store.

(** ** The sales screen ([src/pages/Cashier.tsx]) *)

Module Cashier.

Definition Cart : Type := list CartItem.t.

(** [item.product.id === productId] *)
Definition is_product (productId : string) (item : CartItem.t) : bool :=
  (Product.id (CartItem.product item) =? productId)%string.

(** [{ ...item, quantity: q }] and the like. *)
Definition with_quantity (item : CartItem.t) (q : Z) : CartItem.t :=
  CartItem.mk (CartItem.product item) q (CartItem.displayPrice item)
    (CartItem.displayName item).

Definition with_displayPrice (item : CartItem.t) (p : Z) : CartItem.t :=
  CartItem.mk (CartItem.product item) (CartItem.quantity item) p
    (CartItem.displayName item).

Definition with_displayName (item : CartItem.t) (n : string) : CartItem.t :=
  CartItem.mk (CartItem.product item) (CartItem.quantity item)
    (CartItem.displayPrice item) n.

Definition addToCart (cart : Cart) (product : Product.t) : Cart :=
  match find (is_product (Product.id product)) cart with
  | Some _ =>
      map (fun item =>
             if is_product (Product.id product) item
             then with_quantity item (CartItem.quantity item + 1)
             else item)
          cart
  | None =>
      (cart ++ [CartItem.mk product 1 (Product.price product) (Product.name product)])%list
  end.

Definition updateQuantity (cart : Cart) (productId : string) (delta : Z) : Cart :=
  filter (fun item => 0 <? CartItem.quantity item)
    (map (fun item =>
            if is_product productId item
            then with_quantity item (Z.max 0 (CartItem.quantity item + delta))
            else item)
         cart).

(** [newPrice] is the value [parseFloat] reads from the price field. *)
Definition updatePrice (cart : Cart) (productId : string) (newPrice : JS.number)
    : Cart * list Toast :=
  let price := newPrice in
  if JS.isNaN price || JS.le price (JS.Num 0)
  then (cart, [toast_error "Harga harus lebih dari 0"])
  else
    (map (fun item =>
            if is_product productId item
            then with_displayPrice item (JS.orZero price)
            else item)
         cart,
     []).

Definition updateName (cart : Cart) (productId : string) (newName : string)
    : Cart * list Toast :=
  let trimmedName := JS.trim newName in
  if (String.length trimmedName =? 0)%nat
  then (cart, [toast_error "Nama produk tidak boleh kosong"])
  else
    (map (fun item =>
            if is_product productId item
            then with_displayName item trimmedName
            else item)
         cart,
     []).

Definition removeFromCart (cart : Cart) (productId : string) : Cart :=
  filter (fun item => negb (is_product productId item)) cart.

Definition totalAmount (cart : Cart) : Z :=
  fold_left
    (fun sum item => sum + CartItem.displayPrice item * CartItem.quantity item)
    cart 0.

(** What the user can do to the cart. *)
Inductive CartEvent : Type :=
| AddToCart : Product.t -> CartEvent
| UpdateQuantity : string -> Z -> CartEvent
| UpdatePrice : string -> JS.number -> CartEvent
| UpdateName : string -> string -> CartEvent
| RemoveFromCart : string -> CartEvent
| CancelTransaction : CartEvent.

Definition step (cart : Cart) (e : CartEvent) : Cart :=
  match e with
  | AddToCart product => addToCart cart product
  | UpdateQuantity productId delta => updateQuantity cart productId delta
  | UpdatePrice productId newPrice => fst (updatePrice cart productId newPrice)
  | UpdateName productId newName => fst (updateName cart productId newName)
  | RemoveFromCart productId => removeFromCart cart productId
  | CancelTransaction => []
  end.

(** The state [handlePayment] closes over.  [paymentAmount] is the payment
    field as [parseFloat] reads it. *)
Record State : Type := mkState {
  cart : Cart;
  paymentAmount : JS.number;
  showPayment : bool
}.

(** What the store answers during one [handlePayment], and whether
    [window.open] hands back a window for the receipt. *)
Record Env : Type := mkEnv {
  transaction_fault : bool;
  new_transaction_id : string;
  now : string;
  items_fault : bool;
  new_item_id : nat -> string;
  receipt_window : bool
}.

(** What a receipt shows: the transaction, the lines of the cart, the total,
    the payment and the change. *)
Record Receipt : Type := mkReceipt {
  receipt_transaction : string;
  receipt_lines : Cart;
  receipt_total : Z;
  receipt_payment : Z;
  receipt_change : Z
}.

Record Outcome : Type := mkOutcome {
  state : State;
  db : Store.t;
  toasts : list Toast;
  printed : option Receipt
}.

(** The payloads of the lines of the cart. *)
Definition items_payload (transactionId : string) (cart : Cart)
    : list Store.new_item :=
  map (fun item =>
         Store.mk_new_item transactionId
           (Product.code (CartItem.product item))
           (CartItem.displayName item)
           (CartItem.quantity item)
           (CartItem.displayPrice item)
           (CartItem.displayPrice item * CartItem.quantity item))
      cart.

(** [printReceipt(transactionId, payment, change)]: nothing is printed when
    no window opens. *)
Definition printReceipt (env : Env) (cart : Cart) (totalAmount : Z)
    (transactionId : string) (payment change : Z) : option Receipt :=
  if receipt_window env
  then Some (mkReceipt transactionId cart totalAmount payment change)
  else None.

Definition handlePayment (st : State) (db0 : Store.t) (env : Env) : Outcome :=
  let payment := paymentAmount st in
  let totalAmount := totalAmount (cart st) in
  if negb (JS.ToBoolean payment) || JS.lt payment (JS.Num totalAmount)
  then mkOutcome st db0 [toast_error "Jumlah pembayaran tidak valid"] None
  else
    let paid := JS.orZero payment in
    let changeAmount := paid - totalAmount in
    match Store.insert_transaction db0 (transaction_fault env)
            (new_transaction_id env) (now env) totalAmount paid changeAmount with
    | (db1, Store.error _) =>
        mkOutcome st db1 [toast_error "Gagal menyimpan transaksi"] None
    | (db1, Store.data transactionData) =>
        let items := items_payload (Transaction.id transactionData) (cart st) in
        match Store.insert_transaction_items db1 (items_fault env)
                (new_item_id env) items with
        | (db2, Store.error _) =>
            mkOutcome st db2 [toast_error "Gagal menyimpan detail transaksi"] None
        | (db2, Store.data _) =>
            mkOutcome (mkState [] JS.NaN false) db2
              [toast_success "Transaksi berhasil"]
              (printReceipt env (cart st) totalAmount
                 (Transaction.id transactionData) paid changeAmount)
        end
    end.

(** The two tests of the payment dialog, written in the markup: the change is
    shown under [paymentAmount && parseFloat(paymentAmount) >= totalAmount],
    and the Proses button, which calls [handlePayment], is disabled under
    [!paymentAmount || parseFloat(paymentAmount) < totalAmount].  The field is
    a number input: its text is empty exactly when no number is read from
    it. *)
Definition change_shown (payment : JS.number) (totalAmount : Z) : bool :=
  negb (JS.isNaN payment) && JS.le (JS.Num totalAmount) payment.

Definition proses_disabled (payment : JS.number) (totalAmount : Z) : bool :=
  JS.isNaN payment || JS.lt payment (JS.Num totalAmount).

Definition filteredProducts (products : list Product.t) (searchTerm : string)
    : list Product.t :=
  filter
    (fun p =>
       JS.includes (JS.toLowerCase (Product.code p)) (JS.toLowerCase searchTerm)
       || JS.includes (JS.toLowerCase (Product.name p)) (JS.toLowerCase searchTerm))
    products.

End Cashier.

(** ** The report screen ([src/pages/Reports.tsx]) *)

Module Reports.

Record State : Type := mkState {
  editingTransaction : option Transaction.t;
  editItems : list TransactionItem.t;
  editDialogOpen : bool
}.

(** One element of [transactionsWithItems]: a header with
    [transaction_items: items || []].  The error of the item read is not
    looked at: when the read fails ([items_fault]) there is no [data] and the
    header goes on with no items. *)
Definition with_items (db : Store.t) (items_fault : bool) (t : Transaction.t)
    : Transaction.t * list TransactionItem.t :=
  (t, if items_fault then [] else Store.items_of db (Transaction.id t)).

Definition handleEdit (transaction : Transaction.t * list TransactionItem.t) : State :=
  mkState (Some (fst transaction)) (snd transaction) true.

Definition updateItemQuantity (editItems : list TransactionItem.t)
    (itemId : string) (quantity : Z) : list TransactionItem.t :=
  map (fun item =>
         if (TransactionItem.id item =? itemId)%string
         then TransactionItem.mk (TransactionItem.id item)
                (TransactionItem.transaction_id item)
                (TransactionItem.product_code item)
                (TransactionItem.product_name item)
                quantity
                (TransactionItem.price item)
                (quantity * TransactionItem.price item)
         else item)
      editItems.

Definition updateItemPrice (editItems : list TransactionItem.t)
    (itemId : string) (price : Z) : list TransactionItem.t :=
  map (fun item =>
         if (TransactionItem.id item =? itemId)%string
         then TransactionItem.mk (TransactionItem.id item)
                (TransactionItem.transaction_id item)
                (TransactionItem.product_code item)
                (TransactionItem.product_name item)
                (TransactionItem.quantity item)
                price
                (TransactionItem.quantity item * price)
         else item)
      editItems.

(** The three inputs of the edit dialog; each carries what [parseInt] or
    [parseFloat] reads from the field, and the handlers take [value || 0]. *)
Inductive EditEvent : Type :=
| ChangeQuantity : string -> JS.number -> EditEvent
| ChangePrice : string -> JS.number -> EditEvent
| ChangePayment : JS.number -> EditEvent.

Definition step (st : State) (e : EditEvent) : State :=
  match e with
  | ChangeQuantity itemId v =>
      mkState (editingTransaction st)
        (updateItemQuantity (editItems st) itemId (JS.orZero v))
        (editDialogOpen st)
  | ChangePrice itemId v =>
      mkState (editingTransaction st)
        (updateItemPrice (editItems st) itemId (JS.orZero v))
        (editDialogOpen st)
  | ChangePayment v =>
      mkState
        (match editingTransaction st with
         | Some t =>
             Some (Transaction.mk (Transaction.id t) (Transaction.transaction_date t)
                     (Transaction.total_amount t) (JS.orZero v)
                     (Transaction.change_amount t))
         | None => None
         end)
        (editItems st) (editDialogOpen st)
  end.

Record Outcome : Type := mkOutcome {
  state : State;
  db : Store.t;
  toasts : list Toast
}.

(** The [for (const item of editItems)] loop: the [i]-th update fails when
    [item_fault i]; the loop stops there. *)
Fixpoint update_items (db0 : Store.t) (item_fault : nat -> bool) (i : nat)
    (items : list TransactionItem.t) : Store.t * option Toast :=
  match items with
  | [] => (db0, None)
  | item :: rest =>
      match Store.update_transaction_item db0 (item_fault i)
              (TransactionItem.id item)
              (TransactionItem.quantity item)
              (TransactionItem.price item)
              (TransactionItem.quantity item * TransactionItem.price item) with
      | (db1, Store.error _) => (db1, Some (toast_error "Failed to update items"))
      | (db1, Store.data _) => update_items db1 item_fault (S i) rest
      end
  end.

Definition handleSaveEdit (st : State) (db0 : Store.t)
    (transaction_fault : bool) (item_fault : nat -> bool) : Outcome :=
  match editingTransaction st with
  | None => mkOutcome st db0 []
  | Some editingTransaction =>
      let newTotal :=
        fold_left (fun sum item => sum + TransactionItem.subtotal item)
                  (editItems st) 0 in
      match Store.update_transaction db0 transaction_fault
              (Transaction.id editingTransaction)
              newTotal
              (Transaction.payment_amount editingTransaction)
              (Transaction.payment_amount editingTransaction - newTotal) with
      | (db1, Store.error _) =>
          mkOutcome st db1 [toast_error "Failed to update transaction"]
      | (db1, Store.data _) =>
          match update_items db1 item_fault 0 (editItems st) with
          | (db2, Some t) => mkOutcome st db2 [t]
          | (db2, None) =>
              mkOutcome (mkState (Some editingTransaction) (editItems st) false) db2
                [toast_success "Transaction updated successfully"]
          end
      end
  end.

Definition totalRevenue (transactions : list Transaction.t) : Z :=
  fold_left (fun sum t => sum + Transaction.total_amount t) transactions 0.

(** [handleDelete(id)]; [confirmed] is the answer to the [confirm] box.  The
    reply to the first delete is not looked at. *)
Definition handleDelete (db0 : Store.t) (confirmed : bool) (id : string)
    (items_fault transaction_fault : bool) : Store.t * list Toast :=
  if confirmed
  then
    let (db1, _) := Store.delete_transaction_items db0 items_fault id in
    match Store.delete_transaction db1 transaction_fault id with
    | (db2, Store.error _) => (db2, [toast_error "Failed to delete transaction"])
    | (db2, Store.data _) => (db2, [toast_success "Transaction deleted successfully"])
    end
  else (db0, []).

(** A [Set<string>] as the list of its members in the order they went in. *)
Definition has (rows : list string) (id : string) : bool :=
  existsb (String.eqb id) rows.

Definition toggleRow (expandedRows : list string) (id : string) : list string :=
  let newExpanded := expandedRows in
  if has newExpanded id
  then filter (fun x => negb (x =? id)%string) newExpanded
  else newExpanded ++ [id].

End Reports.

(** ** The withdrawal screen *)

Module Withdrawals.

(** [withdrawalAmount] is the amount field as [parseFloat] reads it. *)
Record State : Type := mkState {
  withdrawals : list Withdrawal.t;
  totalRevenue : Z;
  withdrawalDate : string;
  withdrawalName : string;
  withdrawalAmount : JS.number
}.

(** What the store answers during one [handleAddWithdrawal] and the
    [fetchData] that follows it; [clock] is [format(new Date(), "HH:mm:ss")]. *)
Record Env : Type := mkEnv {
  insert_fault : bool;
  new_id : string;
  clock : string;
  revenue_fault : bool;
  withdrawals_fault : bool
}.

Record Outcome : Type := mkOutcome {
  state : State;
  db : Store.t;
  toasts : list Toast
}.

Definition totalWithdrawals (withdrawals : list Withdrawal.t) : Z :=
  fold_left (fun sum w => sum + Withdrawal.amount w) withdrawals 0.

Definition availableBalance (st : State) : Z :=
  totalRevenue st - totalWithdrawals (withdrawals st).

(** The revenue is summed over the transactions as they come; the
    withdrawals come back newest first. *)
Definition fetchData (st : State) (db0 : Store.t)
    (revenue_fault withdrawals_fault : bool) : State * list Toast :=
  let (revenue, t1) :=
    if revenue_fault
    then (totalRevenue st, [toast_error "Failed to load revenue data"])
    else (fold_left (fun sum t => sum + Transaction.total_amount t)
                    (Store.transactions db0) 0, []) in
  let (loaded, t2) :=
    if withdrawals_fault
    then (withdrawals st, [toast_error "Failed to load withdrawals"])
    else (Store.select_withdrawals db0, []) in
  (mkState loaded revenue (withdrawalDate st) (withdrawalName st)
     (withdrawalAmount st),
   (t1 ++ t2)%list).

Definition handleAddWithdrawal (st : State) (db0 : Store.t) (env : Env) : Outcome :=
  let amount := withdrawalAmount st in
  if (String.length (JS.trim (withdrawalName st)) =? 0)%nat
  then mkOutcome st db0 [toast_error "Withdrawal name is required"]
  else if JS.isNaN amount || JS.le amount (JS.Num 0)
  then mkOutcome st db0 [toast_error "Please enter a valid withdrawal amount"]
  else
    let totalWithdrawals := totalWithdrawals (withdrawals st) in
    let availableBalance := totalRevenue st - totalWithdrawals in
    if JS.gt amount (JS.Num availableBalance)
    then mkOutcome st db0
           [toast_error "Withdrawal amount cannot exceed available balance"]
    else
      match Store.insert_withdrawal db0 (insert_fault env) (new_id env)
              (withdrawalDate st ++ "T" ++ clock env)%string
              (withdrawalName st) (JS.orZero amount) with
      | (db1, Store.error _) =>
          mkOutcome st db1 [toast_error "Failed to add withdrawal"]
      | (db1, Store.data _) =>
          let cleared :=
            mkState (withdrawals st) (totalRevenue st) (withdrawalDate st)
              "" JS.NaN in
          let (st', ts) :=
            fetchData cleared db1 (revenue_fault env) (withdrawals_fault env) in
          mkOutcome st' db1 (toast_success "Withdrawal added successfully" :: ts)
      end.

(** [handleDelete(id)]; [confirmed] is the answer to the [confirm] box. *)
Definition handleDelete (st : State) (db0 : Store.t) (confirmed : bool)
    (id : string) (delete_fault revenue_fault withdrawals_fault : bool) : Outcome :=
  if confirmed
  then
    match Store.delete_withdrawal db0 delete_fault id with
    | (db1, Store.error _) =>
        mkOutcome st db1 [toast_error "Failed to delete withdrawal"]
    | (db1, Store.data _) =>
        let (st', ts) := fetchData st db1 revenue_fault withdrawals_fault in
        mkOutcome st' db1 (toast_success "Withdrawal deleted successfully" :: ts)
    end
  else mkOutcome st db0 [].

End Withdrawals.

(** ** The product screen *)

Module Products.

Record FormData : Type := mkFormData {
  code : string;
  name : string;
  price : JS.number
}.

Record Env : Type := mkEnv {
  code_fault : bool;
  write_fault : bool;
  new_id : string
}.

Definition generateNextCode (db0 : Store.t) (fault : bool) : string :=
  match Store.last_code db0 fault with
  | Some (lastCode :: _) =>
      let num := JS.add (JS.parseInt (JS.substring1 lastCode)) (JS.Num 1) in
      ("P" ++ JS.padStart0 3 (JS.toString num))%string
  | _ => "P001"
  end.

Definition handleSubmit (formData : FormData) (editingProduct : option Product.t)
    (db0 : Store.t) (env : Env) : Store.t * list Toast :=
  let code0 := JS.trim (code formData) in
  let code1 :=
    if (String.length code0 =? 0)%nat
    then generateNextCode db0 (code_fault env)
    else code0 in
  match editingProduct with
  | Some p =>
      match Store.update_product db0 (write_fault env) (Product.id p) code1
              (JS.trim (name formData)) (price formData) with
      | (db1, Store.error _) => (db1, [toast_error "Failed to update product"])
      | (db1, Store.data _) => (db1, [toast_success "Product updated successfully"])
      end
  | None =>
      match Store.insert_product db0 (write_fault env) (new_id env) code1
              (JS.trim (name formData)) (price formData) with
      | (db1, Store.error _) => (db1, [toast_error "Failed to add product"])
      | (db1, Store.data _) => (db1, [toast_success "Product added successfully"])
      end
  end.

(** [handleEdit(product)]: the product to edit and the form filled from it;
    the price field holds [product.price.toString()], which reads back as
    the price. *)
Definition handleEdit (product : Product.t) : option Product.t * FormData :=
  (Some product,
   mkFormData (Product.code product) (Product.name product)
     (JS.Num (Product.price product))).

(** [handleClose()]: no product to edit and an empty form (the empty price
    field reads [NaN]). *)
Definition handleClose : option Product.t * FormData :=
  (None, mkFormData "" "" JS.NaN).

(** [handleDelete(id)]; [confirmed] is the answer to the [confirm] box. *)
Definition handleDelete (db0 : Store.t) (confirmed : bool) (id : string)
    (fault : bool) : Store.t * list Toast :=
  if confirmed
  then
    match Store.delete_product db0 fault id with
    | (db1, Store.error _) => (db1, [toast_error "Failed to delete product"])
    | (db1, Store.data _) => (db1, [toast_success "Product deleted successfully"])
    end
  else (db0, []).

End Products.

(** ** The earlier sales screen

    The copy of the sales screen kept beside the printing-order screen: its
    cart is the same but for the two overrides, which take any input. *)

Module CashierLenient.

(** [newPrice] is the value [parseFloat] reads from the price field. *)
Definition updatePrice (cart : Cashier.Cart) (productId : string) (newPrice : JS.number)
    : Cashier.Cart :=
  let price := JS.orZero newPrice in
  map (fun item =>
         if Cashier.is_product productId item
         then Cashier.with_displayPrice item price
         else item)
      cart.

Definition updateName (cart : Cashier.Cart) (productId : string) (newName : string)
    : Cashier.Cart :=
  map (fun item =>
         if Cashier.is_product productId item
         then Cashier.with_displayName item newName
         else item)
      cart.

End CashierLenient.

(** ** The printing-order screen *)

Module PrintingOrder.
Record t : Type := mk {
  id : string;
  customer_name : string;
  phone_number : string;
  order_name : string;
  is_paid : bool;
  is_completed : bool;
  created_at : string
}.
End PrintingOrder.

Module PrintingOrders.

(** [toast({ title, description, variant })]; [destructive] is
    [variant: "destructive"]. *)
Record Notice : Type := mkNotice {
  title : string;
  description : string;
  destructive : bool
}.

Definition failure (description : string) : Notice := mkNotice "Error" description true.

Definition success (description : string) : Notice := mkNotice "Berhasil" description false.

(** Modelled from the spec: the [printing_orders] collection of the external
    store, with the columns and the primary key [id] of its migration; every
    call takes a [fault] flag as in [Store]. *)
Definition Table : Type := list PrintingOrder.t.

(** Modelled from the spec: [from("printing_orders").insert({...})]; the store
    gives the row its key and [created_at]. *)
Definition insert (table : Table) (fault : bool) (new_id now : string)
    (customer_name phone_number order_name : string) (is_paid is_completed : bool)
    : Table * Store.reply unit :=
  if fault || Store.mem new_id (map PrintingOrder.id table)
  then (table, Store.error "insert printing_orders")
  else
    (table ++ [PrintingOrder.mk new_id customer_name phone_number order_name
                 is_paid is_completed now],
     Store.data tt).

(** Modelled from the spec:
    [from("printing_orders").update({ is_completed }).eq("id", key)] *)
Definition update_completed (table : Table) (fault : bool) (key : string)
    (is_completed : bool) : Table * Store.reply unit :=
  if fault then (table, Store.error "update printing_orders")
  else
    (map (fun r =>
            if (PrintingOrder.id r =? key)%string
            then PrintingOrder.mk (PrintingOrder.id r) (PrintingOrder.customer_name r)
                   (PrintingOrder.phone_number r) (PrintingOrder.order_name r)
                   (PrintingOrder.is_paid r) is_completed (PrintingOrder.created_at r)
            else r)
         table,
     Store.data tt).

(** Modelled from the spec: [from("printing_orders").delete().eq("id", key)] *)
Definition delete (table : Table) (fault : bool) (key : string)
    : Table * Store.reply unit :=
  if fault then (table, Store.error "delete printing_orders")
  else (filter (fun r => negb (PrintingOrder.id r =? key)%string) table, Store.data tt).

Fixpoint insert_newest_first (o : PrintingOrder.t) (l : list PrintingOrder.t)
    : list PrintingOrder.t :=
  match l with
  | [] => [o]
  | x :: r =>
      if String.leb (PrintingOrder.created_at x) (PrintingOrder.created_at o)
      then o :: l
      else x :: insert_newest_first o r
  end.

(** Modelled from the spec:
    [from("printing_orders").select("*").order("created_at", {ascending: false})];
    the dates are compared as the text the store prints them as. *)
Definition select_newest_first (table : Table) : list PrintingOrder.t :=
  fold_right insert_newest_first [] table.

Record State : Type := mkState {
  orders : list PrintingOrder.t;
  customerName : string;
  phoneNumber : string;
  orderName : string;
  isPaid : string
}.

Record Env : Type := mkEnv {
  write_fault : bool;
  new_id : string;
  now : string;
  fetch_fault : bool
}.

Record Outcome : Type := mkOutcome {
  state : State;
  table : Table;
  notices : list Notice
}.

Definition fetchOrders (st : State) (table0 : Table) (fault : bool)
    : State * list Notice :=
  if fault
  then (st, [failure "Gagal memuat data orderan"])
  else
    (mkState (select_newest_first table0) (customerName st) (phoneNumber st)
       (orderName st) (isPaid st),
     []).

Definition handleSubmit (st : State) (table0 : Table) (env : Env) : Outcome :=
  let trimmedName := JS.trim (customerName st) in
  let trimmedPhone := JS.trim (phoneNumber st) in
  let trimmedOrder := JS.trim (orderName st) in
  if (String.length trimmedName =? 0)%nat
  then mkOutcome st table0 [failure "Nama pelanggan tidak boleh kosong"]
  else if (String.length trimmedPhone =? 0)%nat
  then mkOutcome st table0 [failure "Nomor HP tidak boleh kosong"]
  else if (String.length trimmedOrder =? 0)%nat
  then mkOutcome st table0 [failure "Nama orderan tidak boleh kosong"]
  else
    match insert table0 (write_fault env) (new_id env) (now env)
            trimmedName trimmedPhone trimmedOrder
            (isPaid st =? "true")%string false with
    | (table1, Store.error _) =>
        mkOutcome st table1 [failure "Gagal menambahkan orderan"]
    | (table1, Store.data _) =>
        let (st', ns) :=
          fetchOrders (mkState (orders st) "" "" "" "false") table1 (fetch_fault env) in
        mkOutcome st' table1 (success "Orderan berhasil ditambahkan" :: ns)
    end.

Definition handleToggleComplete (st : State) (table0 : Table) (orderId : string)
    (currentStatus : bool) (update_fault fetch_fault : bool) : Outcome :=
  match update_completed table0 update_fault orderId (negb currentStatus) with
  | (table1, Store.error _) =>
      mkOutcome st table1 [failure "Gagal mengubah status orderan"]
  | (table1, Store.data _) =>
      let (st', ns) := fetchOrders st table1 fetch_fault in
      mkOutcome st' table1
        (success (if currentStatus then "Orderan dipindahkan ke proses"
                  else "Orderan selesai")
         :: ns)
  end.

(** [confirmed] is the answer to the [confirm] box. *)
Definition handleDelete (st : State) (table0 : Table) (confirmed : bool)
    (orderId : string) (delete_fault fetch_fault : bool) : Outcome :=
  if negb confirmed then mkOutcome st table0 []
  else
    match delete table0 delete_fault orderId with
    | (table1, Store.error _) => mkOutcome st table1 [failure "Gagal menghapus orderan"]
    | (table1, Store.data _) =>
        let (st', ns) := fetchOrders st table1 fetch_fault in
        mkOutcome st' table1 (success "Orderan berhasil dihapus" :: ns)
    end.



End PrintingOrders.

(** ** Notions the properties are stated with *)

(** Sum of a list of amounts. *)
Definition Zsum (l : list Z) : Z := fold_right Z.add 0 l.

(** The extended price of a cart line. *)
Definition line_subtotal (item : CartItem.t) : Z :=
  CartItem.displayPrice item * CartItem.quantity item.

Definition product_id (item : CartItem.t) : string :=
  Product.id (CartItem.product item).

(** A cart holds at most one line per product and no line below quantity 1. *)
Definition cart_inv (cart : Cashier.Cart) : Prop :=
  NoDup (map product_id cart)
  /\ Forall (fun item => 1 <= CartItem.quantity item) cart.

(** The carts the screen can show: what a run of events makes of the empty
    cart. *)
Definition reachable_cart (cart : Cashier.Cart) : Prop :=
  exists events, cart = fold_left Cashier.step events [].

(** The overrides the specification lets through: a name that is not empty
    once trimmed, a price that is a number and not negative. *)
Definition name_not_blank (newName : string) : Prop := JS.trim newName <> "".

Definition price_numeric_nonneg (newPrice : JS.number) : bool :=
  negb (JS.isNaN newPrice) && JS.le (JS.Num 0) newPrice.

(** The prices [updatePrice] lets through. *)
Definition price_positive (newPrice : JS.number) : Prop :=
  exists v, newPrice = JS.Num v /\ 0 < v.

(** The payments [handlePayment] turns down: no number in the field, 0, or
    less than the total. *)
Definition payment_refused (payment : JS.number) (total : Z) : Prop :=
  match payment with
  | JS.NaN => True
  | JS.Num p => p = 0 \/ p < total
  end.

(** The store takes the new header: the call goes through and the key is new. *)
Definition transaction_accepted (db : Store.t) (env : Cashier.Env) : Prop :=
  Cashier.transaction_fault env = false
  /\ ~ In (Cashier.new_transaction_id env) (map Transaction.id (Store.transactions db)).

(** The store takes [n] new item rows: the call goes through and their keys
    are new and distinct. *)
Definition items_accepted (db : Store.t) (env : Cashier.Env) (n : nat) : Prop :=
  Cashier.items_fault env = false
  /\ NoDup (map (Cashier.new_item_id env) (seq 0 n))
  /\ (forall i, (i < n)%nat ->
        ~ In (Cashier.new_item_id env i)
             (map TransactionItem.id (Store.transaction_items db))).

(** The row a cart line is stored as. *)
Definition sold_row (key transactionId : string) (item : CartItem.t)
    : TransactionItem.t :=
  TransactionItem.mk key transactionId
    (Product.code (CartItem.product item))
    (CartItem.displayName item)
    (CartItem.quantity item)
    (CartItem.displayPrice item)
    (CartItem.displayPrice item * CartItem.quantity item).

(** ** Sample data: rows of the seed migration and the carts of the examples *)

Definition kertas : Product.t := Product.mk "id-1" "P001" "Kertas A4 80gr (1 Rim)" 50000.
Definition print_bw : Product.t := Product.mk "id-2" "P002" "Print Hitam Putih A4" 500.
Definition print_warna : Product.t := Product.mk "id-3" "P003" "Print Warna A4" 2000.

(** The cart of the specification's example: 2 at 500 and 1 at 2000. *)
Definition example_cart : Cashier.Cart :=
  [CartItem.mk print_bw 2 500 "Print Hitam Putih A4";
   CartItem.mk print_warna 1 2000 "Print Warna A4"].


(** A product given away, and a cart holding it. *)
Definition brosur : Product.t := Product.mk "id-8" "P008" "Brosur" 0.

Definition free_cart : Cashier.Cart := [CartItem.mk brosur 1 0 "Brosur"].

Definition example_env : Cashier.Env :=
  Cashier.mkEnv false "t-1" "2025-01-01T10:00:00" false
    (fun i => match i with O => "i-1" | S O => "i-2" | _ => "i-3" end) true.

(** The sale of the specification's example: the example cart paid with 5000. *)
Definition example_sale : Cashier.State :=
  Cashier.mkState example_cart (JS.Num 5000) true.

(** ** Notions for the withdrawal screen *)

Definition name_blank (name : string) : Prop := JS.trim name = "".

(** An amount that is not a positive number. *)
Definition amount_invalid (amount : JS.number) : Prop :=
  match amount with JS.NaN => True | JS.Num a => a <= 0 end.

(** An amount above the balance. *)
Definition amount_exceeds (amount : JS.number) (balance : Z) : Prop :=
  match amount with JS.NaN => False | JS.Num a => balance < a end.

(** The test the specification gives for a withdrawal: the amount alone. *)
Definition amount_refused (amount : JS.number) (balance : Z) : bool :=
  JS.isNaN amount || JS.le amount (JS.Num 0) || JS.gt amount (JS.Num balance).

(** The store takes the new withdrawal: the call goes through and the key is
    new. *)
Definition withdrawal_accepted (db : Store.t) (env : Withdrawals.Env) : Prop :=
  Withdrawals.insert_fault env = false
  /\ ~ In (Withdrawals.new_id env) (map Withdrawal.id (Store.withdrawals db)).

(** The ledgers of the specification's example: revenue 100000, 30000
    withdrawn. *)
Definition example_ledger : Store.t :=
  Store.mk []
    [Transaction.mk "t-1" "2025-01-01T10:00:00" 60000 100000 40000;
     Transaction.mk "t-2" "2025-01-02T11:00:00" 40000 50000 10000]
    []
    [Withdrawal.mk "w-1" "2025-01-03T09:00:00" "Setoran bank" 30000].

(** The same ledgers after a second withdrawal, of 20000 a day later. *)
Definition two_withdrawals : Store.t :=
  Store.with_withdrawals example_ledger
    [Withdrawal.mk "w-1" "2025-01-03T09:00:00" "Setoran bank" 30000;
     Withdrawal.mk "w-2" "2025-01-04T09:30:00" "Gaji" 20000].

Definition example_withdrawal (name : string) (amount : JS.number) : Withdrawals.State :=
  Withdrawals.mkState (Store.withdrawals example_ledger) 100000 "2025-01-04"
    name amount.

Definition example_withdrawal_env : Withdrawals.Env :=
  Withdrawals.mkEnv false "w-2" "09:30:00" false false.

(** ** Sample data for the report screen *)

(** The example sale as stored, and an edit of it: the second line goes from
    1 to 3 pieces and the payment to 10000. *)
Definition example_report : Store.t :=
  Store.mk []
    [Transaction.mk "t-1" "2025-01-01T10:00:00" 3000 5000 2000]
    [TransactionItem.mk "i-1" "t-1" "P002" "Print Hitam Putih A4" 2 500 1000;
     TransactionItem.mk "i-2" "t-1" "P003" "Print Warna A4" 1 2000 2000]
    [].

Definition example_header : Transaction.t :=
  Transaction.mk "t-1" "2025-01-01T10:00:00" 3000 5000 2000.

Definition example_edit : Reports.State :=
  fold_left Reports.step
    [Reports.ChangeQuantity "i-2" (JS.Num 3); Reports.ChangePayment (JS.Num 10000)]
    (Reports.handleEdit (Reports.with_items example_report false example_header)).

(** ** Notions for the ledger of sales *)

(** An item row whose subtotal is its quantity times its price. *)
Definition item_booked (r : TransactionItem.t) : Prop :=
  TransactionItem.subtotal r = TransactionItem.quantity r * TransactionItem.price r.

(** A header whose total is the sum of the subtotals of its item rows. *)
Definition balanced (db : Store.t) (t : Transaction.t) : Prop :=
  Zsum (map TransactionItem.subtotal (Store.items_of db (Transaction.id t)))
  = Transaction.total_amount t.

(** The ledger of sales is in order: item rows have distinct keys, refer to
    stored headers and are booked, and every header is balanced. *)
Definition store_inv (db : Store.t) : Prop :=
  NoDup (map TransactionItem.id (Store.transaction_items db))
  /\ Forall (fun r => In (TransactionItem.transaction_id r)
                         (map Transaction.id (Store.transactions db)))
            (Store.transaction_items db)
  /\ Forall item_booked (Store.transaction_items db)
  /\ Forall (balanced db) (Store.transactions db).

(** The example sale rung up once more, a little later. *)
Definition second_env : Cashier.Env :=
  Cashier.mkEnv false "t-2" "2025-01-01T10:05:00" false
    (fun i => match i with O => "i-1" | S O => "i-2" | _ => "i-3" end) true.

(** The item rows as the constraints of the store and the writes of the
    screens leave them: distinct keys, each row referring to a stored header,
    each row booked.  Nothing is asked of the totals of the headers. *)
Definition rows_inv (db : Store.t) : Prop :=
  NoDup (map TransactionItem.id (Store.transaction_items db))
  /\ Forall (fun r => In (TransactionItem.transaction_id r)
                         (map Transaction.id (Store.transactions db)))
            (Store.transaction_items db)
  /\ Forall item_booked (Store.transaction_items db).

(** The example sale against a store that refuses the item rows. *)
Definition failing_env : Cashier.Env :=
  Cashier.mkEnv false "t-1" "2025-01-01T10:00:00" true (fun _ => "i-1") true.

(** The stored row [r] once the edited item [e] has been written over it. *)
Definition patched (e r : TransactionItem.t) : TransactionItem.t :=
  TransactionItem.mk (TransactionItem.id r) (TransactionItem.transaction_id r)
    (TransactionItem.product_code r) (TransactionItem.product_name r)
    (TransactionItem.quantity e) (TransactionItem.price e)
    (TransactionItem.quantity e * TransactionItem.price e).

(** The item table after the update sent for [e]. *)
Definition write_edit (e : TransactionItem.t) (rows : list TransactionItem.t)
    : list TransactionItem.t :=
  map (fun r => if (TransactionItem.id r =? TransactionItem.id e)%string
                then patched e r else r)
      rows.

(** What the updates sent for [edits] make of one stored row. *)
Definition edit_of (edits : list TransactionItem.t) (r : TransactionItem.t)
    : TransactionItem.t :=
  match find (fun e => (TransactionItem.id e =? TransactionItem.id r)%string) edits with
  | Some e => patched e r
  | None => r
  end.

(** An edit dialog that was opened on the stored transaction [t], as the
    report listed it after a read of its item rows that failed or not, and
    has seen [events] since. *)
Definition edit_session (db : Store.t) (items_fault : bool) (t : Transaction.t)
    (events : list Reports.EditEvent) : Reports.State :=
  fold_left Reports.step events
    (Reports.handleEdit (Reports.with_items db items_fault t)).

(** ** Sample data for the product screen *)

(** A catalog with one numbered code and one code typed in by hand. *)
Definition stapler_catalog : Store.t :=
  Store.with_products Store.empty
    [Product.mk "id-1" "P001" "Kertas A4 80gr (1 Rim)" 50000;
     Product.mk "id-9" "STAPLER" "Stapler" 15000].

(** A catalog that has reached the code P1000. *)
Definition thousand_catalog : Store.t :=
  Store.with_products Store.empty
    [Product.mk "id-999" "P999" "Map plastik" 2500;
     Product.mk "id-1000" "P1000" "Amplop" 500].

(** The form of the product dialog with the code field left blank. *)
Definition blank_code_form : Products.FormData :=
  Products.mkFormData "" "Lakban" (JS.Num 12000).

(** The numbered code of [n]. *)
Definition numbered_code (n : nat) : string :=
  ("P" ++ JS.padStart0 3 (JS.decimal (Z.of_nat n)))%string.

(** [k] products created one after the other with the code field left blank;
    the store gives the [k]-th the key [id-k]. *)
Fixpoint create_blank (k : nat) (db : Store.t) : Store.t :=
  match k with
  | O => db
  | S k' =>
      fst (Products.handleSubmit blank_code_form None (create_blank k' db)
             (Products.mkEnv false false ("id-" ++ JS.decimal (Z.of_nat k))%string))
  end.

(** ** Notions for product codes *)

Definition is_digit (c : ascii) : bool :=
  let n := N_of_ascii c in ((48 <=? n) && (n <=? 57))%N.

Fixpoint all_digits (s : string) : bool :=
  match s with
  | EmptyString => true
  | String c r => is_digit c && all_digits r
  end.

(** The number a string of decimal digits writes, continuing from [v]. *)
Fixpoint decimal_value (v : Z) (s : string) : Z :=
  match s with
  | EmptyString => v
  | String c r => decimal_value (v * 10 + (Z.of_N (N_of_ascii c) - 48)) r
  end.

(** The numeric part of a code: what follows its first character, when that
    is a string of decimal digits and not empty. *)
Definition numeric_part (code : string) : option Z :=
  match code with
  | String _ (String c r) =>
      if all_digits (String c r) then Some (decimal_value 0 (String c r)) else None
  | _ => None
  end.

(** The greatest of the codes in the order the store sorts them by. *)
Definition greatest_code (codes : list string) (m : string) : Prop :=
  In m codes /\ forall c, In c codes -> String.leb c m = true.

(** ** Notions for the further properties *)

(** What the store holds to withdraw from: all revenue minus all
    withdrawals. *)
Definition store_balance (db : Store.t) : Z :=
  Zsum (map Transaction.total_amount (Store.transactions db))
  - Zsum (map Withdrawal.amount (Store.withdrawals db)).

(** A list in descending order of a text column: every row comes before the
    rows whose column is not greater. *)
Definition in_descending_order {Row : Type} (column : Row -> string)
    (rows : list Row) : Prop :=
  StronglySorted (fun a b => String.leb (column b) (column a) = true) rows.

(** The withdrawal screen shows the ledgers as the store has them: the
    withdrawals of the store, each once, newest first, and the revenue of
    the store. *)
Definition loaded (st : Withdrawals.State) (db : Store.t) : Prop :=
  Permutation (Withdrawals.withdrawals st) (Store.withdrawals db)
  /\ in_descending_order Withdrawal.withdrawal_date (Withdrawals.withdrawals st)
  /\ Withdrawals.totalRevenue st
     = Zsum (map Transaction.total_amount (Store.transactions db)).

(** A catalog with distinct keys and distinct codes. *)
Definition catalog_inv (db : Store.t) : Prop :=
  NoDup (map Product.id (Store.products db))
  /\ NoDup (map Product.code (Store.products db)).

(** The catalog of the seed migration's first three products. *)
Definition seed_catalog : Store.t :=
  Store.with_products Store.empty [kertas; print_bw; print_warna].

(** Two printing orders that differ at most in whether they are completed. *)
Definition same_but_completed (o o' : PrintingOrder.t) : Prop :=
  PrintingOrder.id o' = PrintingOrder.id o
  /\ PrintingOrder.customer_name o' = PrintingOrder.customer_name o
  /\ PrintingOrder.phone_number o' = PrintingOrder.phone_number o
  /\ PrintingOrder.order_name o' = PrintingOrder.order_name o
  /\ PrintingOrder.is_paid o' = PrintingOrder.is_paid o
  /\ PrintingOrder.created_at o' = PrintingOrder.created_at o.

(** The order [o] with its completion set to [done]. *)
Definition completed_as (o : PrintingOrder.t) (done : bool) : PrintingOrder.t :=
  PrintingOrder.mk (PrintingOrder.id o) (PrintingOrder.customer_name o)
    (PrintingOrder.phone_number o) (PrintingOrder.order_name o)
    (PrintingOrder.is_paid o) done (PrintingOrder.created_at o).

(** The printing orders of the examples. *)
Definition banner : PrintingOrder.t :=
  PrintingOrder.mk "o-1" "Budi" "0812" "Banner 2x3 meter" false false
    "2025-01-05T08:00:00".

Definition undangan : PrintingOrder.t :=
  PrintingOrder.mk "o-2" "Sari" "0813" "Undangan 200 lembar" true true
    "2025-01-06T09:00:00".

Definition order_form : PrintingOrders.State :=
  PrintingOrders.mkState [] "  Budi " "0812" " Banner 2x3 meter" "true".


Definition order_env : PrintingOrders.Env :=
  PrintingOrders.mkEnv false "o-3" "2025-01-07T10:00:00" false.

(** A cart whose lines all carry a display price above 0. *)
Definition priced (cart : Cashier.Cart) : Prop :=
  Forall (fun item => 0 < CartItem.displayPrice item) cart.

(** An event that brings no price of 0 or less into the cart. *)
Definition brings_price (e : Cashier.CartEvent) : Prop :=
  match e with
  | Cashier.AddToCart product => 0 < Product.price product
  | _ => True
  end.
(** * Properties *)

(** ** Sums *)

Lemma fold_left_add_shift {A : Type} (f : A -> Z) (l : list A) (a : Z) :
  fold_left (fun sum x => sum + f x) l a = a + Zsum (map f l).
Proof.
  revert a. induction l as [|x l IH]; intros a; simpl.
  - lia.
  - rewrite IH. lia.
Qed.

Lemma totalAmount_lines (cart : Cashier.Cart) :
  Cashier.totalAmount cart = Zsum (map line_subtotal cart).
Proof.
  unfold Cashier.totalAmount.
  rewrite (fold_left_add_shift line_subtotal). lia.
Qed.

(** C2. [totalAmount] is the sum over the lines of the cart of display price
    times quantity, and it is 0 for the cart without lines. *)
Theorem totalAmount_is_sum (cart : Cashier.Cart) :
  Cashier.totalAmount cart = Zsum (map line_subtotal cart)
  /\ Cashier.totalAmount [] = 0.
Proof.
  split; [apply totalAmount_lines|reflexivity].
Qed.

(** ** Lists *)

Lemma filter_all {A : Type} (p : A -> bool) (l : list A) :
  (forall x, In x l -> p x = true) -> filter p l = l.
Proof.
  induction l as [|x l IH]; intros H; simpl; [reflexivity|].
  rewrite (H x (or_introl eq_refl)). f_equal. apply IH.
  intros y Hy. apply H. right. exact Hy.
Qed.

Lemma filter_none {A : Type} (p : A -> bool) (l : list A) :
  (forall x, In x l -> p x = false) -> filter p l = [].
Proof.
  induction l as [|x l IH]; intros H; simpl; [reflexivity|].
  rewrite (H x (or_introl eq_refl)). apply IH.
  intros y Hy. apply H. right. exact Hy.
Qed.

Lemma map_fixed {A : Type} (f : A -> A) (l : list A) :
  (forall x, In x l -> f x = x) -> map f l = l.
Proof.
  induction l as [|x l IH]; intros H; simpl; [reflexivity|].
  rewrite (H x (or_introl eq_refl)). f_equal. apply IH.
  intros y Hy. apply H. right. exact Hy.
Qed.

Lemma NoDup_keys_filter {Row Key : Type} (key : Row -> Key) (keep : Row -> bool)
    (rows : list Row) :
  NoDup (map key rows) -> NoDup (map key (filter keep rows)).
Proof.
  induction rows as [|r rows IH]; simpl; intros Hkeys; [constructor|].
  inversion Hkeys as [|? ? Hr Hrest]; subst.
  destruct (keep r); simpl; [constructor|]; auto.
  intros Hin. apply Hr.
  apply in_map_iff in Hin. destruct Hin as [r' [Hk Hf]].
  apply filter_In in Hf. apply in_map_iff. exists r'. tauto.
Qed.

Lemma NoDup_snoc {A : Type} (l : list A) (a : A) :
  NoDup l -> ~ In a l -> NoDup (l ++ [a]).
Proof.
  induction l as [|x l IH]; simpl; intros Hnd Hin.
  - constructor; [tauto|constructor].
  - inversion Hnd as [|? ? Hx Hl]; subst. constructor.
    + rewrite in_app_iff. simpl. intuition congruence.
    + apply IH; tauto.
Qed.

(** ** The cart *)

Lemma is_product_true (productId : string) (item : CartItem.t) :
  Cashier.is_product productId item = true <-> product_id item = productId.
Proof. unfold Cashier.is_product, product_id. apply String.eqb_eq. Qed.

Lemma is_product_false (productId : string) (item : CartItem.t) :
  Cashier.is_product productId item = false <-> product_id item <> productId.
Proof. unfold Cashier.is_product, product_id. apply String.eqb_neq. Qed.

(** In a cart with one line per product, the lines around a line belong to
    other products. *)
Lemma cart_inv_others (l1 l2 : Cashier.Cart) (item x : CartItem.t) :
  NoDup (map product_id (l1 ++ item :: l2)) ->
  In x (l1 ++ l2) -> Cashier.is_product (product_id item) x = false.
Proof.
  intros Hnd Hx. apply is_product_false. intros Heq.
  rewrite map_app in Hnd. simpl in Hnd.
  apply NoDup_remove_2 in Hnd. apply Hnd.
  rewrite <- map_app, <- Heq. apply in_map. exact Hx.
Qed.

Lemma find_is_product_none (cart : Cashier.Cart) (productId : string) :
  ~ In productId (map product_id cart) ->
  find (Cashier.is_product productId) cart = None.
Proof.
  induction cart as [|x cart IH]; simpl; intros H; [reflexivity|].
  destruct (Cashier.is_product productId x) eqn:E.
  - apply is_product_true in E. tauto.
  - apply IH. tauto.
Qed.

Lemma find_is_product_some (l1 l2 : Cashier.Cart) (item : CartItem.t) :
  exists found,
    find (Cashier.is_product (product_id item)) (l1 ++ item :: l2) = Some found.
Proof.
  induction l1 as [|x l1 IH]; simpl.
  - assert (H : Cashier.is_product (product_id item) item = true)
      by (apply is_product_true; reflexivity).
    rewrite H. eauto.
  - destruct (Cashier.is_product (product_id item) x); eauto.
Qed.

(** Rewriting the lines of one product touches only that product's line. *)
Lemma map_line (f : CartItem.t -> CartItem.t) (l1 l2 : Cashier.Cart)
    (item : CartItem.t) :
  NoDup (map product_id (l1 ++ item :: l2)) ->
  map (fun x => if Cashier.is_product (product_id item) x then f x else x)
      (l1 ++ item :: l2)
  = l1 ++ f item :: l2.
Proof.
  intros Hnd. rewrite map_app. simpl.
  assert (H : Cashier.is_product (product_id item) item = true)
    by (apply is_product_true; reflexivity).
  rewrite H.
  rewrite !map_fixed; [reflexivity| |];
    intros x Hx; rewrite (cart_inv_others l1 l2 item x Hnd); auto;
    apply in_or_app; auto.
Qed.

Lemma map_no_line (f : CartItem.t -> CartItem.t) (cart : Cashier.Cart)
    (productId : string) :
  ~ In productId (map product_id cart) ->
  map (fun x => if Cashier.is_product productId x then f x else x) cart = cart.
Proof.
  intros H. apply map_fixed. intros x Hx.
  destruct (Cashier.is_product productId x) eqn:E; [|reflexivity].
  apply is_product_true in E. exfalso. apply H. rewrite <- E.
  apply in_map. exact Hx.
Qed.

Lemma positive_lines (cart : Cashier.Cart) :
  Forall (fun item => 1 <= CartItem.quantity item) cart ->
  filter (fun item => 0 <? CartItem.quantity item) cart = cart.
Proof.
  intros H. apply filter_all. intros x Hx.
  rewrite Forall_forall in H. specialize (H x Hx). apply Z.ltb_lt. lia.
Qed.

(** C6. [updateQuantity] on a line of the cart: the new quantity is the old
    one plus [delta], clamped to at least 0; when it is 0 the line is removed,
    otherwise the line carries it; the other lines are unchanged.  A product
    without a line leaves the cart as it is. *)
Theorem updateQuantity_clamps (cart : Cashier.Cart) (productId : string) (delta : Z) :
  cart_inv cart ->
  (forall l1 item l2,
      cart = l1 ++ item :: l2 -> product_id item = productId ->
      let q := Z.max 0 (CartItem.quantity item + delta) in
      0 <= q
      /\ Cashier.updateQuantity cart productId delta
         = if q =? 0 then l1 ++ l2 else l1 ++ Cashier.with_quantity item q :: l2)
  /\ (~ In productId (map product_id cart) ->
      Cashier.updateQuantity cart productId delta = cart).
Proof.
  intros [Hnd Hq]. split.
  - intros l1 item l2 -> <- q. split; [lia|].
    unfold Cashier.updateQuantity.
    rewrite (map_line (fun x => Cashier.with_quantity x
                                  (Z.max 0 (CartItem.quantity x + delta))))
      by exact Hnd.
    apply Forall_app in Hq. destruct Hq as [Hq1 Hq2].
    inversion Hq2 as [|? ? _ Hq3]; subst.
    rewrite filter_app. simpl. fold q.
    rewrite !positive_lines by assumption.
    destruct (Z.eqb_spec q 0) as [E|E].
    + rewrite E. reflexivity.
    + replace (0 <? q) with true; [reflexivity|].
      symmetry. apply Z.ltb_lt. lia.
  - intros Hno. unfold Cashier.updateQuantity.
    rewrite map_no_line by exact Hno. apply positive_lines. exact Hq.
Qed.

Lemma example_cart_inv : cart_inv example_cart.
Proof.
  split.
  - repeat constructor; simpl; intuition discriminate.
  - repeat constructor; simpl; lia.
Defined.

Lemma updateQuantity_clamps_witness :
  Cashier.updateQuantity example_cart "id-3" (-1) = [CartItem.mk print_bw 2 500 "Print Hitam Putih A4"].
Proof.
  exact (proj2 (proj1 (updateQuantity_clamps example_cart "id-3" (-1) example_cart_inv)
                  [CartItem.mk print_bw 2 500 "Print Hitam Putih A4"]
                  (CartItem.mk print_warna 1 2000 "Print Warna A4") []
                  eq_refl eq_refl)).
Defined.

(** C7. [addToCart]: with a line for the product in the cart, that line's
    quantity goes up by 1 and nothing else changes; without one, a line of
    quantity 1 with the product's price and name is appended. *)
Theorem addToCart_line (cart : Cashier.Cart) (product : Product.t) :
  cart_inv cart ->
  (forall l1 item l2,
      cart = l1 ++ item :: l2 -> product_id item = Product.id product ->
      Cashier.addToCart cart product
      = l1 ++ Cashier.with_quantity item (CartItem.quantity item + 1) :: l2)
  /\ (~ In (Product.id product) (map product_id cart) ->
      Cashier.addToCart cart product
      = cart ++ [CartItem.mk product 1 (Product.price product) (Product.name product)]).
Proof.
  intros [Hnd _]. split.
  - intros l1 item l2 -> Hid. unfold Cashier.addToCart. rewrite <- Hid.
    destruct (find_is_product_some l1 l2 item) as [found ->].
    apply (map_line (fun x => Cashier.with_quantity x (CartItem.quantity x + 1))).
    exact Hnd.
  - intros Hno. unfold Cashier.addToCart.
    rewrite find_is_product_none by exact Hno. reflexivity.
Qed.

Lemma addToCart_line_witness :
  Cashier.addToCart example_cart print_bw
  = [CartItem.mk print_bw 3 500 "Print Hitam Putih A4";
     CartItem.mk print_warna 1 2000 "Print Warna A4"]
  /\ Cashier.addToCart example_cart kertas
     = example_cart ++ [CartItem.mk kertas 1 50000 "Kertas A4 80gr (1 Rim)"].
Proof.
  destruct (addToCart_line example_cart print_bw example_cart_inv) as [H1 _].
  destruct (addToCart_line example_cart kertas example_cart_inv) as [_ H2].
  split.
  - exact (H1 [] (CartItem.mk print_bw 2 500 "Print Hitam Putih A4")
              [CartItem.mk print_warna 1 2000 "Print Warna A4"] eq_refl eq_refl).
  - apply H2. simpl. intuition discriminate.
Defined.

(** ** The cart invariant *)

Lemma map_keeps_ids (f : CartItem.t -> CartItem.t) (cart : Cashier.Cart) :
  (forall x, product_id (f x) = product_id x) ->
  map product_id (map f cart) = map product_id cart.
Proof.
  intros H. rewrite map_map. apply map_ext. exact H.
Qed.

Lemma cart_inv_map (f : CartItem.t -> CartItem.t) (cart : Cashier.Cart) :
  (forall x, product_id (f x) = product_id x) ->
  (forall x, 1 <= CartItem.quantity x -> 1 <= CartItem.quantity (f x)) ->
  cart_inv cart -> cart_inv (map f cart).
Proof.
  intros Hid Hq [Hnd Hall]. split.
  - rewrite map_keeps_ids by exact Hid. exact Hnd.
  - apply Forall_map. revert Hall. apply Forall_impl. exact Hq.
Qed.

Lemma cart_inv_filter (p : CartItem.t -> bool) (cart : Cashier.Cart) :
  cart_inv cart -> cart_inv (filter p cart).
Proof.
  intros [Hnd Hall]. split.
  - apply NoDup_keys_filter. exact Hnd.
  - rewrite Forall_forall in *. intros x Hx. apply Hall.
    apply filter_In in Hx. tauto.
Qed.

Lemma cart_inv_addToCart (cart : Cashier.Cart) (product : Product.t) :
  cart_inv cart -> cart_inv (Cashier.addToCart cart product).
Proof.
  intros Hinv. unfold Cashier.addToCart.
  destruct (find (Cashier.is_product (Product.id product)) cart) eqn:Hfind.
  - apply cart_inv_map; [| |exact Hinv]; intros x;
      destruct (Cashier.is_product (Product.id product) x); simpl; auto; lia.
  - destruct Hinv as [Hnd Hall]. split.
    + rewrite map_app. simpl. apply NoDup_snoc; [exact Hnd|].
      intros Hin. apply in_map_iff in Hin. destruct Hin as [x [Hx Hin]].
      apply (find_none _ _ Hfind) in Hin.
      apply is_product_false in Hin. tauto.
    + apply Forall_app. split; [exact Hall|]. repeat constructor. simpl. lia.
Qed.

Lemma cart_inv_updateQuantity (cart : Cashier.Cart) (productId : string) (delta : Z) :
  cart_inv cart -> cart_inv (Cashier.updateQuantity cart productId delta).
Proof.
  intros [Hnd _]. unfold Cashier.updateQuantity. split.
  - apply NoDup_keys_filter. rewrite map_keeps_ids; [exact Hnd|].
    intros x. destruct (Cashier.is_product productId x); reflexivity.
  - apply Forall_forall. intros x Hx. apply filter_In in Hx.
    destruct Hx as [_ Hx]. apply Z.ltb_lt in Hx. lia.
Qed.

Lemma cart_inv_updatePrice (cart : Cashier.Cart) (productId : string)
    (newPrice : JS.number) :
  cart_inv cart -> cart_inv (fst (Cashier.updatePrice cart productId newPrice)).
Proof.
  intros Hinv. unfold Cashier.updatePrice.
  destruct (JS.isNaN newPrice || JS.le newPrice (JS.Num 0)); simpl; [exact Hinv|].
  apply cart_inv_map; [| |exact Hinv]; intros x;
    destruct (Cashier.is_product productId x); simpl; auto.
Qed.

Lemma cart_inv_updateName (cart : Cashier.Cart) (productId newName : string) :
  cart_inv cart -> cart_inv (fst (Cashier.updateName cart productId newName)).
Proof.
  intros Hinv. unfold Cashier.updateName.
  destruct (String.length (JS.trim newName) =? 0)%nat; simpl; [exact Hinv|].
  apply cart_inv_map; [| |exact Hinv]; intros x;
    destruct (Cashier.is_product productId x); simpl; auto.
Qed.

Lemma cart_inv_nil : cart_inv [].
Proof. split; constructor. Qed.

Lemma cart_inv_removeFromCart (cart : Cashier.Cart) (productId : string) :
  cart_inv cart -> cart_inv (Cashier.removeFromCart cart productId).
Proof. apply cart_inv_filter. Qed.

Create HintDb cart discriminated.
#[local] Hint Resolve cart_inv_addToCart cart_inv_updateQuantity cart_inv_updatePrice
  cart_inv_updateName cart_inv_removeFromCart cart_inv_nil : cart.

(** C10. Every cart operation keeps the cart at one line per product at
    most and every line at quantity 1 at least. *)
Theorem cart_inv_step (cart : Cashier.Cart) (e : Cashier.CartEvent) :
  cart_inv cart -> cart_inv (Cashier.step cart e).
Proof.
  intros Hinv. destruct e; simpl; auto with cart.
Qed.

Lemma cart_inv_step_witness :
  cart_inv (Cashier.step example_cart (Cashier.UpdateQuantity "id-3" (-1))).
Proof.
  apply (cart_inv_step example_cart (Cashier.UpdateQuantity "id-3" (-1))).
  exact example_cart_inv.
Defined.

(** Every cart the screen can show satisfies the invariant. *)
Lemma reachable_cart_inv (cart : Cashier.Cart) :
  reachable_cart cart -> cart_inv cart.
Proof.
  intros [events ->].
  assert (H : forall c, cart_inv c -> cart_inv (fold_left Cashier.step events c)).
  { induction events as [|e events IH]; intros c Hc; simpl; [exact Hc|].
    apply IH. destruct e; simpl; auto with cart. }
  apply H. apply cart_inv_nil.
Qed.

(** ** Display overrides *)

Lemma length_zero_iff (s : string) : (String.length s =? 0)%nat = true <-> s = "".
Proof.
  destruct s; simpl; split; intros H; try reflexivity; discriminate.
Qed.

Lemma price_guard (newPrice : JS.number) :
  JS.isNaN newPrice || JS.le newPrice (JS.Num 0) = false <-> price_positive newPrice.
Proof.
  unfold price_positive. destruct newPrice as [|v]; simpl.
  - split; [discriminate|]. intros [v [H _]]. discriminate.
  - split.
    + intros H. exists v. split; [reflexivity|]. apply Z.leb_gt. exact H.
    + intros [w [H Hw]]. injection H as ->. apply Z.leb_gt. exact Hw.
Qed.

(** A price that is a number and not negative, 0, is turned down. *)
Lemma updatePrice_rejects_zero :
  price_numeric_nonneg (JS.Num 0) = true
  /\ Cashier.updatePrice example_cart "id-2" (JS.Num 0)
     = (example_cart, [toast_error "Harga harus lebih dari 0"]).
Proof. split; reflexivity. Qed.

(** C8 (amended). [updateName] lets through exactly the names that are not
    empty once trimmed, [updatePrice] exactly the prices that are numbers
    above 0.  An override that is let through changes the display name (to
    the trimmed name) or the display price of the product's line and nothing
    else, without a notification; one that is turned down leaves the cart as
    it is and raises a notification. *)
Theorem display_overrides (cart : Cashier.Cart) (productId newName : string)
    (newPrice : JS.number) :
  cart_inv cart ->
  (name_not_blank newName ->
     snd (Cashier.updateName cart productId newName) = []
     /\ forall l1 item l2,
          cart = l1 ++ item :: l2 -> product_id item = productId ->
          fst (Cashier.updateName cart productId newName)
          = l1 ++ Cashier.with_displayName item (JS.trim newName) :: l2)
  /\ (~ name_not_blank newName ->
        Cashier.updateName cart productId newName
        = (cart, [toast_error "Nama produk tidak boleh kosong"]))
  /\ (price_positive newPrice ->
        snd (Cashier.updatePrice cart productId newPrice) = []
        /\ forall l1 item l2,
             cart = l1 ++ item :: l2 -> product_id item = productId ->
             fst (Cashier.updatePrice cart productId newPrice)
             = l1 ++ Cashier.with_displayPrice item (JS.orZero newPrice) :: l2)
  /\ (~ price_positive newPrice ->
        Cashier.updatePrice cart productId newPrice
        = (cart, [toast_error "Harga harus lebih dari 0"])).
Proof.
  intros [Hnd _]. unfold name_not_blank.
  repeat split.
  - unfold Cashier.updateName.
    destruct (String.length (JS.trim newName) =? 0)%nat eqn:E; [|reflexivity].
    apply length_zero_iff in E. contradiction.
  - intros l1 item l2 -> <-. unfold Cashier.updateName.
    destruct (String.length (JS.trim newName) =? 0)%nat eqn:E.
    + apply length_zero_iff in E. contradiction.
    + simpl. apply (map_line (fun x => Cashier.with_displayName x (JS.trim newName))).
      exact Hnd.
  - intros H. unfold Cashier.updateName.
    destruct (String.length (JS.trim newName) =? 0)%nat eqn:E; [reflexivity|].
    exfalso. apply H. intros Hb. apply length_zero_iff in Hb. congruence.
  - apply price_guard in H. unfold Cashier.updatePrice. rewrite H. reflexivity.
  - intros l1 item l2 -> <-. apply price_guard in H.
    unfold Cashier.updatePrice. rewrite H. simpl.
    apply (map_line (fun x => Cashier.with_displayPrice x (JS.orZero newPrice))).
    exact Hnd.
  - intros H. unfold Cashier.updatePrice.
    destruct (JS.isNaN newPrice || JS.le newPrice (JS.Num 0)) eqn:E; [reflexivity|].
    apply price_guard in E. contradiction.
Qed.

Lemma display_overrides_witness :
  fst (Cashier.updateName example_cart "id-3" "  Print Warna F4 ")
  = [CartItem.mk print_bw 2 500 "Print Hitam Putih A4";
     CartItem.mk print_warna 1 2000 "Print Warna F4"]
  /\ fst (Cashier.updatePrice example_cart "id-3" (JS.Num 2500))
     = [CartItem.mk print_bw 2 500 "Print Hitam Putih A4";
        CartItem.mk print_warna 1 2500 "Print Warna A4"].
Proof.
  destruct (display_overrides example_cart "id-3" "  Print Warna F4 " (JS.Num 2500)
              example_cart_inv) as [Hn [_ [Hp _]]].
  split.
  - assert (Hnb : name_not_blank "  Print Warna F4 ")
      by (unfold name_not_blank; simpl; discriminate).
    exact (proj2 (Hn Hnb) [CartItem.mk print_bw 2 500 "Print Hitam Putih A4"]
             (CartItem.mk print_warna 1 2000 "Print Warna A4") [] eq_refl eq_refl).
  - assert (Hpp : price_positive (JS.Num 2500))
      by (exists 2500; split; [reflexivity|lia]).
    exact (proj2 (Hp Hpp) [CartItem.mk print_bw 2 500 "Print Hitam Putih A4"]
             (CartItem.mk print_warna 1 2000 "Print Warna A4") [] eq_refl eq_refl).
Defined.

(** ** The store's key checks *)

Lemma mem_In (k : string) (ks : list string) : Store.mem k ks = true <-> In k ks.
Proof.
  unfold Store.mem. rewrite existsb_exists. split.
  - intros [x [Hx E]]. apply String.eqb_eq in E. subst. exact Hx.
  - intros H. exists k. split; [exact H|apply String.eqb_refl].
Qed.

Lemma mem_not_In (k : string) (ks : list string) : Store.mem k ks = false <-> ~ In k ks.
Proof.
  rewrite <- mem_In. destruct (Store.mem k ks); split; intros H;
    try reflexivity; try discriminate; try (intros E; discriminate).
  exfalso. apply H. reflexivity.
Qed.

Lemma distinct_NoDup (ks : list string) : Store.distinct ks = true <-> NoDup ks.
Proof.
  induction ks as [|k ks IH]; simpl.
  - split; [constructor|reflexivity].
  - rewrite andb_true_iff, negb_true_iff, mem_not_In, IH. split.
    + intros [H1 H2]. constructor; assumption.
    + intros H. inversion H; subst. tauto.
Qed.

Lemma keyed_ids (new_id : nat -> string) (items : list Store.new_item) (i : nat) :
  map TransactionItem.id (Store.keyed new_id i items)
  = map new_id (seq i (List.length items)).
Proof.
  revert i. induction items as [|x items IH]; intros i; simpl; [reflexivity|].
  rewrite IH. reflexivity.
Qed.

Lemma keyed_payload (new_id : nat -> string) (tid : string) (cart : Cashier.Cart)
    (i : nat) :
  Store.keyed new_id i (Cashier.items_payload tid cart)
  = map (fun p => sold_row (new_id (fst p)) tid (snd p))
        (combine (seq i (List.length cart)) cart).
Proof.
  revert i. induction cart as [|x cart IH]; intros i; simpl; [reflexivity|].
  rewrite <- IH. reflexivity.
Qed.

Lemma nth_error_combine_seq {A : Type} (l : list A) (i k : nat) (x : A) :
  nth_error l k = Some x ->
  nth_error (combine (seq i (List.length l)) l) k = Some ((i + k)%nat, x).
Proof.
  revert i k. induction l as [|y l IH]; intros i k H.
  - destruct k; discriminate.
  - destruct k as [|k]; simpl in *.
    + injection H as ->. rewrite Nat.add_0_r. reflexivity.
    + rewrite (IH (S i) k H). f_equal. f_equal. lia.
Qed.

(** The rows stored for a cart: one per line, in the order of the lines. *)
Lemma keyed_payload_rows (new_id : nat -> string) (tid : string) (cart : Cashier.Cart) :
  let rows := Store.keyed new_id 0 (Cashier.items_payload tid cart) in
  List.length rows = List.length cart
  /\ forall i item, nth_error cart i = Some item ->
       nth_error rows i = Some (sold_row (new_id i) tid item).
Proof.
  simpl. rewrite keyed_payload. split.
  - rewrite length_map, length_combine, length_seq. apply Nat.min_id.
  - intros i item H. rewrite nth_error_map.
    rewrite (nth_error_combine_seq cart 0 i item H). reflexivity.
Qed.

Lemma payload_transaction_id (tid : string) (cart : Cashier.Cart) (new_id : nat -> string)
    (i : nat) (r : TransactionItem.t) :
  In r (Store.keyed new_id i (Cashier.items_payload tid cart)) ->
  TransactionItem.transaction_id r = tid.
Proof.
  rewrite keyed_payload. intros H. apply in_map_iff in H.
  destruct H as [[k item] [<- _]]. reflexivity.
Qed.

(** The store's check on the item rows of a cart, read as a proposition. *)
Lemma items_check (db1 : Store.t) (env : Cashier.Env) (tid : string)
    (cart : Cashier.Cart) :
  In tid (map Transaction.id (Store.transactions db1)) ->
  let rows := Store.keyed (Cashier.new_item_id env) 0 (Cashier.items_payload tid cart) in
  let ids := map TransactionItem.id rows in
  (Cashier.items_fault env
   || negb (Store.distinct ids)
   || existsb (fun k => Store.mem k (map TransactionItem.id (Store.transaction_items db1))) ids
   || negb (forallb (fun r => Store.mem (TransactionItem.transaction_id r)
                                (map Transaction.id (Store.transactions db1))) rows))
  = false
  <-> items_accepted db1 env (List.length cart).
Proof.
  intros Htid rows ids.
  assert (Hids : ids = map (Cashier.new_item_id env) (seq 0 (List.length cart))).
  { unfold ids, rows. rewrite keyed_ids. unfold Cashier.items_payload.
    rewrite length_map. reflexivity. }
  assert (Hfk : forallb (fun r => Store.mem (TransactionItem.transaction_id r)
                           (map Transaction.id (Store.transactions db1))) rows = true).
  { apply forallb_forall. intros r Hr. apply mem_In.
    rewrite (payload_transaction_id tid cart _ 0 r Hr). exact Htid. }
  rewrite Hfk. simpl. rewrite orb_false_r.
  unfold items_accepted. rewrite !orb_false_iff, negb_false_iff, distinct_NoDup.
  rewrite Hids. split.
  - intros [[Hf Hd] He]. repeat split; try assumption.
    intros i Hi Hin.
    assert (Hex : existsb (fun k => Store.mem k
                     (map TransactionItem.id (Store.transaction_items db1)))
                    (map (Cashier.new_item_id env) (seq 0 (List.length cart))) = true).
    { apply existsb_exists. exists (Cashier.new_item_id env i). split.
      - apply in_map. apply in_seq. lia.
      - apply mem_In. exact Hin. }
    congruence.
  - intros [Hf [Hd He]]. repeat split; try assumption.
    destruct (existsb _ _) eqn:E; [|reflexivity].
    apply existsb_exists in E. destruct E as [k [Hk Hm]].
    apply in_map_iff in Hk. destruct Hk as [i [<- Hi]].
    apply in_seq in Hi. apply mem_In in Hm. exfalso. apply (He i); [lia|exact Hm].
Qed.

Lemma transaction_check (db : Store.t) (env : Cashier.Env) :
  Cashier.transaction_fault env
  || Store.mem (Cashier.new_transaction_id env) (map Transaction.id (Store.transactions db))
  = false
  <-> transaction_accepted db env.
Proof.
  unfold transaction_accepted. rewrite orb_false_iff, mem_not_In. tauto.
Qed.

Lemma not_false_true (b : bool) : ~ b = false -> b = true.
Proof. destruct b; [reflexivity|]. intros H. exfalso. apply H. reflexivity. Qed.

(** ** Checkout *)

(** What [handlePayment] does, case by case.  The payment is turned down,
    with a notification and nothing changed, when the field holds no number,
    holds 0, or holds less than the total.  Otherwise the change is the
    payment minus the total, and: when the store takes both inserts, one
    transaction and one item row per cart line are stored, the receipt is
    printed if a window opens for it, and the cart is emptied; when the store
    refuses the header, nothing is stored and the cart is kept; when it
    refuses the item rows, the header stays stored and the cart is kept. *)
Lemma handlePayment_cases (st : Cashier.State) (db : Store.t) (env : Cashier.Env) :
  let cart := Cashier.cart st in
  let total := Cashier.totalAmount cart in
  let out := Cashier.handlePayment st db env in
  (payment_refused (Cashier.paymentAmount st) total ->
     out = Cashier.mkOutcome st db [toast_error "Jumlah pembayaran tidak valid"] None)
  /\ (forall p,
        Cashier.paymentAmount st = JS.Num p -> p <> 0 -> total <= p ->
        let tid := Cashier.new_transaction_id env in
        let header := Transaction.mk tid (Cashier.now env) total p (p - total) in
        (transaction_accepted db env -> items_accepted db env (List.length cart) ->
           exists rows,
             out = Cashier.mkOutcome (Cashier.mkState [] JS.NaN false)
                     (Store.mk (Store.products db)
                        (Store.transactions db ++ [header])
                        (Store.transaction_items db ++ rows)
                        (Store.withdrawals db))
                     [toast_success "Transaksi berhasil"]
                     (if Cashier.receipt_window env
                      then Some (Cashier.mkReceipt tid cart total p (p - total))
                      else None)
             /\ List.length rows = List.length cart
             /\ forall i item, nth_error cart i = Some item ->
                  nth_error rows i
                  = Some (sold_row (Cashier.new_item_id env i) tid item))
        /\ (~ transaction_accepted db env ->
              out = Cashier.mkOutcome st db [toast_error "Gagal menyimpan transaksi"] None)
        /\ (transaction_accepted db env -> ~ items_accepted db env (List.length cart) ->
              out = Cashier.mkOutcome st
                      (Store.with_transactions db (Store.transactions db ++ [header]))
                      [toast_error "Gagal menyimpan detail transaksi"] None)).
Proof.
  intros cart total out. split.
  - intros Href. unfold out, Cashier.handlePayment. fold cart. fold total.
    destruct (Cashier.paymentAmount st) as [|p]; simpl in *; [reflexivity|].
    destruct Href as [-> | Hlt]; [reflexivity|].
    apply Z.ltb_lt in Hlt. rewrite Hlt, orb_true_r. reflexivity.
  - intros p Hp Hnz Hle tid header.
    assert (Hguard : negb (JS.ToBoolean (JS.Num p)) || JS.lt (JS.Num p) (JS.Num total)
                     = false).
    { simpl. apply orb_false_iff. split.
      - apply negb_false_iff, negb_true_iff, Z.eqb_neq. exact Hnz.
      - apply Z.ltb_ge. exact Hle. }
    assert (Hout : out = Cashier.handlePayment st db env) by reflexivity.
    unfold Cashier.handlePayment in Hout. fold cart in Hout. fold total in Hout.
    rewrite Hp, Hguard in Hout. simpl JS.orZero in Hout.
    unfold Store.insert_transaction in Hout. fold tid in Hout.
    assert (Hin : In tid (map Transaction.id (Store.transactions db ++ [header]))).
    { rewrite map_app. apply in_or_app. right. left. reflexivity. }
    pose proof (items_check
                  (Store.with_transactions db (Store.transactions db ++ [header]))
                  env tid cart Hin) as Hitems.
    simpl in Hitems.
    repeat split.
    + intros Ht Hi. apply transaction_check in Ht. fold tid in Ht.
      rewrite Ht in Hout. fold header in Hout.
      unfold Store.insert_transaction_items in Hout. simpl in Hout.
      apply Hitems in Hi. rewrite Hi in Hout.
      eexists. split; [exact Hout|]. apply keyed_payload_rows.
    + intros Ht. rewrite <- transaction_check in Ht. fold tid in Ht.
      apply not_false_true in Ht. rewrite Ht in Hout. exact Hout.
    + intros Ht Hi. apply transaction_check in Ht. fold tid in Ht.
      rewrite Ht in Hout. fold header in Hout.
      unfold Store.insert_transaction_items in Hout. simpl in Hout.
      rewrite <- Hitems in Hi. apply not_false_true in Hi. rewrite Hi in Hout.
      exact Hout.
Qed.

Lemma example_transaction_accepted : transaction_accepted Store.empty example_env.
Proof. split; [reflexivity|]. simpl. tauto. Defined.

Lemma example_items_accepted : items_accepted Store.empty example_env 2.
Proof.
  split; [reflexivity|]. split.
  - simpl. repeat constructor; simpl; intuition discriminate.
  - intros i _. simpl. tauto.
Defined.

(** The specification's example: two lines, 2 at 500 and 1 at 2000, make a
    total of 3000; paid with 5000 the change is 2000. *)
Lemma handlePayment_cases_example :
  Cashier.totalAmount example_cart = 3000
  /\ Cashier.printed (Cashier.handlePayment example_sale Store.empty example_env)
     = Some (Cashier.mkReceipt "t-1" example_cart 3000 5000 2000)
  /\ Cashier.cart (Cashier.state (Cashier.handlePayment example_sale Store.empty example_env))
     = [].
Proof.
  destruct (proj2 (handlePayment_cases example_sale Store.empty example_env) 5000 eq_refl)
    as [Hok _].
  - discriminate.
  - vm_compute. discriminate.
  - destruct (Hok example_transaction_accepted example_items_accepted)
      as [rows [Hout _]].
    rewrite Hout. repeat split.
Defined.

(** C1.  The specification accepts every payment that is there and is not
    less than the total; [handlePayment] does not.  The product form stores a
    product priced 0, and a cart holding it has a total of 0.  With 0 typed
    as the payment the dialog shows the change and leaves the Proses button
    enabled, and [handlePayment], which that button calls, turns the payment
    down as not valid whatever the store would answer: nothing is stored, the
    cart is kept and nothing is printed. *)
Theorem handlePayment_refuses_zero_payment :
  let st := Cashier.mkState free_cart (JS.Num 0) true in
  let total := Cashier.totalAmount (Cashier.cart st) in
  fst (Products.handleSubmit (Products.mkFormData "P008" "Brosur" (JS.Num 0)) None
         Store.empty (Products.mkEnv false false "id-8"))
  = Store.with_products Store.empty [brosur]
  /\ Cashier.addToCart [] brosur = free_cart
  /\ total = 0
  /\ JS.isNaN (Cashier.paymentAmount st) = false
  /\ JS.lt (Cashier.paymentAmount st) (JS.Num total) = false
  /\ Cashier.change_shown (Cashier.paymentAmount st) total = true
  /\ Cashier.proses_disabled (Cashier.paymentAmount st) total = false
  /\ forall db env,
       Cashier.handlePayment st db env
       = Cashier.mkOutcome st db [toast_error "Jumlah pembayaran tidak valid"] None.
Proof. repeat split. Qed.

(** ** Withdrawals *)

Lemma availableBalance_is_difference (st : Withdrawals.State) :
  Withdrawals.availableBalance st
  = Withdrawals.totalRevenue st
    - Zsum (map Withdrawal.amount (Withdrawals.withdrawals st)).
Proof.
  unfold Withdrawals.availableBalance, Withdrawals.totalWithdrawals.
  rewrite (fold_left_add_shift Withdrawal.amount). lia.
Qed.

Lemma withdrawal_check (db : Store.t) (env : Withdrawals.Env) :
  Withdrawals.insert_fault env
  || Store.mem (Withdrawals.new_id env) (map Withdrawal.id (Store.withdrawals db))
  = false
  <-> withdrawal_accepted db env.
Proof.
  unfold withdrawal_accepted. rewrite orb_false_iff, mem_not_In. tauto.
Qed.

(** A withdrawal of a positive amount within the balance, under a blank
    name, is turned down. *)
Lemma handleAddWithdrawal_requires_name :
  let st := example_withdrawal "   " (JS.Num 10000) in
  amount_refused (Withdrawals.withdrawalAmount st) (Withdrawals.availableBalance st)
  = false
  /\ Withdrawals.handleAddWithdrawal st example_ledger example_withdrawal_env
     = Withdrawals.mkOutcome st example_ledger
         [toast_error "Withdrawal name is required"].
Proof. split; reflexivity. Qed.

(** C4 (amended). The available balance is the loaded revenue minus the sum
    of the loaded withdrawals.  [handleAddWithdrawal] turns the request down,
    with a notification and nothing inserted, exactly when the name is blank,
    the amount is not a positive number, or the amount is above the available
    balance.  Otherwise it sends the insert: the withdrawal is stored when the
    store takes it, and nothing changes when the store refuses it. *)
Theorem withdrawal_validation (st : Withdrawals.State) (db : Store.t)
    (env : Withdrawals.Env) :
  let amount := Withdrawals.withdrawalAmount st in
  let balance := Withdrawals.totalRevenue st
                 - Zsum (map Withdrawal.amount (Withdrawals.withdrawals st)) in
  let out := Withdrawals.handleAddWithdrawal st db env in
  Withdrawals.availableBalance st = balance
  /\ (name_blank (Withdrawals.withdrawalName st)
      \/ amount_invalid amount \/ amount_exceeds amount balance ->
      Withdrawals.db out = db /\ Withdrawals.state out = st
      /\ exists msg, Withdrawals.toasts out = [toast_error msg])
  /\ (forall a,
        ~ name_blank (Withdrawals.withdrawalName st) ->
        amount = JS.Num a -> 0 < a -> a <= balance ->
        (withdrawal_accepted db env ->
           Withdrawals.db out
           = Store.with_withdrawals db
               (Store.withdrawals db
                ++ [Withdrawal.mk (Withdrawals.new_id env)
                      (Withdrawals.withdrawalDate st ++ "T" ++ Withdrawals.clock env)%string
                      (Withdrawals.withdrawalName st) a]))
        /\ (~ withdrawal_accepted db env ->
              out = Withdrawals.mkOutcome st db [toast_error "Failed to add withdrawal"])).
Proof.
  intros amount balance out.
  pose proof (availableBalance_is_difference st) as Hbal. fold balance in Hbal.
  unfold Withdrawals.availableBalance in Hbal.
  split; [exact Hbal|]. split.
  - intros Href. unfold out, Withdrawals.handleAddWithdrawal. fold amount.
    destruct (String.length (JS.trim (Withdrawals.withdrawalName st)) =? 0)%nat eqn:En;
      [simpl; eauto|].
    destruct (JS.isNaN amount || JS.le amount (JS.Num 0)) eqn:Ea; [simpl; eauto|].
    rewrite Hbal.
    destruct (JS.gt amount (JS.Num balance)) eqn:Eb; [simpl; eauto|].
    exfalso. destruct Href as [Hn | [Hi | He]].
    + apply length_zero_iff in Hn. congruence.
    + destruct amount as [|a]; simpl in *; [discriminate|].
      apply Z.leb_gt in Ea. lia.
    + destruct amount as [|a]; simpl in *; [contradiction|].
      unfold JS.gt in Eb. simpl in Eb. apply Z.ltb_ge in Eb. lia.
  - intros a Hname Ha Hpos Hle.
    assert (Hout : out = Withdrawals.handleAddWithdrawal st db env) by reflexivity.
    unfold Withdrawals.handleAddWithdrawal in Hout. fold amount in Hout.
    assert (En : (String.length (JS.trim (Withdrawals.withdrawalName st)) =? 0)%nat = false).
    { destruct (String.length _ =? 0)%nat eqn:E; [|reflexivity].
      apply length_zero_iff in E. contradiction. }
    rewrite En, Ha, Hbal in Hout. simpl in Hout.
    assert (E1 : (a <=? 0) = false) by (apply Z.leb_gt; exact Hpos).
    assert (E2 : (balance <? a) = false) by (apply Z.ltb_ge; exact Hle).
    unfold JS.gt in Hout. simpl in Hout. rewrite E1, E2 in Hout. unfold Store.insert_withdrawal in Hout.
    split.
    + intros Hacc. apply withdrawal_check in Hacc. rewrite Hacc in Hout.
      rewrite Hout.
      destruct (Withdrawals.fetchData _ _ _ _). reflexivity.
    + intros Hacc. rewrite <- withdrawal_check in Hacc.
      apply not_false_true in Hacc. rewrite Hacc in Hout. exact Hout.
Qed.

(** The specification's example: revenue 100000 and withdrawals of 30000
    leave 70000; a request of 80000 is turned down. *)
Lemma withdrawal_validation_witness :
  let st := example_withdrawal "Gaji" (JS.Num 80000) in
  Withdrawals.availableBalance st = 70000
  /\ Withdrawals.db (Withdrawals.handleAddWithdrawal st example_ledger example_withdrawal_env)
     = example_ledger.
Proof.
  intros st.
  destruct (withdrawal_validation st example_ledger example_withdrawal_env)
    as [Hb [Hrej _]].
  split; [exact Hb|].
  apply Hrej. right. right. vm_compute. reflexivity.
Defined.

(** ** Saving an edit *)

Lemma update_items_transactions (items : list TransactionItem.t) (db0 : Store.t)
    (item_fault : nat -> bool) (i : nat) :
  Store.transactions (fst (Reports.update_items db0 item_fault i items))
  = Store.transactions db0.
Proof.
  revert db0 i. induction items as [|item items IH]; intros db0 i; simpl;
    [reflexivity|].
  unfold Store.update_transaction_item.
  destruct (item_fault i); simpl; [reflexivity|].
  rewrite IH. reflexivity.
Qed.

Lemma handleSaveEdit_transactions (st : Reports.State) (db0 : Store.t)
    (item_fault : nat -> bool) (editing : Transaction.t) :
  Reports.editingTransaction st = Some editing ->
  let newTotal := Zsum (map TransactionItem.subtotal (Reports.editItems st)) in
  Store.transactions (Reports.db (Reports.handleSaveEdit st db0 false item_fault))
  = map (fun r =>
           if (Transaction.id r =? Transaction.id editing)%string
           then Transaction.mk (Transaction.id r) (Transaction.transaction_date r)
                  newTotal (Transaction.payment_amount editing)
                  (Transaction.payment_amount editing - newTotal)
           else r)
        (Store.transactions db0).
Proof.
  intros He newTotal. unfold Reports.handleSaveEdit. rewrite He.
  rewrite (fold_left_add_shift TransactionItem.subtotal). simpl Z.add.
  fold newTotal. unfold Store.update_transaction.
  match goal with
  | |- context [Reports.update_items ?d ?f ?i ?l] =>
      pose proof (update_items_transactions l d f i) as Hk;
      destruct (Reports.update_items d f i l) as [db2 [t|]]
  end; simpl in *; exact Hk.
Qed.

(** C5. When an edit is saved, every stored header of the edited transaction
    carries as total the sum of the subtotals of the edited items, as payment
    the payment of the edit, and as change that payment minus the new total;
    the transaction is still stored and the other headers are as before. *)
Theorem handleSaveEdit_recomputes (st : Reports.State) (db0 : Store.t)
    (item_fault : nat -> bool) (editing : Transaction.t) :
  Reports.editingTransaction st = Some editing ->
  let newTotal := Zsum (map TransactionItem.subtotal (Reports.editItems st)) in
  let saved := Store.transactions
                 (Reports.db (Reports.handleSaveEdit st db0 false item_fault)) in
  (forall t, In t saved -> Transaction.id t = Transaction.id editing ->
     Transaction.total_amount t = newTotal
     /\ Transaction.payment_amount t = Transaction.payment_amount editing
     /\ Transaction.change_amount t = Transaction.payment_amount editing - newTotal)
  /\ map Transaction.id saved = map Transaction.id (Store.transactions db0)
  /\ (forall t, Transaction.id t <> Transaction.id editing ->
        In t saved <-> In t (Store.transactions db0)).
Proof.
  intros He newTotal saved.
  assert (Hs : saved = _) by exact (handleSaveEdit_transactions st db0 item_fault editing He).
  fold newTotal in Hs. rewrite Hs. clear Hs saved. split; [|split].
  - intros t Hin Hid. apply in_map_iff in Hin. destruct Hin as [r [Hr _]].
    destruct (Transaction.id r =? Transaction.id editing)%string eqn:E.
    + subst t. repeat split.
    + subst t. apply String.eqb_neq in E. contradiction.
  - rewrite map_map. apply map_ext. intros r.
    destruct (Transaction.id r =? Transaction.id editing)%string; reflexivity.
  - intros t Hid. split.
    + intros Hin. apply in_map_iff in Hin. destruct Hin as [r [Hr Hin]].
      destruct (Transaction.id r =? Transaction.id editing)%string eqn:E.
      * apply String.eqb_eq in E. subst t. simpl in Hid. contradiction.
      * subst t. exact Hin.
    + intros Hin. apply in_map_iff. exists t. split; [|exact Hin].
      apply String.eqb_neq in Hid. rewrite Hid. reflexivity.
Qed.

Lemma handleSaveEdit_recomputes_witness :
  Store.transactions
    (Reports.db (Reports.handleSaveEdit example_edit example_report false (fun _ => false)))
  = [Transaction.mk "t-1" "2025-01-01T10:00:00" 7000 10000 3000]
  /\ forall t,
       In t (Store.transactions
               (Reports.db (Reports.handleSaveEdit example_edit example_report false
                              (fun _ => false)))) ->
       Transaction.id t = "t-1" ->
       Transaction.total_amount t = 7000
       /\ Transaction.payment_amount t = 10000
       /\ Transaction.change_amount t = 3000.
Proof.
  split; [reflexivity|].
  exact (proj1 (handleSaveEdit_recomputes example_edit example_report (fun _ => false)
                  (Transaction.mk "t-1" "2025-01-01T10:00:00" 3000 10000 2000)
                  eq_refl)).
Defined.

(** ** The ledger of sales *)

(** What a checkout that reports success has done. *)
Lemma handlePayment_success (st : Cashier.State) (db0 : Store.t) (env : Cashier.Env) :
  Cashier.toasts (Cashier.handlePayment st db0 env) = [toast_success "Transaksi berhasil"] ->
  let cart := Cashier.cart st in
  let tid := Cashier.new_transaction_id env in
  transaction_accepted db0 env
  /\ items_accepted db0 env (List.length cart)
  /\ exists p,
       Cashier.db (Cashier.handlePayment st db0 env)
       = Store.mk (Store.products db0)
           (Store.transactions db0
            ++ [Transaction.mk tid (Cashier.now env) (Cashier.totalAmount cart) p
                  (p - Cashier.totalAmount cart)])
           (Store.transaction_items db0
            ++ map (fun pr => sold_row (Cashier.new_item_id env (fst pr)) tid (snd pr))
                   (combine (seq 0 (List.length cart)) cart))
           (Store.withdrawals db0).
Proof.
  intros Hok cart tid. unfold Cashier.handlePayment in *. fold cart in Hok |- *.
  destruct (negb (JS.ToBoolean (Cashier.paymentAmount st))
            || JS.lt (Cashier.paymentAmount st) (JS.Num (Cashier.totalAmount cart)));
    [discriminate|].
  unfold Store.insert_transaction in *. fold tid in Hok |- *.
  destruct (Cashier.transaction_fault env
            || Store.mem tid (map Transaction.id (Store.transactions db0))) eqn:Et;
    [discriminate|].
  apply transaction_check in Et.
  set (header := Transaction.mk tid (Cashier.now env) (Cashier.totalAmount cart)
                   (JS.orZero (Cashier.paymentAmount st))
                   (JS.orZero (Cashier.paymentAmount st) - Cashier.totalAmount cart)) in *.
  assert (Hin : In tid (map Transaction.id (Store.transactions db0 ++ [header]))).
  { rewrite map_app. apply in_or_app. right. left. reflexivity. }
  pose proof (items_check
                (Store.with_transactions db0 (Store.transactions db0 ++ [header]))
                env tid cart Hin) as Hitems.
  simpl in Hitems. unfold Store.insert_transaction_items in *. simpl in Hok |- *.
  destruct (Cashier.items_fault env || _ || _ || _) eqn:Ei; [discriminate|].
  split; [exact Et|]. split; [exact (proj1 Hitems eq_refl)|].
  exists (JS.orZero (Cashier.paymentAmount st)). simpl.
  rewrite keyed_payload. reflexivity.
Qed.

Lemma sold_rows_sum (new_id : nat -> string) (tid : string) (cart : Cashier.Cart)
    (i : nat) :
  Zsum (map TransactionItem.subtotal
          (map (fun pr => sold_row (new_id (fst pr)) tid (snd pr))
               (combine (seq i (List.length cart)) cart)))
  = Zsum (map line_subtotal cart).
Proof.
  revert i. induction cart as [|x cart IH]; intros i; simpl; [reflexivity|].
  rewrite IH. reflexivity.
Qed.

Lemma sold_rows_ids (new_id : nat -> string) (tid : string) (cart : Cashier.Cart)
    (i : nat) :
  map TransactionItem.id
      (map (fun pr => sold_row (new_id (fst pr)) tid (snd pr))
           (combine (seq i (List.length cart)) cart))
  = map new_id (seq i (List.length cart)).
Proof.
  revert i. induction cart as [|x cart IH]; intros i; simpl; [reflexivity|].
  rewrite IH. reflexivity.
Qed.

Lemma sold_rows_all (P : TransactionItem.t -> Prop) (new_id : nat -> string)
    (tid : string) (cart : Cashier.Cart) (i : nat) :
  (forall key item, P (sold_row key tid item)) ->
  Forall P (map (fun pr => sold_row (new_id (fst pr)) tid (snd pr))
                (combine (seq i (List.length cart)) cart)).
Proof.
  intros HP. apply Forall_forall. intros r Hr. apply in_map_iff in Hr.
  destruct Hr as [[k item] [<- _]]. apply HP.
Qed.

(** A checkout that reports success leaves the ledger in order. *)
Lemma handlePayment_keeps_ledger (st : Cashier.State) (db0 : Store.t) (env : Cashier.Env) :
  store_inv db0 ->
  Cashier.toasts (Cashier.handlePayment st db0 env) = [toast_success "Transaksi berhasil"] ->
  store_inv (Cashier.db (Cashier.handlePayment st db0 env)).
Proof.
  intros [Hkeys [Hfk [Hbook Hbal]]] Hok.
  destruct (handlePayment_success st db0 env Hok) as [[_ Hnew] [[_ [Hd Hfresh]] [p Hdb]]].
  rewrite Hdb. clear Hdb Hok.
  set (cart := Cashier.cart st) in *. set (tid := Cashier.new_transaction_id env) in *.
  set (rows := map _ (combine _ cart)).
  assert (Hrows_tid : forall r, In r rows -> TransactionItem.transaction_id r = tid).
  { intros r Hr. apply in_map_iff in Hr. destruct Hr as [[k item] [<- _]]. reflexivity. }
  assert (Hold_tid : forall r, In r (Store.transaction_items db0) ->
                               TransactionItem.transaction_id r <> tid).
  { intros r Hr E. rewrite Forall_forall in Hfk. apply Hnew. rewrite <- E. apply Hfk, Hr. }
  unfold store_inv. simpl. repeat split.
  - rewrite map_app. apply NoDup_app.
    + exact Hkeys.
    + unfold rows. rewrite sold_rows_ids. exact Hd.
    + intros k Hk Hk'. unfold rows in Hk'. rewrite sold_rows_ids in Hk'.
      apply in_map_iff in Hk'. destruct Hk' as [i [<- Hi]].
      apply in_seq in Hi. apply (Hfresh i); [lia|exact Hk].
  - apply Forall_app. split.
    + revert Hfk. apply Forall_impl. intros r Hr. rewrite map_app.
      apply in_or_app. left. exact Hr.
    + apply Forall_forall. intros r Hr. rewrite (Hrows_tid r Hr), map_app.
      apply in_or_app. right. left. reflexivity.
  - apply Forall_app. split; [exact Hbook|].
    apply sold_rows_all. intros key item. unfold item_booked, sold_row. simpl. lia.
  - apply Forall_app. split.
    + rewrite Forall_forall in *. intros t Ht. specialize (Hbal t Ht).
      unfold balanced in *. unfold Store.items_of in *. simpl.
      rewrite filter_app, (filter_none _ rows), app_nil_r; [exact Hbal|].
      intros r Hr. rewrite (Hrows_tid r Hr). apply String.eqb_neq.
      intros E. apply Hnew. rewrite E. apply in_map. exact Ht.
    + repeat constructor. unfold balanced, Store.items_of. simpl.
      rewrite filter_app, (filter_none _ (Store.transaction_items db0)), (filter_all _ rows).
      * simpl. unfold rows. rewrite sold_rows_sum.
        symmetry. apply totalAmount_lines.
      * intros r Hr. rewrite (Hrows_tid r Hr). apply String.eqb_refl.
      * intros r Hr. apply String.eqb_neq. apply Hold_tid. exact Hr.
Qed.

(** *** The item updates of a saved edit *)

Lemma update_items_failure (items : list TransactionItem.t) (db0 : Store.t)
    (item_fault : nat -> bool) (i : nat) (t : Toast) :
  snd (Reports.update_items db0 item_fault i items) = Some t ->
  t = toast_error "Failed to update items".
Proof.
  revert db0 i. induction items as [|item items IH]; intros db0 i; simpl.
  - discriminate.
  - unfold Store.update_transaction_item. destruct (item_fault i); simpl.
    + intros H. injection H as <-. reflexivity.
    + apply IH.
Qed.

Lemma update_items_success (items : list TransactionItem.t) (db0 : Store.t)
    (item_fault : nat -> bool) (i : nat) :
  snd (Reports.update_items db0 item_fault i items) = None ->
  fst (Reports.update_items db0 item_fault i items)
  = Store.with_transaction_items db0
      (fold_left (fun rows e => write_edit e rows) items (Store.transaction_items db0)).
Proof.
  revert db0 i. induction items as [|item items IH]; intros db0 i; simpl.
  - intros _. destruct db0. reflexivity.
  - unfold Store.update_transaction_item. destruct (item_fault i); simpl.
    + discriminate.
    + intros H. rewrite (IH _ _ H). reflexivity.
Qed.

Lemma find_absent {A : Type} (f : A -> bool) (l : list A) :
  (forall x, In x l -> f x = false) -> find f l = None.
Proof.
  induction l as [|x l IH]; simpl; intros H; [reflexivity|].
  rewrite (H x (or_introl eq_refl)). apply IH. intros y Hy. apply H. right. exact Hy.
Qed.

Lemma edit_of_id (edits : list TransactionItem.t) (r : TransactionItem.t) :
  TransactionItem.id (edit_of edits r) = TransactionItem.id r.
Proof. unfold edit_of. destruct (find _ edits); reflexivity. Qed.

Lemma edit_of_transaction_id (edits : list TransactionItem.t) (r : TransactionItem.t) :
  TransactionItem.transaction_id (edit_of edits r) = TransactionItem.transaction_id r.
Proof. unfold edit_of. destruct (find _ edits); reflexivity. Qed.

Lemma edit_of_untouched (edits : list TransactionItem.t) (r : TransactionItem.t) :
  ~ In (TransactionItem.id r) (map TransactionItem.id edits) -> edit_of edits r = r.
Proof.
  intros H. unfold edit_of. rewrite find_absent; [reflexivity|].
  intros e He. apply String.eqb_neq. intros E. apply H. rewrite <- E.
  apply in_map. exact He.
Qed.

Lemma edit_of_skip (e : TransactionItem.t) (edits : list TransactionItem.t)
    (r : TransactionItem.t) :
  TransactionItem.id e <> TransactionItem.id r ->
  edit_of (e :: edits) r = edit_of edits r.
Proof.
  intros H. unfold edit_of. simpl. apply String.eqb_neq in H. rewrite H. reflexivity.
Qed.

Lemma edit_of_hit (e : TransactionItem.t) (edits : list TransactionItem.t)
    (r : TransactionItem.t) :
  TransactionItem.id e = TransactionItem.id r ->
  edit_of (e :: edits) r = patched e r.
Proof.
  intros H. unfold edit_of. simpl. apply String.eqb_eq in H. rewrite H. reflexivity.
Qed.

(** With one edit per key, the updates sent one after the other come to
    one pass over the table. *)
Lemma writes_pointwise (edits rows : list TransactionItem.t) :
  NoDup (map TransactionItem.id edits) ->
  fold_left (fun rows e => write_edit e rows) edits rows = map (edit_of edits) rows.
Proof.
  revert rows. induction edits as [|e edits IH]; intros rows Hnd; simpl.
  - unfold edit_of. simpl. symmetry. apply map_fixed. reflexivity.
  - inversion Hnd as [|? ? He Hrest]; subst.
    rewrite (IH _ Hrest). unfold write_edit. rewrite map_map.
    apply map_ext. intros r.
    destruct (TransactionItem.id r =? TransactionItem.id e)%string eqn:E.
    + apply String.eqb_eq in E. rewrite (edit_of_hit e edits r) by congruence.
      apply edit_of_untouched. simpl. rewrite E. exact He.
    + apply String.eqb_neq in E. rewrite (edit_of_skip e edits r) by congruence.
      reflexivity.
Qed.

(** Edits that go row by row with the stored rows are written each over
    its own row. *)
Lemma edit_of_aligned (rows edits : list TransactionItem.t) :
  map TransactionItem.id edits = map TransactionItem.id rows ->
  NoDup (map TransactionItem.id rows) ->
  map TransactionItem.subtotal (map (edit_of edits) rows)
  = map (fun e => TransactionItem.quantity e * TransactionItem.price e) edits.
Proof.
  revert edits. induction rows as [|r rows IH]; intros edits Hids Hnd.
  - destruct edits; [reflexivity|discriminate].
  - destruct edits as [|e edits]; [discriminate|].
    simpl in Hids. injection Hids as Hid Hids.
    inversion Hnd as [|? ? Hr Hrest]; subst. simpl.
    rewrite (edit_of_hit e edits r Hid). simpl. f_equal.
    rewrite <- (IH edits Hids Hrest). f_equal.
    apply map_ext_in. intros r' Hr'. apply edit_of_skip.
    rewrite Hid. intros E. apply Hr. rewrite E. apply in_map. exact Hr'.
Qed.

Lemma same_key_same_row (rows : list TransactionItem.t) (r r' : TransactionItem.t) :
  NoDup (map TransactionItem.id rows) -> In r rows -> In r' rows ->
  TransactionItem.id r = TransactionItem.id r' -> r = r'.
Proof.
  induction rows as [|x rows IH]; simpl; intros Hnd Hr Hr' E; [contradiction|].
  inversion Hnd as [|? ? Hx Hrest]; subst.
  destruct Hr as [-> | Hr], Hr' as [-> | Hr'].
  - reflexivity.
  - exfalso. apply Hx. rewrite E. apply in_map. exact Hr'.
  - exfalso. apply Hx. rewrite <- E. apply in_map. exact Hr.
  - apply IH; assumption.
Qed.

(** *** The edit dialog *)

Lemma step_keeps_session (t : Transaction.t) (ids : list string) (st : Reports.State)
    (e : Reports.EditEvent) :
  (exists editing, Reports.editingTransaction st = Some editing
                   /\ Transaction.id editing = Transaction.id t) ->
  map TransactionItem.id (Reports.editItems st) = ids ->
  Forall item_booked (Reports.editItems st) ->
  let st' := Reports.step st e in
  (exists editing, Reports.editingTransaction st' = Some editing
                   /\ Transaction.id editing = Transaction.id t)
  /\ map TransactionItem.id (Reports.editItems st') = ids
  /\ Forall item_booked (Reports.editItems st').
Proof.
  intros [editing [He Hid]] Hids Hbook. destruct e as [itemId v|itemId v|v]; simpl.
  - split; [eauto|]. split.
    + rewrite <- Hids. unfold Reports.updateItemQuantity. rewrite map_map.
      apply map_ext. intros r.
      destruct (TransactionItem.id r =? itemId)%string; reflexivity.
    + unfold Reports.updateItemQuantity. apply Forall_map.
      revert Hbook. apply Forall_impl. intros r Hr.
      destruct (TransactionItem.id r =? itemId)%string; [reflexivity|exact Hr].
  - split; [eauto|]. split.
    + rewrite <- Hids. unfold Reports.updateItemPrice. rewrite map_map.
      apply map_ext. intros r.
      destruct (TransactionItem.id r =? itemId)%string; reflexivity.
    + unfold Reports.updateItemPrice. apply Forall_map.
      revert Hbook. apply Forall_impl. intros r Hr.
      destruct (TransactionItem.id r =? itemId)%string; [reflexivity|exact Hr].
  - rewrite He. split; [|split; assumption].
    eexists. split; [reflexivity|]. exact Hid.
Qed.

Lemma edit_session_inv (db : Store.t) (t : Transaction.t)
    (events : list Reports.EditEvent) :
  Forall item_booked (Store.items_of db (Transaction.id t)) ->
  let st := edit_session db false t events in
  (exists editing, Reports.editingTransaction st = Some editing
                   /\ Transaction.id editing = Transaction.id t)
  /\ map TransactionItem.id (Reports.editItems st)
     = map TransactionItem.id (Store.items_of db (Transaction.id t))
  /\ Forall item_booked (Reports.editItems st).
Proof.
  intros Hbook. unfold edit_session.
  set (ids := map TransactionItem.id (Store.items_of db (Transaction.id t))).
  assert (H : forall st0,
             (exists editing, Reports.editingTransaction st0 = Some editing
                              /\ Transaction.id editing = Transaction.id t) ->
             map TransactionItem.id (Reports.editItems st0) = ids ->
             Forall item_booked (Reports.editItems st0) ->
             let st := fold_left Reports.step events st0 in
             (exists editing, Reports.editingTransaction st = Some editing
                              /\ Transaction.id editing = Transaction.id t)
             /\ map TransactionItem.id (Reports.editItems st) = ids
             /\ Forall item_booked (Reports.editItems st)).
  { induction events as [|e events IH]; intros st0 H1 H2 H3; simpl.
    - auto.
    - destruct (step_keeps_session t ids st0 e H1 H2 H3) as [K1 [K2 K3]].
      apply IH; assumption. }
  apply H; simpl; eauto.
Qed.

(** What a save that reports success has done. *)
Lemma handleSaveEdit_success (st : Reports.State) (db0 : Store.t)
    (transaction_fault : bool) (item_fault : nat -> bool) :
  Reports.toasts (Reports.handleSaveEdit st db0 transaction_fault item_fault)
  = [toast_success "Transaction updated successfully"] ->
  exists editing,
    Reports.editingTransaction st = Some editing
    /\ let newTotal := Zsum (map TransactionItem.subtotal (Reports.editItems st)) in
       Reports.db (Reports.handleSaveEdit st db0 transaction_fault item_fault)
       = Store.mk (Store.products db0)
           (map (fun r =>
                   if (Transaction.id r =? Transaction.id editing)%string
                   then Transaction.mk (Transaction.id r) (Transaction.transaction_date r)
                          newTotal (Transaction.payment_amount editing)
                          (Transaction.payment_amount editing - newTotal)
                   else r)
                (Store.transactions db0))
           (fold_left (fun rows e => write_edit e rows) (Reports.editItems st)
                      (Store.transaction_items db0))
           (Store.withdrawals db0).
Proof.
  unfold Reports.handleSaveEdit.
  destruct (Reports.editingTransaction st) as [editing|]; [|discriminate].
  rewrite (fold_left_add_shift TransactionItem.subtotal). simpl Z.add.
  unfold Store.update_transaction.
  destruct transaction_fault; [discriminate|].
  match goal with
  | |- context [Reports.update_items ?d ?f ?i ?l] =>
      pose proof (update_items_success l d f i) as Hs;
      pose proof (update_items_failure l d f i) as Hf;
      destruct (Reports.update_items d f i l) as [db2 [t|]]
  end; simpl in *.
  - intros H. injection H as H. rewrite (Hf t eq_refl) in H. discriminate.
  - intros _. exists editing. split; [reflexivity|]. rewrite (Hs eq_refl). reflexivity.
Qed.

Lemma booked_sum (edits : list TransactionItem.t) :
  Forall item_booked edits ->
  map (fun e => TransactionItem.quantity e * TransactionItem.price e) edits
  = map TransactionItem.subtotal edits.
Proof.
  intros H. apply map_ext_in. intros e He.
  rewrite Forall_forall in H. symmetry. apply H. exact He.
Qed.

Lemma items_of_edited (db : Store.t) (edits : list TransactionItem.t)
    (headers : list Transaction.t) (key : string) :
  Store.items_of
    (Store.mk (Store.products db) headers
       (map (edit_of edits) (Store.transaction_items db)) (Store.withdrawals db))
    key
  = map (edit_of edits) (Store.items_of db key).
Proof.
  unfold Store.items_of. simpl. rewrite filter_map_swap. f_equal.
  apply filter_ext. intros r. rewrite edit_of_transaction_id. reflexivity.
Qed.

(** A save that reports success, from a dialog opened on a stored
    transaction, leaves the ledger in order. *)
Lemma handleSaveEdit_keeps_ledger (db0 : Store.t) (t : Transaction.t)
    (events : list Reports.EditEvent) (transaction_fault : bool)
    (item_fault : nat -> bool) :
  store_inv db0 -> In t (Store.transactions db0) ->
  let st := edit_session db0 false t events in
  Reports.toasts (Reports.handleSaveEdit st db0 transaction_fault item_fault)
  = [toast_success "Transaction updated successfully"] ->
  store_inv (Reports.db (Reports.handleSaveEdit st db0 transaction_fault item_fault)).
Proof.
  intros [Hkeys [Hfk [Hbook Hbal]]] Ht st Hok.
  set (loaded := Store.items_of db0 (Transaction.id t)).
  assert (Hloaded : Forall item_booked loaded).
  { rewrite Forall_forall in *. intros r Hr. apply Hbook.
    unfold loaded, Store.items_of in Hr. apply filter_In in Hr. tauto. }
  destruct (edit_session_inv db0 t events Hloaded) as [[editing [He Hid]] [Hids Hedits]].
  fold st in He, Hids, Hedits. fold loaded in Hids.
  destruct (handleSaveEdit_success st db0 transaction_fault item_fault Hok)
    as [editing' [He' Hdb]].
  rewrite He in He'. injection He' as <-. simpl in Hdb. rewrite Hdb. clear Hdb Hok.
  set (edits := Reports.editItems st) in *.
  assert (Hloaded_keys : NoDup (map TransactionItem.id loaded)).
  { unfold loaded, Store.items_of. apply NoDup_keys_filter. exact Hkeys. }
  assert (Hedit_keys : NoDup (map TransactionItem.id edits)).
  { rewrite Hids. exact Hloaded_keys. }
  rewrite (writes_pointwise edits _ Hedit_keys).
  set (newTotal := Zsum (map TransactionItem.subtotal edits)).
  set (headers := map _ (Store.transactions db0)).
  assert (Hheaders : map Transaction.id headers = map Transaction.id (Store.transactions db0)).
  { unfold headers. rewrite map_map. apply map_ext. intros r.
    destruct (Transaction.id r =? Transaction.id editing)%string; reflexivity. }
  unfold store_inv. cbn [Store.transaction_items Store.transactions]. repeat split.
  - rewrite map_map. erewrite map_ext; [exact Hkeys|]. apply edit_of_id.
  - apply Forall_map. revert Hfk. apply Forall_impl. intros r Hr.
    rewrite edit_of_transaction_id, Hheaders. exact Hr.
  - apply Forall_map. revert Hbook. apply Forall_impl. intros r Hr.
    unfold edit_of. destruct (find _ edits); [reflexivity|exact Hr].
  - unfold headers. apply Forall_map. rewrite Forall_forall in Hbal |- *.
    intros h Hh. specialize (Hbal h Hh). unfold balanced in *.
    destruct (Transaction.id h =? Transaction.id editing)%string eqn:E.
    + apply String.eqb_eq in E. cbn [Transaction.id Transaction.total_amount].
      rewrite items_of_edited, E, Hid. fold loaded.
      rewrite (edit_of_aligned loaded edits Hids Hloaded_keys).
      rewrite (booked_sum edits Hedits). reflexivity.
    + apply String.eqb_neq in E. rewrite items_of_edited.
      rewrite map_fixed; [exact Hbal|].
      intros r Hr. apply edit_of_untouched. rewrite Hids. intros Hin.
      apply in_map_iff in Hin. destruct Hin as [r' [Hk Hr']].
      unfold loaded, Store.items_of in Hr, Hr'.
      apply filter_In in Hr. apply filter_In in Hr'.
      destruct Hr as [Hr Htid], Hr' as [Hr' Htid'].
      apply String.eqb_eq in Htid. apply String.eqb_eq in Htid'.
      assert (r' = r) by (apply (same_key_same_row _ _ _ Hkeys Hr' Hr Hk)).
      subst r'. apply E. congruence.
Qed.

Lemma store_inv_empty : store_inv Store.empty.
Proof. repeat split; constructor. Qed.

(** *** The item rows through every write *)

Lemma store_inv_rows (db : Store.t) : store_inv db -> rows_inv db.
Proof. intros [Hkeys [Hfk [Hbook _]]]. repeat split; assumption. Qed.

Lemma rows_inv_empty : rows_inv Store.empty.
Proof. repeat split; constructor. Qed.

(** The item rows do not mind which headers are stored, as long as none of
    the keys they refer to goes away. *)
Lemma rows_inv_headers (db : Store.t) (headers : list Transaction.t) :
  rows_inv db ->
  (forall k, In k (map Transaction.id (Store.transactions db)) ->
             In k (map Transaction.id headers)) ->
  rows_inv (Store.mk (Store.products db) headers (Store.transaction_items db)
              (Store.withdrawals db)).
Proof.
  intros [Hkeys [Hfk Hbook]] Hsub. repeat split; simpl; try assumption.
  revert Hfk. apply Forall_impl. intros r Hr. apply Hsub, Hr.
Qed.

(** Nor do they mind a rewrite of the rows that keeps the keys and leaves
    every row booked. *)
Lemma rows_inv_rewrite (db : Store.t) (f : TransactionItem.t -> TransactionItem.t) :
  rows_inv db ->
  (forall r, TransactionItem.id (f r) = TransactionItem.id r) ->
  (forall r, TransactionItem.transaction_id (f r) = TransactionItem.transaction_id r) ->
  (forall r, item_booked r -> item_booked (f r)) ->
  rows_inv (Store.mk (Store.products db) (Store.transactions db)
              (map f (Store.transaction_items db)) (Store.withdrawals db)).
Proof.
  intros [Hkeys [Hfk Hbook]] Hid Htid Hb. repeat split; simpl.
  - rewrite map_map. erewrite map_ext; [exact Hkeys|]. exact Hid.
  - apply Forall_map. revert Hfk. apply Forall_impl. intros r Hr.
    rewrite Htid. exact Hr.
  - apply Forall_map. revert Hbook. apply Forall_impl. exact Hb.
Qed.

Lemma rows_inv_fewer (db : Store.t) (keep : TransactionItem.t -> bool) :
  rows_inv db ->
  rows_inv (Store.mk (Store.products db) (Store.transactions db)
              (filter keep (Store.transaction_items db)) (Store.withdrawals db)).
Proof.
  intros [Hkeys [Hfk Hbook]]. repeat split; simpl.
  - apply NoDup_keys_filter. exact Hkeys.
  - rewrite Forall_forall in Hfk |- *. intros r Hr. apply filter_In in Hr.
    apply Hfk. tauto.
  - rewrite Forall_forall in Hbook |- *. intros r Hr. apply filter_In in Hr.
    apply Hbook. tauto.
Qed.

(** Whatever becomes of a checkout, the item rows stay in order. *)
Lemma handlePayment_keeps_rows (st : Cashier.State) (db0 : Store.t) (env : Cashier.Env) :
  rows_inv db0 -> rows_inv (Cashier.db (Cashier.handlePayment st db0 env)).
Proof.
  intros Hinv. unfold Cashier.handlePayment.
  destruct (negb (JS.ToBoolean (Cashier.paymentAmount st)) || _); [exact Hinv|].
  unfold Store.insert_transaction.
  set (cart := Cashier.cart st). set (tid := Cashier.new_transaction_id env).
  destruct (Cashier.transaction_fault env || _) eqn:Et; [exact Hinv|].
  apply transaction_check in Et. destruct Et as [_ Hnew]. fold tid in Hnew.
  set (header := Transaction.mk tid _ _ _ _).
  assert (Hin : In tid (map Transaction.id (Store.transactions db0 ++ [header]))).
  { rewrite map_app. apply in_or_app. right. left. reflexivity. }
  assert (Hinv1 : rows_inv (Store.with_transactions db0 (Store.transactions db0 ++ [header]))).
  { apply rows_inv_headers; [exact Hinv|]. intros k Hk. rewrite map_app.
    apply in_or_app. left. exact Hk. }
  pose proof (items_check
                (Store.with_transactions db0 (Store.transactions db0 ++ [header]))
                env tid cart Hin) as Hitems.
  simpl in Hitems. unfold Store.insert_transaction_items. cbn [Transaction.id header].
  simpl.
  destruct (Cashier.items_fault env || _ || _ || _) eqn:Ei; [exact Hinv1|].
  destruct (proj1 Hitems eq_refl) as [_ [Hd Hfresh]]. clear Hitems Ei.
  destruct Hinv1 as [Hkeys [Hfk Hbook]]. simpl in Hkeys, Hfk, Hbook.
  rewrite keyed_payload. fold cart. repeat split; simpl.
  - rewrite map_app. apply NoDup_app.
    + exact Hkeys.
    + rewrite sold_rows_ids. exact Hd.
    + intros k Hk Hk'. rewrite sold_rows_ids in Hk'.
      apply in_map_iff in Hk'. destruct Hk' as [i [<- Hi]].
      apply in_seq in Hi. apply (Hfresh i); [lia|exact Hk].
  - apply Forall_app. split; [exact Hfk|].
    apply sold_rows_all. intros key item. exact Hin.
  - apply Forall_app. split; [exact Hbook|].
    apply sold_rows_all. intros key item. unfold item_booked, sold_row. simpl. lia.
Qed.

(** A checkout that reports success has stored one more header, and the item
    rows of that header are the rows of the cart: their subtotals sum to its
    total. *)
Lemma handlePayment_balances (st : Cashier.State) (db0 : Store.t) (env : Cashier.Env) :
  rows_inv db0 ->
  Cashier.toasts (Cashier.handlePayment st db0 env) = [toast_success "Transaksi berhasil"] ->
  exists header,
    Store.transactions (Cashier.db (Cashier.handlePayment st db0 env))
    = Store.transactions db0 ++ [header]
    /\ Transaction.id header = Cashier.new_transaction_id env
    /\ balanced (Cashier.db (Cashier.handlePayment st db0 env)) header.
Proof.
  intros [_ [Hfk _]] Hok.
  destruct (handlePayment_success st db0 env Hok) as [[_ Hnew] [_ [p Hdb]]].
  rewrite Hdb. clear Hdb Hok.
  set (cart := Cashier.cart st) in *. set (tid := Cashier.new_transaction_id env) in *.
  set (rows := map _ (combine _ cart)).
  eexists. split; [reflexivity|]. split; [reflexivity|].
  unfold balanced, Store.items_of. simpl.
  rewrite filter_app, (filter_none _ (Store.transaction_items db0)), (filter_all _ rows).
  - simpl. unfold rows. rewrite sold_rows_sum. symmetry. apply totalAmount_lines.
  - intros r Hr. apply in_map_iff in Hr. destruct Hr as [[k item] [<- _]].
    apply String.eqb_refl.
  - intros r Hr. apply String.eqb_neq. intros E. apply Hnew. rewrite <- E.
    rewrite Forall_forall in Hfk. apply Hfk, Hr.
Qed.

Lemma update_items_keeps_rows (items : list TransactionItem.t) (db0 : Store.t)
    (item_fault : nat -> bool) (i : nat) :
  rows_inv db0 -> rows_inv (fst (Reports.update_items db0 item_fault i items)).
Proof.
  revert db0 i. induction items as [|item items IH]; intros db0 i Hinv; simpl;
    [exact Hinv|].
  unfold Store.update_transaction_item. destruct (item_fault i); simpl; [exact Hinv|].
  apply IH. apply rows_inv_rewrite; [exact Hinv| | |]; intros r;
    destruct (TransactionItem.id r =? TransactionItem.id item)%string;
    try reflexivity.
  intros Hr. exact Hr.
Qed.

(** Whatever becomes of a save, and whatever the dialog held, the item rows
    stay in order. *)
Lemma handleSaveEdit_keeps_rows (st : Reports.State) (db0 : Store.t)
    (transaction_fault : bool) (item_fault : nat -> bool) :
  rows_inv db0 ->
  rows_inv (Reports.db (Reports.handleSaveEdit st db0 transaction_fault item_fault)).
Proof.
  intros Hinv. unfold Reports.handleSaveEdit.
  destruct (Reports.editingTransaction st) as [editing|]; [|exact Hinv].
  unfold Store.update_transaction. destruct transaction_fault; [exact Hinv|].
  match goal with
  | |- context [Reports.update_items ?d ?f ?i ?l] =>
      assert (Hk : rows_inv (fst (Reports.update_items d f i l)));
      [|destruct (Reports.update_items d f i l) as [db2 [t|]]; exact Hk]
  end.
  apply update_items_keeps_rows. apply rows_inv_headers; [exact Hinv|].
  intros k Hk. rewrite map_map. erewrite map_ext; [exact Hk|]. intros r. simpl.
  destruct (Transaction.id r =? Transaction.id editing)%string; reflexivity.
Qed.

(** Whatever becomes of a delete, the item rows stay in order. *)
Lemma handleDelete_keeps_rows (db0 : Store.t) (confirmed : bool) (id : string)
    (items_fault transaction_fault : bool) :
  rows_inv db0 ->
  rows_inv (fst (Reports.handleDelete db0 confirmed id items_fault transaction_fault)).
Proof.
  intros Hinv. unfold Reports.handleDelete. destruct confirmed; [|exact Hinv].
  assert (Hinv1 : rows_inv (fst (Store.delete_transaction_items db0 items_fault id))).
  { unfold Store.delete_transaction_items. destruct items_fault; [exact Hinv|].
    apply rows_inv_fewer. exact Hinv. }
  destruct (Store.delete_transaction_items db0 items_fault id) as [db1 r1].
  simpl in Hinv1. unfold Store.delete_transaction.
  destruct transaction_fault; [exact Hinv1|]. simpl.
  destruct (rows_inv_fewer db1
              (fun r => negb (TransactionItem.transaction_id r =? id)%string) Hinv1)
    as [Hkeys [Hfk Hbook]].
  simpl in Hkeys, Hfk, Hbook. repeat split; simpl; try assumption.
  destruct Hinv1 as [_ [Hfk1 _]]. rewrite Forall_forall in Hfk1 |- *.
  intros r Hr. apply filter_In in Hr. destruct Hr as [Hr Hne].
  apply negb_true_iff in Hne. specialize (Hfk1 r Hr).
  apply in_map_iff in Hfk1. destruct Hfk1 as [h [Hh Hin]].
  apply in_map_iff. exists h. split; [exact Hh|].
  apply filter_In. split; [exact Hin|]. rewrite Hh, Hne. reflexivity.
Qed.

(** A save that reports success, from a dialog opened on a transaction with
    its item rows as the store has them, leaves that transaction with the
    sum of the subtotals of its item rows as its total. *)
Lemma handleSaveEdit_balances (db0 : Store.t) (t : Transaction.t)
    (events : list Reports.EditEvent) (transaction_fault : bool)
    (item_fault : nat -> bool) :
  rows_inv db0 ->
  let st := edit_session db0 false t events in
  Reports.toasts (Reports.handleSaveEdit st db0 transaction_fault item_fault)
  = [toast_success "Transaction updated successfully"] ->
  map Transaction.id
      (Store.transactions
         (Reports.db (Reports.handleSaveEdit st db0 transaction_fault item_fault)))
  = map Transaction.id (Store.transactions db0)
  /\ forall t',
       In t' (Store.transactions
                (Reports.db (Reports.handleSaveEdit st db0 transaction_fault item_fault))) ->
       Transaction.id t' = Transaction.id t ->
       balanced (Reports.db (Reports.handleSaveEdit st db0 transaction_fault item_fault)) t'.
Proof.
  intros [Hkeys [Hfk Hbook]] st Hok.
  set (loaded := Store.items_of db0 (Transaction.id t)).
  assert (Hloaded : Forall item_booked loaded).
  { rewrite Forall_forall in *. intros r Hr. apply Hbook.
    unfold loaded, Store.items_of in Hr. apply filter_In in Hr. tauto. }
  destruct (edit_session_inv db0 t events Hloaded) as [[editing [He Hid]] [Hids Hedits]].
  fold st in He, Hids, Hedits. fold loaded in Hids.
  destruct (handleSaveEdit_success st db0 transaction_fault item_fault Hok)
    as [editing' [He' Hdb]].
  rewrite He in He'. injection He' as <-. simpl in Hdb. rewrite Hdb. clear Hdb Hok.
  set (edits := Reports.editItems st) in *.
  assert (Hloaded_keys : NoDup (map TransactionItem.id loaded)).
  { unfold loaded, Store.items_of. apply NoDup_keys_filter. exact Hkeys. }
  assert (Hedit_keys : NoDup (map TransactionItem.id edits)).
  { rewrite Hids. exact Hloaded_keys. }
  rewrite (writes_pointwise edits _ Hedit_keys).
  cbn [Store.transactions]. split.
  - rewrite map_map. apply map_ext. intros r.
    destruct (Transaction.id r =? Transaction.id editing)%string; reflexivity.
  - intros t' Hin Hkey. apply in_map_iff in Hin. destruct Hin as [h [Hh _]].
    destruct (Transaction.id h =? Transaction.id editing)%string eqn:E.
    + subst t'. unfold balanced. cbn [Transaction.id Transaction.total_amount].
      apply String.eqb_eq in E.
      rewrite items_of_edited, E, Hid. fold loaded.
      rewrite (edit_of_aligned loaded edits Hids Hloaded_keys).
      rewrite (booked_sum edits Hedits). reflexivity.
    + subst t'. apply String.eqb_neq in E. exfalso. apply E. congruence.
Qed.

(** A checkout whose item rows the store refuses has produced a transaction
    of 3000 without item rows. *)
Lemma handlePayment_unbalanced :
  let out := Cashier.handlePayment example_sale Store.empty failing_env in
  let header := Transaction.mk "t-1" "2025-01-01T10:00:00" 3000 5000 2000 in
  Store.transactions (Cashier.db out) = [header]
  /\ Store.items_of (Cashier.db out) "t-1" = []
  /\ ~ balanced (Cashier.db out) header.
Proof.
  split; [reflexivity|]. split; [reflexivity|].
  intros Hb. unfold balanced in Hb. vm_compute in Hb. discriminate.
Qed.

(** A dialog opened after a read of the item rows that failed holds no
    items; saving it sets the total of the example sale to 0 over item rows
    that still sum to 3000. *)
Lemma handleSaveEdit_after_failed_read :
  let st := edit_session example_report true example_header [] in
  let out := Reports.handleSaveEdit st example_report false (fun _ => false) in
  Reports.editItems st = []
  /\ Reports.toasts out = [toast_success "Transaction updated successfully"]
  /\ Store.transactions (Reports.db out)
     = [Transaction.mk "t-1" "2025-01-01T10:00:00" 0 5000 5000]
  /\ Store.transaction_items (Reports.db out) = Store.transaction_items example_report.
Proof. repeat split. Qed.

(** C3 (amended).  The transaction a checkout produces, when the checkout
    reports success, and the transaction a report edit modifies, when the
    save reports success and the dialog was opened on that transaction with
    its item rows as the store has them, carry as total the sum of the
    subtotals of their item rows.  This is so in every store whose item rows
    have distinct keys, refer to stored headers and are booked, whatever the
    other transactions look like; the empty store is such a store, and
    every checkout, every save and every delete leaves it one, whether it
    goes through or not. *)
Theorem written_transaction_balanced :
  (forall st db0 env,
     rows_inv db0 ->
     let out := Cashier.handlePayment st db0 env in
     Cashier.toasts out = [toast_success "Transaksi berhasil"] ->
     exists header,
       Store.transactions (Cashier.db out) = Store.transactions db0 ++ [header]
       /\ Transaction.id header = Cashier.new_transaction_id env
       /\ balanced (Cashier.db out) header)
  /\ (forall db0 t events transaction_fault item_fault,
        rows_inv db0 ->
        let out := Reports.handleSaveEdit (edit_session db0 false t events) db0
                     transaction_fault item_fault in
        Reports.toasts out = [toast_success "Transaction updated successfully"] ->
        map Transaction.id (Store.transactions (Reports.db out))
        = map Transaction.id (Store.transactions db0)
        /\ forall t', In t' (Store.transactions (Reports.db out)) ->
                      Transaction.id t' = Transaction.id t ->
                      balanced (Reports.db out) t')
  /\ rows_inv Store.empty
  /\ (forall st db0 env,
        rows_inv db0 -> rows_inv (Cashier.db (Cashier.handlePayment st db0 env)))
  /\ (forall st db0 transaction_fault item_fault,
        rows_inv db0 ->
        rows_inv (Reports.db (Reports.handleSaveEdit st db0 transaction_fault item_fault)))
  /\ (forall db0 confirmed id items_fault transaction_fault,
        rows_inv db0 ->
        rows_inv (fst (Reports.handleDelete db0 confirmed id items_fault
                         transaction_fault))).
Proof.
  split; [exact handlePayment_balances|].
  split; [exact handleSaveEdit_balances|].
  split; [exact rows_inv_empty|].
  split; [exact handlePayment_keeps_rows|].
  split; [exact handleSaveEdit_keeps_rows|exact handleDelete_keeps_rows].
Qed.

Lemma example_report_inv : store_inv example_report.
Proof.
  exact (handlePayment_keeps_ledger example_sale Store.empty example_env
           store_inv_empty eq_refl).
Defined.

(** The store after the checkout whose item rows were refused: the header
    of 3000 is there without item rows. *)
Lemma failed_sale_rows : rows_inv (Cashier.db (Cashier.handlePayment example_sale
                                                  Store.empty failing_env)).
Proof. apply handlePayment_keeps_rows. exact rows_inv_empty. Defined.

(** The example sale; the same sale rung up again after the checkout that
    failed; and the example edit of the stored sale, whose total goes from
    3000 to 7000. *)
Lemma written_transaction_balanced_witness :
  balanced (Cashier.db (Cashier.handlePayment example_sale Store.empty example_env))
    (Transaction.mk "t-1" "2025-01-01T10:00:00" 3000 5000 2000)
  /\ balanced
       (Cashier.db
          (Cashier.handlePayment example_sale
             (Cashier.db (Cashier.handlePayment example_sale Store.empty failing_env))
             second_env))
       (Transaction.mk "t-2" "2025-01-01T10:05:00" 3000 5000 2000)
  /\ balanced
       (Reports.db (Reports.handleSaveEdit example_edit example_report false
                      (fun _ => false)))
       (Transaction.mk "t-1" "2025-01-01T10:00:00" 7000 10000 3000).
Proof.
  destruct written_transaction_balanced as [Hsale [Hedit [Hempty _]]].
  split; [|split].
  - destruct (Hsale example_sale Store.empty example_env Hempty eq_refl)
      as [header [Hrows [_ Hbal]]].
    simpl in Hrows. injection Hrows as <-. exact Hbal.
  - destruct (Hsale example_sale _ second_env failed_sale_rows eq_refl)
      as [header [Hrows [_ Hbal]]].
    simpl in Hrows. injection Hrows as <-. exact Hbal.
  - apply (proj2 (Hedit example_report example_header
                    [Reports.ChangeQuantity "i-2" (JS.Num 3);
                     Reports.ChangePayment (JS.Num 10000)]
                    false (fun _ => false) (store_inv_rows _ example_report_inv) eq_refl)).
    + left. reflexivity.
    + reflexivity.
Defined.

(** ** Product codes *)

Lemma generateNextCode_empty : Products.generateNextCode Store.empty false = "P001".
Proof. reflexivity. Qed.

(** From the catalog of the seed migration's first three products the next
    code is P004. *)
Lemma generateNextCode_seed :
  Products.generateNextCode
    (Store.with_products Store.empty [kertas; print_bw; print_warna]) false
  = "P004".
Proof. reflexivity. Qed.

(** Created with a blank code one after the other, the first 999 products
    get the codes P001 to P999. *)
Lemma create_blank_sequence :
  map Product.code (Store.products (create_blank 999 Store.empty))
  = map numbered_code (seq 1 999).
Proof. vm_compute. reflexivity. Qed.

(** C9. Where the code breaks the sequence.  With a code typed in by hand on
    top of the order, here STAPLER, the generated code is PNaN, and a product
    is stored under it.  With P999 and P1000 in the catalog the store hands
    back P999 as the last code, so P1000 is generated a second time and the
    store refuses the product. *)
Theorem generateNextCode_breaks :
  Products.generateNextCode stapler_catalog false = "PNaN"
  /\ map Product.code
       (Store.products
          (fst (Products.handleSubmit blank_code_form None stapler_catalog
                  (Products.mkEnv false false "id-10"))))
     = ["P001"; "STAPLER"; "PNaN"]
  /\ Products.generateNextCode thousand_catalog false = "P1000"
  /\ Products.handleSubmit blank_code_form None thousand_catalog
       (Products.mkEnv false false "id-1001")
     = (thousand_catalog, [toast_error "Failed to add product"]).
Proof. repeat split. Qed.

(** *** The order of the codes *)

Lemma string_leb_trans (s1 s2 s3 : string) :
  String.leb s1 s2 = true -> String.leb s2 s3 = true -> String.leb s1 s3 = true.
Proof.
  unfold String.leb. revert s2 s3.
  induction s1 as [|a s1 IH]; intros [|b s2] [|c s3]; simpl; try congruence.
  intros H12 H23.
  destruct (Ascii.compare a b) eqn:Eab; try discriminate;
    destruct (Ascii.compare b c) eqn:Ebc; try discriminate.
  - apply Ascii.compare_eq_iff in Eab, Ebc. subst.
    assert (E : Ascii.compare c c = Eq) by (unfold Ascii.compare; apply N.compare_refl).
    rewrite E. apply (IH s2 s3); assumption.
  - apply Ascii.compare_eq_iff in Eab. subst. rewrite Ebc. reflexivity.
  - apply Ascii.compare_eq_iff in Ebc. subst. rewrite Eab. reflexivity.
  - unfold Ascii.compare in *. rewrite N.compare_lt_iff in Eab, Ebc.
    assert (E : (N_of_ascii a ?= N_of_ascii c)%N = Lt)
      by (apply N.compare_lt_iff; lia).
    rewrite E. reflexivity.
Qed.

Lemma string_leb_refl (s : string) : String.leb s s = true.
Proof. destruct (String.leb_total s s); assumption. Qed.

Lemma greater_is_max (a b : string) :
  String.leb a (Store.greater a b) = true /\ String.leb b (Store.greater a b) = true
  /\ (Store.greater a b = a \/ Store.greater a b = b).
Proof.
  unfold Store.greater. destruct (String.leb a b) eqn:E.
  - repeat split; [exact E|apply string_leb_refl|right; reflexivity].
  - repeat split; [apply string_leb_refl| |left; reflexivity].
    destruct (String.leb_total a b) as [H|H]; [congruence|exact H].
Qed.

Lemma fold_greater (codes : list string) (c : string) :
  greatest_code (c :: codes) (fold_left Store.greater codes c).
Proof.
  revert c. induction codes as [|x codes IH]; intros c; simpl.
  - split; [left; reflexivity|]. intros c' [<-|[]]. apply string_leb_refl.
  - destruct (IH (Store.greater c x)) as [Hin Hmax].
    destruct (greater_is_max c x) as [Hc [Hx Hsel]].
    split.
    + destruct Hin as [Hin|Hin]; [|right; right; exact Hin].
      rewrite <- Hin. destruct Hsel as [->| ->]; [left|right; left]; reflexivity.
    + intros c' [<-|[<-|Hc']].
      * apply (string_leb_trans _ _ _ Hc). apply Hmax. left. reflexivity.
      * apply (string_leb_trans _ _ _ Hx). apply Hmax. left. reflexivity.
      * apply Hmax. right. exact Hc'.
Qed.

(** The query for the last code hands back the greatest code of the catalog. *)
Lemma last_code_greatest (db : Store.t) (m : string) :
  greatest_code (map Product.code (Store.products db)) m ->
  Store.last_code db false = Some [m].
Proof.
  intros [Hin Hmax]. unfold Store.last_code.
  destruct (map Product.code (Store.products db)) as [|c codes]; [contradiction|].
  destruct (fold_greater codes c) as [Hin' Hmax'].
  f_equal. f_equal. apply String.leb_antisym.
  - apply Hmax. exact Hin'.
  - apply Hmax'. exact Hin.
Qed.

(** *** Reading the numeric part *)

(** The 256 characters, one by one. *)
Ltac each_char c := destruct c as [[] [] [] [] [] [] [] []].

Lemma digit_facts (c : ascii) :
  is_digit c = true ->
  JS.digitValue 10 c = Some (Z.of_N (N_of_ascii c) - 48)
  /\ JS.isWhiteSpace c = false
  /\ 0 <= Z.of_N (N_of_ascii c) - 48 <= 9.
Proof.
  each_char c; intros H; try discriminate H;
    (split; [reflexivity|split; [reflexivity|vm_compute; split; discriminate]]).
Qed.

Lemma parseDigits_all_digits (s : string) (v : Z) :
  all_digits s = true ->
  JS.parseDigits 10 (Some v) s = Some (decimal_value v s).
Proof.
  revert v. induction s as [|c r IH]; intros v H; simpl in *; [reflexivity|].
  apply andb_true_iff in H. destruct H as [Hc Hr].
  destruct (digit_facts c Hc) as [-> _]. apply IH. exact Hr.
Qed.

Lemma decimal_value_nonneg (s : string) (v : Z) :
  all_digits s = true -> 0 <= v -> 0 <= decimal_value v s.
Proof.
  revert v. induction s as [|c r IH]; intros v H Hv; simpl in *; [exact Hv|].
  apply andb_true_iff in H. destruct H as [Hc Hr].
  destruct (digit_facts c Hc) as [_ [_ Hd]]. apply IH; [exact Hr|lia].
Qed.

Lemma stripHexPrefix_digits (s : string) :
  all_digits s = true -> JS.stripHexPrefix s = None.
Proof.
  destruct s as [|c [|c2 r]]; simpl; intros H; try reflexivity.
  - each_char c; reflexivity.
  - apply andb_true_iff in H. destruct H as [_ H].
    apply andb_true_iff in H. destruct H as [H2 _].
    each_char c; try reflexivity; each_char c2; try discriminate H2; reflexivity.
Qed.

(** [parseInt] of a string of decimal digits is the number it writes. *)
Lemma parseInt_digits (c : ascii) (r : string) :
  all_digits (String c r) = true ->
  JS.parseInt (String c r) = JS.Num (decimal_value 0 (String c r)).
Proof.
  intros H.
  assert (Hu : JS.parseUnsigned (String c r) = JS.Num (decimal_value 0 (String c r))).
  { unfold JS.parseUnsigned. rewrite (stripHexPrefix_digits _ H).
    simpl in H. apply andb_true_iff in H. destruct H as [Hc Hr].
    simpl. destruct (digit_facts c Hc) as [-> _]. simpl.
    rewrite (parseDigits_all_digits r _ Hr). reflexivity. }
  unfold JS.parseInt. simpl in H. apply andb_true_iff in H. destruct H as [Hc Hr].
  simpl JS.trimStart. destruct (digit_facts c Hc) as [_ [-> _]].
  each_char c; try discriminate Hc; exact Hu.
Qed.

(** On a catalog whose greatest code has a numeric part [n], the generated
    code is P followed by [n + 1], padded with zeros to three digits. *)
Lemma generateNextCode_increments (db : Store.t) (m : string) (n : Z) :
  greatest_code (map Product.code (Store.products db)) m ->
  numeric_part m = Some n ->
  Products.generateNextCode db false
  = ("P" ++ JS.padStart0 3 (JS.decimal (n + 1)))%string.
Proof.
  intros Hm Hn. unfold Products.generateNextCode. rewrite (last_code_greatest db m Hm).
  destruct m as [|c0 [|c r]]; try discriminate Hn.
  unfold numeric_part in Hn.
  destruct (all_digits (String c r)) eqn:Hd; [|discriminate].
  injection Hn as <-. cbn [JS.substring1].
  rewrite (parseInt_digits c r Hd). cbn [JS.add JS.toString].
  pose proof (decimal_value_nonneg (String c r) 0 Hd (Z.le_refl 0)) as Hpos.
  replace (decimal_value 0 (String c r) + 1 <? 0) with false; [reflexivity|].
  symmetry. apply Z.ltb_ge. lia.
Qed.

(** *** Writing a number and reading it back *)

Lemma digitChar_facts (d : Z) :
  0 <= d <= 9 ->
  is_digit (JS.digitChar d) = true
  /\ Z.of_N (N_of_ascii (JS.digitChar d)) - 48 = d.
Proof.
  intros H.
  assert (E : d = 0 \/ d = 1 \/ d = 2 \/ d = 3 \/ d = 4 \/ d = 5 \/ d = 6
              \/ d = 7 \/ d = 8 \/ d = 9) by lia.
  repeat (destruct E as [-> | E]; [split; reflexivity|]).
  subst. split; reflexivity.
Qed.

Lemma digitsFuel_all_digits (fuel : nat) (n : Z) (acc : string) :
  0 <= n -> all_digits acc = true -> all_digits (JS.digitsFuel fuel n acc) = true.
Proof.
  revert n acc. induction fuel as [|f IH]; intros n acc Hn Hacc; simpl; [exact Hacc|].
  assert (Hd : all_digits (String (JS.digitChar (n mod 10)) acc) = true).
  { simpl. rewrite Hacc, andb_true_r.
    apply digitChar_facts. pose proof (Z.mod_pos_bound n 10). lia. }
  destruct (n <? 10); [exact Hd|].
  apply IH; [|exact Hd]. apply Z.div_pos; lia.
Qed.

Lemma digitsFuel_value (fuel : nat) (n : Z) (acc : string) (v : Z) :
  0 <= n -> n < 10 ^ Z.of_nat fuel ->
  exists m, 0 <= m
    /\ decimal_value v (JS.digitsFuel fuel n acc) = decimal_value (v * 10 ^ m + n) acc.
Proof.
  revert n acc. induction fuel as [|f IH]; intros n acc Hn Hlt.
  - exists 0. simpl in *. split; [lia|]. f_equal; lia.
  - simpl JS.digitsFuel. destruct (Z.ltb_spec n 10) as [Hsmall|Hbig].
    + exists 1. split; [lia|]. simpl decimal_value.
      rewrite (proj2 (digitChar_facts (n mod 10)
                        ltac:(pose proof (Z.mod_pos_bound n 10); lia))).
      rewrite Z.mod_small by lia. f_equal; lia.
    + assert (Hdiv : n / 10 < 10 ^ Z.of_nat f).
      { apply Z.div_lt_upper_bound; [lia|].
        rewrite Nat2Z.inj_succ, Z.pow_succ_r in Hlt by lia. exact Hlt. }
      destruct (IH (n / 10) (String (JS.digitChar (n mod 10)) acc)
                  ltac:(apply Z.div_pos; lia) Hdiv) as [m [Hm E]].
      exists (m + 1). split; [lia|]. rewrite E. simpl decimal_value.
      rewrite (proj2 (digitChar_facts (n mod 10)
                        ltac:(pose proof (Z.mod_pos_bound n 10); lia))).
      f_equal. rewrite Z.pow_add_r by lia.
      pose proof (Z.div_mod n 10 ltac:(lia)). change (10 ^ 1) with 10. lia.
Qed.

Lemma digitsFuel_head (fuel : nat) (n : Z) (c : ascii) (acc : string) :
  exists c' r', JS.digitsFuel fuel n (String c acc) = String c' r'.
Proof.
  revert n c acc. induction fuel as [|f IH]; intros n c acc; simpl; [eauto|].
  destruct (n <? 10); [eauto|]. apply IH.
Qed.

Lemma decimal_fuel (n : Z) : 0 <= n -> n < 10 ^ Z.of_nat (S (Z.to_nat (Z.log2 n))).
Proof.
  intros Hn. rewrite Nat2Z.inj_succ, Z2Nat.id by apply Z.log2_nonneg.
  destruct (Z.eq_dec n 0) as [->|Hnz]; [reflexivity|].
  pose proof (Z.log2_spec n ltac:(lia)) as [_ Hup].
  apply (Z.lt_le_trans _ _ _ Hup).
  apply Z.pow_le_mono_l. lia.
Qed.

Lemma decimal_facts (n : Z) :
  0 <= n ->
  all_digits (JS.decimal n) = true
  /\ decimal_value 0 (JS.decimal n) = n
  /\ exists c r, JS.decimal n = String c r.
Proof.
  intros Hn. unfold JS.decimal. repeat split.
  - apply digitsFuel_all_digits; [exact Hn|reflexivity].
  - destruct (digitsFuel_value _ n EmptyString 0 Hn (decimal_fuel n Hn)) as [m [_ E]].
    rewrite E. simpl. lia.
  - simpl. destruct (n <? 10); [eauto|]. apply digitsFuel_head.
Qed.

Lemma zeros_facts (k : nat) (s : string) :
  all_digits (JS.repeatChar k "0"%char ++ s)%string = all_digits s
  /\ decimal_value 0 (JS.repeatChar k "0"%char ++ s)%string = decimal_value 0 s.
Proof.
  induction k as [|k [IH1 IH2]]; simpl; [split; reflexivity|].
  split; [exact IH1|exact IH2].
Qed.

(** The numeric part of the numbered code of [n] is [n]. *)
Lemma numeric_part_numbered (n : nat) :
  numeric_part (numbered_code n) = Some (Z.of_nat n).
Proof.
  destruct (decimal_facts (Z.of_nat n) (Nat2Z.is_nonneg n)) as [Hd [Hv [c [r Hs]]]].
  unfold numbered_code, JS.padStart0.
  destruct (zeros_facts (3 - String.length (JS.decimal (Z.of_nat n)))
              (JS.decimal (Z.of_nat n))) as [Z1 Z2].
  set (padded := (JS.repeatChar _ "0"%char ++ JS.decimal (Z.of_nat n))%string) in *.
  assert (Hne : exists c' r', padded = String c' r').
  { unfold padded. rewrite Hs. destruct (3 - String.length (String c r))%nat; simpl; eauto. }
  destruct Hne as [c' [r' Hp]].
  change ("P" ++ padded)%string with (String "P"%char padded).
  rewrite Hp in *. cbn [numeric_part].
  rewrite Z1, Hd, Z2, Hv. reflexivity.
Qed.

(** On a catalog whose greatest code is the numbered code of [n], the
    generated code is the numbered code of [n + 1]. *)
Lemma generateNextCode_next_numbered (db : Store.t) (n : nat) :
  greatest_code (map Product.code (Store.products db)) (numbered_code n) ->
  Products.generateNextCode db false = numbered_code (S n).
Proof.
  intros Hm.
  rewrite (generateNextCode_increments db _ _ Hm (numeric_part_numbered n)).
  unfold numbered_code. rewrite Nat2Z.inj_succ. reflexivity.
Qed.

(** * Further properties of the screens *)

(** ** Searching the catalog *)

Lemma prefix_iff (t s : string) :
  String.prefix t s = true <-> exists post, s = (t ++ post)%string.
Proof.
  revert s. induction t as [|c t IH]; intros s; simpl.
  - split; [intros _; exists s; reflexivity|destruct s; reflexivity].
  - destruct s as [|d s].
    + split; [discriminate|]. intros [post H]. discriminate.
    + cbn [String.prefix]. destruct (Ascii.ascii_dec c d) as [->|Hne].
      * rewrite IH. split; intros [post H]; exists post.
        -- rewrite H. reflexivity.
        -- injection H as H. exact H.
      * split; [discriminate|]. intros [post H]. injection H as H _.
        congruence.
Qed.

Lemma includes_iff (s t : string) :
  JS.includes s t = true <-> exists pre post, s = (pre ++ t ++ post)%string.
Proof.
  induction s as [|c s IH]; cbn [JS.includes].
  - rewrite orb_false_r, prefix_iff. split.
    + intros [post H]. exists EmptyString, post. exact H.
    + intros [pre [post H]]. destruct pre; [exists post; exact H|discriminate].
  - rewrite orb_true_iff, prefix_iff, IH. split.
    + intros [[post H] | [pre [post H]]].
      * exists EmptyString, post. exact H.
      * exists (String c pre), post. rewrite H. reflexivity.
    + intros [pre [post H]]. destruct pre as [|d pre].
      * left. exists post. exact H.
      * right. simpl in H. injection H as _ H. exists pre, post. exact H.
Qed.

Lemma toLowerCase_app (a b : string) :
  JS.toLowerCase (a ++ b) = (JS.toLowerCase a ++ JS.toLowerCase b)%string.
Proof. induction a as [|c a IH]; simpl; [reflexivity|]. rewrite IH. reflexivity. Qed.

(** X1. With nothing typed in the search field the whole catalog is listed,
    in its order. *)
Theorem filteredProducts_empty_term (products : list Product.t) :
  Cashier.filteredProducts products "" = products.
Proof.
  unfold Cashier.filteredProducts. apply filter_all. intros p _.
  simpl JS.toLowerCase.
  assert (H : forall s, JS.includes s "" = true) by (intros [|c s]; reflexivity).
  rewrite H. reflexivity.
Qed.

(** X2. The search lists exactly the products of the catalog whose code or
    name, lower case, contains the typed text, lower case.  In particular a
    product is found by any piece of its code or of its name, typed in any
    case. *)
Theorem filteredProducts_search (products : list Product.t) (searchTerm : string)
    (p : Product.t) :
  (In p (Cashier.filteredProducts products searchTerm)
   <-> In p products
       /\ exists pre post,
            JS.toLowerCase (Product.code p)
            = (pre ++ JS.toLowerCase searchTerm ++ post)%string
            \/ JS.toLowerCase (Product.name p)
               = (pre ++ JS.toLowerCase searchTerm ++ post)%string)
  /\ (In p products ->
      forall pre piece post,
        Product.code p = (pre ++ piece ++ post)%string
        \/ Product.name p = (pre ++ piece ++ post)%string ->
        JS.toLowerCase searchTerm = JS.toLowerCase piece ->
        In p (Cashier.filteredProducts products searchTerm)).
Proof.
  assert (Hiff : In p (Cashier.filteredProducts products searchTerm)
                 <-> In p products
                     /\ exists pre post,
                          JS.toLowerCase (Product.code p)
                          = (pre ++ JS.toLowerCase searchTerm ++ post)%string
                          \/ JS.toLowerCase (Product.name p)
                             = (pre ++ JS.toLowerCase searchTerm ++ post)%string).
  { unfold Cashier.filteredProducts. rewrite filter_In, orb_true_iff, !includes_iff.
    split; intros [Hin H]; (split; [exact Hin|]).
    - destruct H as [[pre [post H]] | [pre [post H]]]; exists pre, post; tauto.
    - destruct H as [pre [post [H|H]]]; [left|right]; exists pre, post; exact H. }
  split; [exact Hiff|].
  intros Hin pre piece post Hpiece Hcase. apply Hiff. split; [exact Hin|].
  exists (JS.toLowerCase pre), (JS.toLowerCase post). rewrite Hcase.
  destruct Hpiece as [-> | ->]; [left|right]; rewrite !toLowerCase_app; reflexivity.
Qed.

Lemma filteredProducts_search_witness :
  In print_warna (Cashier.filteredProducts [kertas; print_bw; print_warna] "WARNA").
Proof.
  apply (proj2 (filteredProducts_search [kertas; print_bw; print_warna] "WARNA" print_warna)
           (or_intror (or_intror (or_introl eq_refl))) "Print " "Warna" " A4").
  - right. reflexivity.
  - reflexivity.
Defined.

(** ** How the cart operations compose *)

Lemma Zsum_concat (l1 l2 : list Z) : Zsum (l1 ++ l2) = Zsum l1 + Zsum l2.
Proof. induction l1 as [|x l1 IH]; simpl; lia. Qed.



Lemma cart_line_split (cart : Cashier.Cart) (productId : string) :
  In productId (map product_id cart) ->
  exists l1 item l2, cart = l1 ++ item :: l2 /\ product_id item = productId.
Proof.
  intros H. apply in_map_iff in H. destruct H as [item [Hid Hin]].
  apply in_split in Hin. destruct Hin as [l1 [l2 ->]]. eauto.
Qed.

Lemma addToCart_present (l1 l2 : Cashier.Cart) (item : CartItem.t) (product : Product.t) :
  NoDup (map product_id (l1 ++ item :: l2)) ->
  product_id item = Product.id product ->
  Cashier.addToCart (l1 ++ item :: l2) product
  = l1 ++ Cashier.with_quantity item (CartItem.quantity item + 1) :: l2.
Proof.
  intros Hnd Hid. unfold Cashier.addToCart. rewrite <- Hid.
  destruct (find_is_product_some l1 l2 item) as [found ->].
  apply (map_line (fun x => Cashier.with_quantity x (CartItem.quantity x + 1))).
  exact Hnd.
Qed.

Lemma updateQuantity_present (l1 l2 : Cashier.Cart) (item : CartItem.t) (delta : Z) :
  cart_inv (l1 ++ item :: l2) ->
  Cashier.updateQuantity (l1 ++ item :: l2) (product_id item) delta
  = if Z.max 0 (CartItem.quantity item + delta) =? 0
    then l1 ++ l2
    else l1 ++ Cashier.with_quantity item (Z.max 0 (CartItem.quantity item + delta)) :: l2.
Proof.
  intros [Hnd Hq]. unfold Cashier.updateQuantity.
  rewrite (map_line (fun x => Cashier.with_quantity x
                                (Z.max 0 (CartItem.quantity x + delta))))
    by exact Hnd.
  apply Forall_app in Hq. destruct Hq as [Hq1 Hq2].
  inversion Hq2 as [|? ? _ Hq3]; subst.
  rewrite filter_app. simpl.
  rewrite !positive_lines by assumption.
  set (q := Z.max 0 (CartItem.quantity item + delta)).
  destruct (Z.eqb_spec q 0) as [E|E].
  - rewrite E. reflexivity.
  - replace (0 <? q) with true; [reflexivity|].
    symmetry. apply Z.ltb_lt. lia.
Qed.

Lemma updateQuantity_absent (cart : Cashier.Cart) (productId : string) (delta : Z) :
  cart_inv cart -> ~ In productId (map product_id cart) ->
  Cashier.updateQuantity cart productId delta = cart.
Proof.
  intros [_ Hq] Hno. unfold Cashier.updateQuantity.
  rewrite map_no_line by exact Hno. apply positive_lines. exact Hq.
Qed.

Lemma removeFromCart_present (l1 l2 : Cashier.Cart) (item : CartItem.t) :
  NoDup (map product_id (l1 ++ item :: l2)) ->
  Cashier.removeFromCart (l1 ++ item :: l2) (product_id item) = l1 ++ l2.
Proof.
  intros Hnd. unfold Cashier.removeFromCart. rewrite filter_app. simpl.
  assert (H : Cashier.is_product (product_id item) item = true)
    by (apply is_product_true; reflexivity).
  rewrite H. simpl.
  rewrite !filter_all; [reflexivity| |];
    intros x Hx; rewrite (cart_inv_others l1 l2 item x Hnd); auto;
    apply in_or_app; auto.
Qed.

(** X3. Adding a product that already has a line is the same as pressing
    plus on that line. *)
Theorem addToCart_is_plus (cart : Cashier.Cart) (product : Product.t) :
  cart_inv cart ->
  In (Product.id product) (map product_id cart) ->
  Cashier.addToCart cart product
  = Cashier.updateQuantity cart (Product.id product) 1.
Proof.
  intros Hinv Hin.
  destruct (cart_line_split cart _ Hin) as [l1 [item [l2 [-> Hid]]]].
  rewrite (addToCart_present l1 l2 item product (proj1 Hinv) Hid).
  rewrite <- Hid, (updateQuantity_present l1 l2 item 1 Hinv).
  destruct Hinv as [_ Hq]. apply Forall_app in Hq. destruct Hq as [_ Hq].
  inversion Hq as [|? ? Hitem _]; subst.
  replace (Z.max 0 (CartItem.quantity item + 1)) with (CartItem.quantity item + 1) by lia.
  destruct (Z.eqb_spec (CartItem.quantity item + 1) 0); [lia|reflexivity].
Qed.

Lemma addToCart_is_plus_witness :
  Cashier.addToCart example_cart print_bw = Cashier.updateQuantity example_cart "id-2" 1.
Proof.
  apply (addToCart_is_plus example_cart print_bw example_cart_inv).
  simpl. tauto.
Defined.

(** X4. Plus and then minus on a product gives the cart back.  Minus on a
    line of quantity 1 is the same as removing the line, and plus afterwards
    does not bring it back. *)
Theorem updateQuantity_plus_minus (cart : Cashier.Cart) (productId : string) :
  cart_inv cart ->
  Cashier.updateQuantity (Cashier.updateQuantity cart productId 1) productId (-1) = cart
  /\ (forall l1 item l2,
        cart = l1 ++ item :: l2 -> product_id item = productId ->
        CartItem.quantity item = 1 ->
        Cashier.updateQuantity cart productId (-1) = Cashier.removeFromCart cart productId
        /\ Cashier.updateQuantity (Cashier.updateQuantity cart productId (-1)) productId 1
           = l1 ++ l2).
Proof.
  intros Hinv. split.
  - destruct (in_dec string_dec productId (map product_id cart)) as [Hin|Hno].
    + destruct (cart_line_split cart _ Hin) as [l1 [item [l2 [-> Hid]]]].
      rewrite <- Hid.
      assert (Hq : 1 <= CartItem.quantity item).
      { destruct Hinv as [_ Hq]. apply Forall_app in Hq. destruct Hq as [_ Hq].
        inversion Hq; subst; assumption. }
      rewrite (updateQuantity_present l1 l2 item 1 Hinv).
      replace (Z.max 0 (CartItem.quantity item + 1)) with (CartItem.quantity item + 1) by lia.
      destruct (Z.eqb_spec (CartItem.quantity item + 1) 0); [lia|].
      set (item' := Cashier.with_quantity item (CartItem.quantity item + 1)).
      assert (Hinv' : cart_inv (l1 ++ item' :: l2)).
      { destruct Hinv as [Hnd Hall]. split.
        - rewrite map_app in *. exact Hnd.
        - apply Forall_app in Hall. destruct Hall as [H1 H2].
          apply Forall_app. split; [exact H1|].
          inversion H2; subst. constructor; [simpl; lia|assumption]. }
      change (product_id item) with (product_id item').
      rewrite (updateQuantity_present l1 l2 item' (-1) Hinv'). simpl CartItem.quantity.
      replace (Z.max 0 (CartItem.quantity item + 1 + -1)) with (CartItem.quantity item) by lia.
      destruct (Z.eqb_spec (CartItem.quantity item) 0); [lia|].
      destruct item. reflexivity.
    + rewrite (updateQuantity_absent cart productId 1 Hinv Hno).
      apply updateQuantity_absent; assumption.
  - intros l1 item l2 -> <- Hone.
    rewrite (updateQuantity_present l1 l2 item (-1) Hinv), Hone. simpl.
    rewrite (removeFromCart_present l1 l2 item (proj1 Hinv)).
    split; [reflexivity|].
    apply updateQuantity_absent.
    + destruct Hinv as [Hnd Hall]. split.
      * rewrite map_app in *. simpl in Hnd. apply NoDup_remove_1 in Hnd. exact Hnd.
      * apply Forall_app in Hall. destruct Hall as [H1 H2].
        apply Forall_app. split; [exact H1|]. inversion H2; assumption.
    + destruct Hinv as [Hnd _]. rewrite map_app in *. simpl in Hnd.
      apply NoDup_remove_2 in Hnd. exact Hnd.
Qed.

Lemma updateQuantity_plus_minus_witness :
  Cashier.updateQuantity (Cashier.updateQuantity example_cart "id-2" 1) "id-2" (-1)
  = example_cart
  /\ Cashier.updateQuantity (Cashier.updateQuantity example_cart "id-3" (-1)) "id-3" 1
     = [CartItem.mk print_bw 2 500 "Print Hitam Putih A4"].
Proof.
  destruct (updateQuantity_plus_minus example_cart "id-2" example_cart_inv) as [H1 _].
  destruct (updateQuantity_plus_minus example_cart "id-3" example_cart_inv) as [_ H2].
  split; [exact H1|].
  exact (proj2 (H2 [CartItem.mk print_bw 2 500 "Print Hitam Putih A4"]
                  (CartItem.mk print_warna 1 2000 "Print Warna A4") []
                  eq_refl eq_refl eq_refl)).
Defined.

(** X5. Removing a product right after adding it leaves the cart as removing
    it would have: without the product's line and otherwise unchanged.  When
    the product had no line this is the cart before the add. *)
Theorem removeFromCart_addToCart (cart : Cashier.Cart) (product : Product.t) :
  Cashier.removeFromCart (Cashier.addToCart cart product) (Product.id product)
  = Cashier.removeFromCart cart (Product.id product)
  /\ (~ In (Product.id product) (map product_id cart) ->
      Cashier.removeFromCart (Cashier.addToCart cart product) (Product.id product)
      = cart).
Proof.
  assert (H : Cashier.removeFromCart (Cashier.addToCart cart product) (Product.id product)
              = Cashier.removeFromCart cart (Product.id product)).
  { unfold Cashier.addToCart, Cashier.removeFromCart.
    destruct (find (Cashier.is_product (Product.id product)) cart).
    - induction cart as [|x cart IH]; simpl; [reflexivity|].
      destruct (Cashier.is_product (Product.id product) x) eqn:E.
      + unfold Cashier.is_product at 1. simpl.
        unfold Cashier.is_product in E. rewrite E. simpl. exact IH.
      + rewrite E. simpl. rewrite IH. reflexivity.
    - rewrite filter_app. simpl.
      unfold Cashier.is_product at 2. simpl. rewrite String.eqb_refl. simpl.
      apply app_nil_r. }
  split; [exact H|].
  intros Hno. rewrite H. unfold Cashier.removeFromCart. apply filter_all.
  intros x Hx. apply negb_true_iff, is_product_false. intros E. apply Hno.
  rewrite <- E. apply in_map. exact Hx.
Qed.

Lemma removeFromCart_addToCart_witness :
  Cashier.removeFromCart (Cashier.addToCart example_cart kertas) "id-1" = example_cart.
Proof.
  apply (proj2 (removeFromCart_addToCart example_cart kertas)).
  simpl. intuition discriminate.
Defined.





(** ** What a checkout never does *)

(** X8. The cart is emptied and a receipt printed only by a checkout that
    reports success: in every other case the screen's state is what it was
    and nothing is printed.  The catalog and the withdrawals are never
    touched. *)
Theorem handlePayment_keeps_cart_on_failure (st : Cashier.State) (db0 : Store.t)
    (env : Cashier.Env) :
  let out := Cashier.handlePayment st db0 env in
  (Cashier.toasts out = [toast_success "Transaksi berhasil"]
   \/ (Cashier.state out = st /\ Cashier.printed out = None
       /\ exists msg, Cashier.toasts out = [toast_error msg]))
  /\ Store.products (Cashier.db out) = Store.products db0
  /\ Store.withdrawals (Cashier.db out) = Store.withdrawals db0.
Proof.
  unfold Cashier.handlePayment.
  destruct (negb (JS.ToBoolean (Cashier.paymentAmount st)) || _); simpl;
    [split; [right; eauto|split; reflexivity]|].
  unfold Store.insert_transaction.
  destruct (Cashier.transaction_fault env || _); simpl;
    [split; [right; eauto|split; reflexivity]|].
  unfold Store.insert_transaction_items.
  destruct (Cashier.items_fault env || _ || _ || _); simpl;
    split; eauto; split; reflexivity.
Qed.

(** X9. A header that [handlePayment] stores carries the total of the cart,
    the payment that was typed in, which is not 0, and a change that is the
    payment minus the total and is never negative.  At most one header is
    stored, after the ones that were there. *)
Theorem handlePayment_header (st : Cashier.State) (db0 : Store.t) (env : Cashier.Env) :
  let out := Cashier.handlePayment st db0 env in
  Store.transactions (Cashier.db out) = Store.transactions db0
  \/ exists h,
       Store.transactions (Cashier.db out) = Store.transactions db0 ++ [h]
       /\ Transaction.id h = Cashier.new_transaction_id env
       /\ Transaction.total_amount h = Cashier.totalAmount (Cashier.cart st)
       /\ Cashier.paymentAmount st = JS.Num (Transaction.payment_amount h)
       /\ Transaction.payment_amount h <> 0
       /\ Transaction.change_amount h
          = Transaction.payment_amount h - Transaction.total_amount h
       /\ 0 <= Transaction.change_amount h.
Proof.
  unfold Cashier.handlePayment.
  destruct (Cashier.paymentAmount st) as [|p] eqn:Hp; simpl; [left; reflexivity|].
  destruct (Z.eqb_spec p 0) as [Hz|Hz]; simpl; [left; reflexivity|].
  destruct (Z.ltb_spec p (Cashier.totalAmount (Cashier.cart st))) as [Hlt|Hge];
    [left; reflexivity|].
  unfold Store.insert_transaction.
  destruct (Cashier.transaction_fault env || _); simpl; [left; reflexivity|].
  right. eexists. split.
  - unfold Store.insert_transaction_items.
    destruct (Cashier.items_fault env || _ || _ || _); reflexivity.
  - simpl. repeat split; try assumption; lia.
Qed.

(** ** Deleting a sale *)

Lemma items_of_without (db : Store.t) (headers : list Transaction.t) (id key : string) :
  Store.items_of
    (Store.mk (Store.products db) headers
       (filter (fun r => negb (TransactionItem.transaction_id r =? id)%string)
               (Store.transaction_items db))
       (Store.withdrawals db))
    key
  = if (key =? id)%string then [] else Store.items_of db key.
Proof.
  unfold Store.items_of. simpl.
  induction (Store.transaction_items db) as [|r rows IH]; simpl.
  - destruct (key =? id)%string; reflexivity.
  - destruct (TransactionItem.transaction_id r =? id)%string eqn:E; simpl.
    + rewrite IH. destruct (key =? id)%string eqn:K; [reflexivity|].
      apply String.eqb_eq in E. rewrite E, String.eqb_sym, K. reflexivity.
    + rewrite IH. destruct (key =? id)%string eqn:K.
      * apply String.eqb_eq in K. subst key. rewrite E. reflexivity.
      * reflexivity.
Qed.

Lemma handleDelete_success (db0 : Store.t) (id : string)
    (items_fault transaction_fault : bool) :
  snd (Reports.handleDelete db0 true id items_fault transaction_fault)
  = [toast_success "Transaction deleted successfully"] ->
  fst (Reports.handleDelete db0 true id items_fault transaction_fault)
  = Store.mk (Store.products db0)
      (filter (fun r => negb (Transaction.id r =? id)%string) (Store.transactions db0))
      (filter (fun r => negb (TransactionItem.transaction_id r =? id)%string)
              (Store.transaction_items db0))
      (Store.withdrawals db0).
Proof.
  unfold Reports.handleDelete, Store.delete_transaction_items, Store.delete_transaction.
  destruct items_fault, transaction_fault; simpl; try discriminate; intros _;
    [reflexivity|].
  f_equal. induction (Store.transaction_items db0) as [|r rows IH]; simpl; [reflexivity|].
  destruct (TransactionItem.transaction_id r =? id)%string eqn:E; simpl;
    [exact IH|]. rewrite E. simpl. f_equal. exact IH.
Qed.

(** X10. A delete that reports success takes the header and, through the
    cascade, all its item rows out of the store, whether or not the first
    call went through; every other header and item row stays as it was, and a
    ledger that was in order is still in order. *)
Theorem handleDelete_removes_sale (db0 : Store.t) (id : string)
    (items_fault transaction_fault : bool) :
  snd (Reports.handleDelete db0 true id items_fault transaction_fault)
  = [toast_success "Transaction deleted successfully"] ->
  let db1 := fst (Reports.handleDelete db0 true id items_fault transaction_fault) in
  ~ In id (map Transaction.id (Store.transactions db1))
  /\ Store.items_of db1 id = []
  /\ (forall t, Transaction.id t <> id ->
        (In t (Store.transactions db1) <-> In t (Store.transactions db0))
        /\ Store.items_of db1 (Transaction.id t) = Store.items_of db0 (Transaction.id t))
  /\ (store_inv db0 -> store_inv db1).
Proof.
  intros Hok db1. unfold db1. rewrite (handleDelete_success _ _ _ _ Hok). clear Hok db1.
  split; [|split; [|split]].
  - simpl. intros Hin. apply in_map_iff in Hin. destruct Hin as [t [Hid Hin]].
    apply filter_In in Hin. destruct Hin as [_ Hne].
    apply negb_true_iff, String.eqb_neq in Hne. contradiction.
  - rewrite items_of_without, String.eqb_refl. reflexivity.
  - intros t Hne. split.
    + simpl. rewrite filter_In. apply String.eqb_neq in Hne. rewrite Hne. simpl. tauto.
    + rewrite items_of_without. apply String.eqb_neq in Hne. rewrite Hne. reflexivity.
  - intros [Hkeys [Hfk [Hbook Hbal]]]. unfold store_inv. simpl. repeat split.
    + apply NoDup_keys_filter. exact Hkeys.
    + rewrite Forall_forall in *. intros r Hr. apply filter_In in Hr.
      destruct Hr as [Hr Hne]. specialize (Hfk r Hr).
      apply in_map_iff in Hfk. destruct Hfk as [t [Hid Ht]].
      apply in_map_iff. exists t. split; [exact Hid|].
      apply filter_In. split; [exact Ht|]. rewrite Hid. exact Hne.
    + rewrite Forall_forall in *. intros r Hr. apply Hbook.
      apply filter_In in Hr. tauto.
    + rewrite Forall_forall in *. intros t Ht. apply filter_In in Ht.
      destruct Ht as [Ht Hne]. specialize (Hbal t Ht). unfold balanced in *.
      rewrite items_of_without.
      apply negb_true_iff in Hne. rewrite Hne. exact Hbal.
Qed.

Lemma handleDelete_removes_sale_witness :
  fst (Reports.handleDelete example_report true "t-1" true false) = Store.empty
  /\ store_inv (fst (Reports.handleDelete example_report true "t-1" true false)).
Proof.
  split; [reflexivity|].
  exact (proj2 (proj2 (proj2 (handleDelete_removes_sale example_report "t-1" true false
                                eq_refl)))
           example_report_inv).
Defined.

(** X11. A delete that is not confirmed does nothing.  When the item rows are
    deleted and the delete of the header then fails, the header stays stored
    with its total and without item rows, so a header of a total other than 0
    is no longer balanced; the screen reports the failure. *)
Theorem handleDelete_failure (db0 : Store.t) (id : string) (t : Transaction.t) :
  (forall items_fault transaction_fault,
     Reports.handleDelete db0 false id items_fault transaction_fault = (db0, []))
  /\ Reports.handleDelete db0 true id true true
     = (db0, [toast_error "Failed to delete transaction"])
  /\ (In t (Store.transactions db0) -> Transaction.id t = id ->
      Transaction.total_amount t <> 0 ->
      let out := Reports.handleDelete db0 true id false true in
      snd out = [toast_error "Failed to delete transaction"]
      /\ In t (Store.transactions (fst out))
      /\ Store.items_of (fst out) id = []
      /\ ~ balanced (fst out) t).
Proof.
  split; [reflexivity|]. split; [reflexivity|].
  intros Hin Hid Htotal. simpl.
  assert (Hitems : Store.items_of
                     (Store.with_transaction_items db0
                        (filter (fun r => negb (TransactionItem.transaction_id r =? id)%string)
                                (Store.transaction_items db0))) id = []).
  { unfold Store.with_transaction_items. rewrite items_of_without, String.eqb_refl.
    reflexivity. }
  repeat split.
  - exact Hin.
  - exact Hitems.
  - unfold balanced. rewrite Hid, Hitems. simpl. congruence.
Qed.

Lemma handleDelete_failure_witness :
  let out := Reports.handleDelete example_report true "t-1" false true in
  In example_header (Store.transactions (fst out))
  /\ Store.items_of (fst out) "t-1" = [].
Proof.
  destruct (handleDelete_failure example_report "t-1" example_header) as [_ [_ H]].
  destruct (H (or_introl eq_refl) eq_refl) as [_ [H1 [H2 _]]].
  - simpl. discriminate.
  - split; assumption.
Defined.

(** ** Expanding rows *)

Lemma has_In (rows : list string) (id : string) :
  Reports.has rows id = true <-> In id rows.
Proof.
  unfold Reports.has. rewrite existsb_exists. split.
  - intros [x [Hx E]]. apply String.eqb_eq in E. subst. exact Hx.
  - intros H. exists id. split; [exact H|apply String.eqb_refl].
Qed.

Lemma has_toggleRow (rows : list string) (id x : string) :
  Reports.has (Reports.toggleRow rows id) x
  = if (x =? id)%string then negb (Reports.has rows id) else Reports.has rows x.
Proof.
  unfold Reports.toggleRow. cbv zeta.
  destruct (Reports.has rows id) eqn:Hid.
  - destruct (x =? id)%string eqn:E.
    + apply String.eqb_eq in E. subst x.
      match goal with |- ?a = _ => destruct a eqn:H end; [|reflexivity].
      apply has_In, filter_In in H. destruct H as [_ H].
      rewrite String.eqb_refl in H. discriminate.
    + destruct (Reports.has rows x) eqn:Hx.
      * apply has_In. apply filter_In. split; [apply has_In; exact Hx|].
        rewrite E. reflexivity.
      * match goal with |- ?a = _ => destruct a eqn:H end; [|reflexivity].
        apply has_In, filter_In in H. destruct H as [H _].
        apply has_In in H. congruence.
  - unfold Reports.has in *. rewrite existsb_app. simpl. rewrite orb_false_r.
    destruct (x =? id)%string eqn:E.
    + apply String.eqb_eq in E. subst x. rewrite Hid. reflexivity.
    + apply orb_false_r.
Qed.

(** X12. Toggling a row flips whether that row is expanded and leaves every
    other row as it was; toggling it twice leaves every row as it was; and a
    set without repeated members stays without. *)
Theorem toggleRow_flips (expandedRows : list string) (id : string) :
  (forall x, Reports.has (Reports.toggleRow expandedRows id) x
             = if (x =? id)%string then negb (Reports.has expandedRows id)
               else Reports.has expandedRows x)
  /\ (forall x, Reports.has (Reports.toggleRow (Reports.toggleRow expandedRows id) id) x
                = Reports.has expandedRows x)
  /\ (NoDup expandedRows -> NoDup (Reports.toggleRow expandedRows id)).
Proof.
  split; [apply has_toggleRow|]. split.
  - intros x. rewrite !has_toggleRow, String.eqb_refl.
    destruct (x =? id)%string eqn:E; [|reflexivity].
    apply String.eqb_eq in E. subst x. apply negb_involutive.
  - intros Hnd. unfold Reports.toggleRow. cbv zeta.
    destruct (Reports.has expandedRows id) eqn:Hid.
    + apply NoDup_filter. exact Hnd.
    + apply NoDup_snoc; [exact Hnd|]. rewrite <- has_In. congruence.
Qed.

Lemma toggleRow_flips_witness : NoDup (Reports.toggleRow ["t-1"; "t-2"] "t-1").
Proof.
  apply (proj2 (proj2 (toggleRow_flips ["t-1"; "t-2"] "t-1"))).
  repeat constructor; simpl; intuition discriminate.
Defined.

(** ** Editing the items of a sale *)

(** X13. In the edit dialog the quantity and the price of an item can be
    changed in either order with the same result, and of two changes of the
    same field of an item the later one stands.  Either change leaves the
    keys, and so the number of items, as they were. *)
Theorem updateItem_compose (editItems : list TransactionItem.t) (itemId otherId : string)
    (quantity quantity' price price' : Z) :
  Reports.updateItemPrice (Reports.updateItemQuantity editItems itemId quantity) otherId price
  = Reports.updateItemQuantity (Reports.updateItemPrice editItems otherId price) itemId quantity
  /\ Reports.updateItemQuantity (Reports.updateItemQuantity editItems itemId quantity)
       itemId quantity'
     = Reports.updateItemQuantity editItems itemId quantity'
  /\ Reports.updateItemPrice (Reports.updateItemPrice editItems itemId price) itemId price'
     = Reports.updateItemPrice editItems itemId price'
  /\ map TransactionItem.id (Reports.updateItemQuantity editItems itemId quantity)
     = map TransactionItem.id editItems
  /\ map TransactionItem.id (Reports.updateItemPrice editItems itemId price)
     = map TransactionItem.id editItems.
Proof.
  unfold Reports.updateItemPrice, Reports.updateItemQuantity.
  rewrite !map_map. repeat split; apply map_ext; intros r;
    destruct (TransactionItem.id r =? itemId)%string eqn:E1;
    destruct (TransactionItem.id r =? otherId)%string eqn:E2;
    simpl; rewrite ?E1, ?E2; reflexivity.
Qed.





(** ** A save that fails part of the way *)

Lemma update_items_stops (items : list TransactionItem.t) (db0 : Store.t)
    (item_fault : nat -> bool) (i k : nat) :
  (forall j, (j < k)%nat -> item_fault (i + j)%nat = false) ->
  item_fault (i + k)%nat = true ->
  (k < List.length items)%nat ->
  Reports.update_items db0 item_fault i items
  = (Store.with_transaction_items db0
       (fold_left (fun rows e => write_edit e rows) (firstn k items)
                  (Store.transaction_items db0)),
     Some (toast_error "Failed to update items")).
Proof.
  revert db0 i k. induction items as [|item items IH]; intros db0 i k Hok Hbad Hk.
  - simpl in Hk. lia.
  - simpl Reports.update_items. unfold Store.update_transaction_item.
    destruct k as [|k].
    + rewrite Nat.add_0_r in Hbad. rewrite Hbad. simpl. destruct db0. reflexivity.
    + assert (H0 : item_fault i = false).
      { rewrite <- (Nat.add_0_r i). apply Hok. lia. }
      rewrite H0. cbn iota.
      rewrite (IH _ (S i) k).
      * reflexivity.
      * intros j Hj. replace (S i + j)%nat with (i + S j)%nat by lia. apply Hok. lia.
      * replace (S i + k)%nat with (i + S k)%nat by lia. exact Hbad.
      * simpl in Hk. lia.
Qed.

(** X15. A save does not undo what it has written.  With no transaction
    open it does nothing; when the update of the header fails nothing is
    written; when the update of the [k]-th item is the first to fail, the
    header carries the new total already, exactly the [k] items before it are
    written, and the dialog stays as it was with the failure reported. *)
Theorem handleSaveEdit_failure (st : Reports.State) (db0 : Store.t)
    (item_fault : nat -> bool) :
  (Reports.editingTransaction st = None ->
   forall transaction_fault,
     Reports.handleSaveEdit st db0 transaction_fault item_fault
     = Reports.mkOutcome st db0 [])
  /\ (forall editing,
        Reports.editingTransaction st = Some editing ->
        Reports.handleSaveEdit st db0 true item_fault
        = Reports.mkOutcome st db0 [toast_error "Failed to update transaction"])
  /\ (forall editing k,
        Reports.editingTransaction st = Some editing ->
        (k < List.length (Reports.editItems st))%nat ->
        (forall j, (j < k)%nat -> item_fault j = false) ->
        item_fault k = true ->
        let out := Reports.handleSaveEdit st db0 false item_fault in
        let newTotal := Zsum (map TransactionItem.subtotal (Reports.editItems st)) in
        Reports.state out = st
        /\ Reports.toasts out = [toast_error "Failed to update items"]
        /\ (forall t, In t (Store.transactions (Reports.db out)) ->
              Transaction.id t = Transaction.id editing ->
              Transaction.total_amount t = newTotal)
        /\ Store.transaction_items (Reports.db out)
           = fold_left (fun rows e => write_edit e rows)
               (firstn k (Reports.editItems st)) (Store.transaction_items db0)).
Proof.
  split; [|split].
  - intros He tf. unfold Reports.handleSaveEdit. rewrite He. reflexivity.
  - intros editing He. unfold Reports.handleSaveEdit. rewrite He. reflexivity.
  - intros editing k He Hk Hok Hbad out newTotal.
    pose proof (handleSaveEdit_transactions st db0 item_fault editing He) as Hheaders.
    fold out in Hheaders. fold newTotal in Hheaders.
    assert (Hout : out = Reports.handleSaveEdit st db0 false item_fault) by reflexivity.
    unfold Reports.handleSaveEdit in Hout. rewrite He in Hout.
    unfold Store.update_transaction in Hout. cbn iota in Hout.
    rewrite (update_items_stops (Reports.editItems st) _ item_fault 0 k) in Hout;
      [|exact Hok|exact Hbad|exact Hk].
    repeat split.
    + rewrite Hout. reflexivity.
    + rewrite Hout. reflexivity.
    + intros t Hin Hid. rewrite Hheaders in Hin. apply in_map_iff in Hin.
      destruct Hin as [r [Hr _]].
      destruct (Transaction.id r =? Transaction.id editing)%string eqn:E.
      * subst t. reflexivity.
      * subst t. apply String.eqb_neq in E. contradiction.
    + rewrite Hout. reflexivity.
Qed.

Lemma handleSaveEdit_failure_witness :
  Store.transaction_items
    (Reports.db (Reports.handleSaveEdit example_edit example_report false
                   (fun j => Nat.eqb j 1)))
  = Store.transaction_items example_report.
Proof.
  destruct (handleSaveEdit_failure example_edit example_report (fun j => Nat.eqb j 1))
    as [_ [_ H]].
  destruct (H (Transaction.mk "t-1" "2025-01-01T10:00:00" 3000 10000 2000) 1%nat
              eq_refl) as [_ [_ [_ Hitems]]].
  - simpl. lia.
  - intros j Hj. destruct j; [reflexivity|lia].
  - reflexivity.
  - rewrite Hitems. reflexivity.
Defined.

(** ** Revenue *)





(** ** Withdrawals against the store *)

(** *** Rows handed back in descending order *)

Lemma insert_descending_rows {Row : Type} (column : Row -> string) (o : Row)
    (sorted : list Row) :
  Permutation (Store.insert_descending column o sorted) (o :: sorted).
Proof.
  induction sorted as [|x rest IH]; simpl; [reflexivity|].
  destruct (String.leb (column x) (column o)); [reflexivity|].
  rewrite IH. apply perm_swap.
Qed.

Lemma descending_rows {Row : Type} (column : Row -> string) (rows : list Row) :
  Permutation (Store.descending column rows) rows.
Proof.
  induction rows as [|o rows IH]; simpl; [reflexivity|].
  rewrite insert_descending_rows. apply perm_skip. exact IH.
Qed.

Lemma insert_descending_order {Row : Type} (column : Row -> string) (o : Row)
    (sorted : list Row) :
  in_descending_order column sorted ->
  in_descending_order column (Store.insert_descending column o sorted).
Proof.
  unfold in_descending_order.
  induction sorted as [|x rest IH]; intros Hs; simpl.
  - repeat constructor.
  - inversion Hs as [|? ? Hrest Hx]; subst.
    destruct (String.leb (column x) (column o)) eqn:E.
    + constructor; [exact Hs|]. constructor; [exact E|].
      revert Hx. apply Forall_impl. intros y Hy.
      exact (string_leb_trans _ _ _ Hy E).
    + constructor; [apply IH; exact Hrest|].
      apply (Permutation_Forall (Permutation_sym (insert_descending_rows column o rest))).
      constructor; [|exact Hx].
      destruct (String.leb_total (column x) (column o)) as [H|H]; [congruence|exact H].
Qed.

Lemma descending_order {Row : Type} (column : Row -> string) (rows : list Row) :
  in_descending_order column (Store.descending column rows).
Proof.
  induction rows as [|o rows IH]; simpl; [constructor|].
  apply insert_descending_order. exact IH.
Qed.


Lemma Zsum_rows {Row : Type} (amount : Row -> Z) (rows rows' : list Row) :
  Permutation rows rows' -> Zsum (map amount rows) = Zsum (map amount rows').
Proof.
  intros H. induction H; simpl; lia.
Qed.

Lemma loaded_balance (st : Withdrawals.State) (db : Store.t) :
  loaded st db -> Withdrawals.availableBalance st = store_balance db.
Proof.
  intros [Hw [_ Hr]]. rewrite availableBalance_is_difference. unfold store_balance.
  rewrite Hr, (Zsum_rows Withdrawal.amount _ _ Hw). reflexivity.
Qed.

Lemma fetchData_loaded (st : Withdrawals.State) (db : Store.t) :
  let st' := fst (Withdrawals.fetchData st db false false) in
  snd (Withdrawals.fetchData st db false false) = []
  /\ loaded st' db
  /\ Withdrawals.availableBalance st' = store_balance db
  /\ Withdrawals.withdrawalName st' = Withdrawals.withdrawalName st
  /\ Withdrawals.withdrawalAmount st' = Withdrawals.withdrawalAmount st.
Proof.
  intros st'.
  assert (Hl : loaded st' db).
  { unfold st', Withdrawals.fetchData, loaded, Store.select_withdrawals. simpl.
    split; [apply descending_rows|]. split; [apply descending_order|].
    apply (fold_left_add_shift Transaction.total_amount). }
  split; [reflexivity|]. split; [exact Hl|].
  split; [exact (loaded_balance st' db Hl)|]. split; reflexivity.
Qed.

(** X17. Loading the ledgers: a read of the revenue that goes through puts
    the store's revenue on the screen; a read of the withdrawals that goes
    through puts the store's withdrawals there, each once and newest first;
    a read that fails keeps what was shown before and raises a notification,
    so nothing is reported exactly when both reads went through, and then
    the available balance is the store's revenue minus the store's
    withdrawals.  The form fields are never touched. *)
Theorem fetchData_loads (st : Withdrawals.State) (db : Store.t)
    (revenue_fault withdrawals_fault : bool) :
  let st' := fst (Withdrawals.fetchData st db revenue_fault withdrawals_fault) in
  let ts := snd (Withdrawals.fetchData st db revenue_fault withdrawals_fault) in
  Withdrawals.totalRevenue st'
  = (if revenue_fault then Withdrawals.totalRevenue st
     else Zsum (map Transaction.total_amount (Store.transactions db)))
  /\ (if withdrawals_fault
      then Withdrawals.withdrawals st' = Withdrawals.withdrawals st
      else Permutation (Withdrawals.withdrawals st') (Store.withdrawals db)
           /\ in_descending_order Withdrawal.withdrawal_date (Withdrawals.withdrawals st'))
  /\ (ts = [] <-> revenue_fault = false /\ withdrawals_fault = false)
  /\ (revenue_fault = false -> withdrawals_fault = false ->
      loaded st' db /\ Withdrawals.availableBalance st' = store_balance db)
  /\ Withdrawals.withdrawalName st' = Withdrawals.withdrawalName st
  /\ Withdrawals.withdrawalAmount st' = Withdrawals.withdrawalAmount st
  /\ Withdrawals.withdrawalDate st' = Withdrawals.withdrawalDate st.
Proof.
  split; [|split; [|split; [|split]]].
  - unfold Withdrawals.fetchData. destruct revenue_fault, withdrawals_fault; simpl;
      rewrite ?(fold_left_add_shift Transaction.total_amount); simpl; reflexivity.
  - unfold Withdrawals.fetchData, Store.select_withdrawals.
    destruct revenue_fault, withdrawals_fault; simpl; try reflexivity;
      (split; [apply descending_rows|apply descending_order]).
  - unfold Withdrawals.fetchData. destruct revenue_fault, withdrawals_fault; simpl;
      split; try discriminate; try tauto; intros [H1 H2]; discriminate.
  - intros -> ->. destruct (fetchData_loaded st db) as [_ [H1 [H2 _]]]. split; assumption.
  - unfold Withdrawals.fetchData. destruct revenue_fault, withdrawals_fault;
      repeat split.
Qed.

(** A second withdrawal on the books: the later one is shown first, and the
    balance of the example is what is left of 100000 after 30000. *)
Lemma fetchData_loads_witness :
  Withdrawals.withdrawals
    (fst (Withdrawals.fetchData (example_withdrawal "" JS.NaN) two_withdrawals false false))
  = [Withdrawal.mk "w-2" "2025-01-04T09:30:00" "Gaji" 20000;
     Withdrawal.mk "w-1" "2025-01-03T09:00:00" "Setoran bank" 30000]
  /\ Withdrawals.availableBalance
       (fst (Withdrawals.fetchData (example_withdrawal "" JS.NaN) example_ledger
               false false))
     = 70000.
Proof.
  split; [reflexivity|].
  exact (proj2 (proj1 (proj2 (proj2 (proj2
           (fetchData_loads (example_withdrawal "" JS.NaN) example_ledger false false))))
           eq_refl eq_refl)).
Defined.

Lemma insert_withdrawal_balance (db : Store.t) (w : Withdrawal.t) :
  store_balance (Store.with_withdrawals db (Store.withdrawals db ++ [w]))
  = store_balance db - Withdrawal.amount w.
Proof.
  unfold store_balance. simpl. rewrite map_app, Zsum_concat. simpl. lia.
Qed.

(** X18. With the ledgers loaded from the store, a withdrawal that is
    reported added, with nothing else reported, was of a positive amount
    within the balance: the store's balance goes down by that amount and is
    not negative afterwards, and the screen shows the store again with the
    name and amount fields cleared. *)
Theorem handleAddWithdrawal_never_overdraws (st : Withdrawals.State) (db0 : Store.t)
    (env : Withdrawals.Env) :
  loaded st db0 ->
  let out := Withdrawals.handleAddWithdrawal st db0 env in
  Withdrawals.toasts out = [toast_success "Withdrawal added successfully"] ->
  exists a,
    Withdrawals.withdrawalAmount st = JS.Num a /\ 0 < a
    /\ store_balance (Withdrawals.db out) = store_balance db0 - a
    /\ 0 <= store_balance (Withdrawals.db out)
    /\ loaded (Withdrawals.state out) (Withdrawals.db out)
    /\ Withdrawals.availableBalance (Withdrawals.state out)
       = store_balance (Withdrawals.db out)
    /\ Withdrawals.withdrawalName (Withdrawals.state out) = ""
    /\ Withdrawals.withdrawalAmount (Withdrawals.state out) = JS.NaN.
Proof.
  intros Hloaded out Hok.
  assert (Hbal : Withdrawals.totalRevenue st
                 - Withdrawals.totalWithdrawals (Withdrawals.withdrawals st)
                 = store_balance db0).
  { exact (loaded_balance st db0 Hloaded). }
  assert (Hout : out = Withdrawals.handleAddWithdrawal st db0 env) by reflexivity.
  unfold Withdrawals.handleAddWithdrawal in Hout. rewrite Hbal in Hout.
  destruct (String.length (JS.trim (Withdrawals.withdrawalName st)) =? 0)%nat;
    [rewrite Hout in Hok; discriminate|].
  destruct (Withdrawals.withdrawalAmount st) as [|a] eqn:Ha;
    [rewrite Hout in Hok; discriminate|].
  simpl in Hout.
  destruct (Z.leb_spec a 0) as [Hle|Hpos]; [rewrite Hout in Hok; discriminate|].
  unfold JS.gt in Hout. simpl in Hout.
  destruct (Z.ltb_spec (store_balance db0) a) as [Hover|Hfits];
    [rewrite Hout in Hok; discriminate|].
  unfold Store.insert_withdrawal in Hout.
  destruct (Withdrawals.insert_fault env || _); [rewrite Hout in Hok; discriminate|].
  set (w := Withdrawal.mk _ _ _ a) in Hout.
  set (db1 := Store.with_withdrawals db0 (Store.withdrawals db0 ++ [w])) in Hout.
  set (cleared := Withdrawals.mkState _ _ _ "" JS.NaN) in Hout.
  destruct (Withdrawals.revenue_fault env) eqn:Erf;
    [unfold Withdrawals.fetchData in Hout; rewrite Hout in Hok;
     destruct (Withdrawals.withdrawals_fault env); discriminate|].
  destruct (Withdrawals.withdrawals_fault env) eqn:Ewf;
    [unfold Withdrawals.fetchData in Hout; rewrite Hout in Hok; discriminate|].
  destruct (fetchData_loaded cleared db1) as [_ [Hl [Hb [Hn Hamt]]]].
  destruct (Withdrawals.fetchData cleared db1 false false) as [st' ts] eqn:Ef.
  simpl in Hl, Hb, Hn, Hamt. rewrite Hout. simpl.
  exists a. split; [reflexivity|]. split; [exact Hpos|].
  pose proof (insert_withdrawal_balance db0 w) as Hins. fold db1 in Hins. simpl in Hins.
  split; [lia|]. split; [lia|]. split; [exact Hl|]. split; [exact Hb|].
  split; assumption.
Qed.

Lemma handleAddWithdrawal_never_overdraws_witness :
  exists a,
    JS.Num 70000 = JS.Num a /\ 0 < a
    /\ store_balance
         (Withdrawals.db
            (Withdrawals.handleAddWithdrawal (example_withdrawal "Gaji" (JS.Num 70000))
               example_ledger example_withdrawal_env))
       = store_balance example_ledger - a
    /\ map Withdrawal.id
         (Withdrawals.withdrawals
            (Withdrawals.state
               (Withdrawals.handleAddWithdrawal (example_withdrawal "Gaji" (JS.Num 70000))
                  example_ledger example_withdrawal_env)))
       = ["w-2"; "w-1"].
Proof.
  destruct (handleAddWithdrawal_never_overdraws
              (example_withdrawal "Gaji" (JS.Num 70000)) example_ledger
              example_withdrawal_env)
    as [a [Ha [Hpos [Hb _]]]].
  - split; [reflexivity|]. split; [repeat constructor|reflexivity].
  - reflexivity.
  - exists a. split; [exact Ha|]. split; [exact Hpos|]. split; [exact Hb|reflexivity].
Defined.

Lemma unique_row {Row : Type} (key : Row -> string) (rows : list Row) (r r' : Row) :
  NoDup (map key rows) -> In r rows -> In r' rows -> key r = key r' -> r = r'.
Proof.
  induction rows as [|x rows IH]; simpl; intros Hnd Hr Hr' E; [contradiction|].
  inversion Hnd as [|? ? Hx Hrest]; subst.
  destruct Hr as [-> | Hr], Hr' as [-> | Hr'].
  - reflexivity.
  - exfalso. apply Hx. rewrite E. apply in_map. exact Hr'.
  - exfalso. apply Hx. rewrite <- E. apply in_map. exact Hr.
  - apply IH; assumption.
Qed.

Lemma withdrawals_without (l1 l2 : list Withdrawal.t) (w : Withdrawal.t) :
  NoDup (map Withdrawal.id (l1 ++ w :: l2)) ->
  filter (fun r => negb (Withdrawal.id r =? Withdrawal.id w)%string) (l1 ++ w :: l2)
  = l1 ++ l2.
Proof.
  intros Hnd. rewrite filter_app. simpl. rewrite String.eqb_refl. simpl.
  rewrite map_app in Hnd. simpl in Hnd. apply NoDup_remove_2 in Hnd.
  rewrite !filter_all; [reflexivity| |]; intros r Hr;
    apply negb_true_iff, String.eqb_neq; intros E; apply Hnd; rewrite <- E;
    apply in_or_app; [right|left]; apply in_map; exact Hr.
Qed.

(** X19. Deleting a withdrawal: not confirmed, or refused by the store,
    nothing changes in the store; otherwise the rows with that key are gone,
    the sales are untouched, and with distinct keys the store's balance goes
    up by the amount of the deleted withdrawal. *)
Theorem withdrawal_handleDelete (st : Withdrawals.State) (db0 : Store.t) (id : string)
    (revenue_fault withdrawals_fault : bool) :
  (forall delete_fault,
     Withdrawals.handleDelete st db0 false id delete_fault revenue_fault withdrawals_fault
     = Withdrawals.mkOutcome st db0 [])
  /\ Withdrawals.handleDelete st db0 true id true revenue_fault withdrawals_fault
     = Withdrawals.mkOutcome st db0 [toast_error "Failed to delete withdrawal"]
  /\ (let db1 := Withdrawals.db (Withdrawals.handleDelete st db0 true id false
                                   revenue_fault withdrawals_fault) in
      ~ In id (map Withdrawal.id (Store.withdrawals db1))
      /\ Store.transactions db1 = Store.transactions db0
      /\ (forall w, Withdrawal.id w <> id ->
            (In w (Store.withdrawals db1) <-> In w (Store.withdrawals db0)))
      /\ (forall w, NoDup (map Withdrawal.id (Store.withdrawals db0)) ->
            In w (Store.withdrawals db0) -> Withdrawal.id w = id ->
            store_balance db1 = store_balance db0 + Withdrawal.amount w)).
Proof.
  split; [reflexivity|]. split; [reflexivity|].
  unfold Withdrawals.handleDelete, Store.delete_withdrawal.
  destruct (Withdrawals.fetchData _ _ _ _) as [st' ts]. simpl.
  split; [|split; [reflexivity|split]].
  - intros Hin. apply in_map_iff in Hin. destruct Hin as [w [Hid Hin]].
    apply filter_In in Hin. destruct Hin as [_ Hne].
    apply negb_true_iff, String.eqb_neq in Hne. contradiction.
  - intros w Hne. rewrite filter_In. apply String.eqb_neq in Hne. rewrite Hne.
    simpl. tauto.
  - intros w Hnd Hin Hid. subst id.
    apply in_split in Hin. destruct Hin as [l1 [l2 Hsplit]].
    unfold store_balance. simpl. rewrite Hsplit in *.
    rewrite (withdrawals_without l1 l2 w Hnd).
    rewrite !map_app, !Zsum_concat. simpl. lia.
Qed.

Lemma withdrawal_handleDelete_witness :
  store_balance
    (Withdrawals.db (Withdrawals.handleDelete (example_withdrawal "" JS.NaN)
                       example_ledger true "w-1" false false false))
  = 70000 + 30000.
Proof.
  destruct (withdrawal_handleDelete (example_withdrawal "" JS.NaN) example_ledger "w-1"
              false false) as [_ [_ [_ [_ [_ H]]]]].
  apply (H (Withdrawal.mk "w-1" "2025-01-03T09:00:00" "Setoran bank" 30000)).
  - repeat constructor. simpl. tauto.
  - left. reflexivity.
  - reflexivity.
Defined.

(** X20. Deleting a withdrawal that was just added puts the store back as
    it was before the add. *)
Theorem handleDelete_undoes_add (st st' : Withdrawals.State) (db0 : Store.t)
    (env : Withdrawals.Env) (revenue_fault withdrawals_fault : bool) :
  let added := Withdrawals.handleAddWithdrawal st db0 env in
  In (toast_success "Withdrawal added successfully") (Withdrawals.toasts added) ->
  Withdrawals.db
    (Withdrawals.handleDelete st' (Withdrawals.db added) true (Withdrawals.new_id env)
       false revenue_fault withdrawals_fault)
  = db0.
Proof.
  intros added Hok.
  assert (Hadd : added = Withdrawals.handleAddWithdrawal st db0 env) by reflexivity.
  unfold Withdrawals.handleAddWithdrawal in Hadd.
  destruct (String.length (JS.trim (Withdrawals.withdrawalName st)) =? 0)%nat;
    [rewrite Hadd in Hok; simpl in Hok; intuition discriminate|].
  destruct (JS.isNaN (Withdrawals.withdrawalAmount st)
            || JS.le (Withdrawals.withdrawalAmount st) (JS.Num 0));
    [rewrite Hadd in Hok; simpl in Hok; intuition discriminate|].
  destruct (JS.gt (Withdrawals.withdrawalAmount st) _);
    [rewrite Hadd in Hok; simpl in Hok; intuition discriminate|].
  unfold Store.insert_withdrawal in Hadd.
  destruct (Withdrawals.insert_fault env
            || Store.mem (Withdrawals.new_id env)
                 (map Withdrawal.id (Store.withdrawals db0))) eqn:Eacc;
    [rewrite Hadd in Hok; simpl in Hok; intuition discriminate|].
  apply orb_false_iff in Eacc. destruct Eacc as [_ Hfresh].
  apply mem_not_In in Hfresh.
  destruct (Withdrawals.fetchData _ _ _ _) as [st1 ts1] in Hadd.
  rewrite Hadd. unfold Withdrawals.handleDelete, Store.delete_withdrawal.
  destruct (Withdrawals.fetchData _ _ _ _) as [st2 ts2]. simpl.
  rewrite filter_app. simpl. rewrite String.eqb_refl. simpl. rewrite app_nil_r.
  rewrite filter_all.
  - destruct db0. reflexivity.
  - intros r Hr. apply negb_true_iff, String.eqb_neq. intros E. apply Hfresh.
    rewrite <- E. apply in_map. exact Hr.
Qed.

Lemma handleDelete_undoes_add_witness :
  Withdrawals.db
    (Withdrawals.handleDelete (example_withdrawal "" JS.NaN)
       (Withdrawals.db
          (Withdrawals.handleAddWithdrawal (example_withdrawal "Gaji" (JS.Num 70000))
             example_ledger example_withdrawal_env))
       true "w-2" false false false)
  = example_ledger.
Proof.
  apply (handleDelete_undoes_add (example_withdrawal "Gaji" (JS.Num 70000))
           (example_withdrawal "" JS.NaN) example_ledger example_withdrawal_env
           false false).
  left. reflexivity.
Defined.

(** ** The product dialog *)

(** X21. Opening a product of the catalog in the dialog and saving it as it
    is changes nothing in the store and reports success, for a product whose
    code and name carry no white space at their ends and whose code is not
    empty, in a catalog of distinct keys and distinct codes. *)
Theorem handleEdit_then_submit (db0 : Store.t) (product : Product.t)
    (env : Products.Env) :
  catalog_inv db0 ->
  In product (Store.products db0) ->
  JS.trim (Product.code product) = Product.code product ->
  Product.code product <> "" ->
  JS.trim (Product.name product) = Product.name product ->
  Products.write_fault env = false ->
  Products.handleSubmit (snd (Products.handleEdit product))
    (fst (Products.handleEdit product)) db0 env
  = (db0, [toast_success "Product updated successfully"]).
Proof.
  intros [Hids Hcodes] Hin Hcode Hne Hname Hfault.
  unfold Products.handleSubmit, Products.handleEdit. simpl.
  rewrite Hcode, Hname.
  assert (Hlen : (String.length (Product.code product) =? 0)%nat = false).
  { destruct (String.length (Product.code product) =? 0)%nat eqn:E; [|reflexivity].
    apply length_zero_iff in E. contradiction. }
  rewrite Hlen. unfold Store.update_product. rewrite Hfault. simpl.
  assert (Hfree : Store.mem (Product.code product)
                    (map Product.code
                       (filter (fun r => negb (Product.id r =? Product.id product)%string)
                               (Store.products db0))) = false).
  { apply mem_not_In. intros H. apply in_map_iff in H. destruct H as [r [Hc Hr]].
    apply filter_In in Hr. destruct Hr as [Hr Hid].
    apply negb_true_iff, String.eqb_neq in Hid. apply Hid.
    rewrite (unique_row Product.code _ r product Hcodes Hr Hin Hc). reflexivity. }
  rewrite Hfree. f_equal.
  rewrite map_fixed; [destruct db0; reflexivity|].
  intros r Hr. destruct (Product.id r =? Product.id product)%string eqn:E; [|reflexivity].
  apply String.eqb_eq in E.
  rewrite (unique_row Product.id _ r product Hids Hr Hin E).
  destruct product. reflexivity.
Qed.

Lemma handleEdit_then_submit_witness :
  Products.handleSubmit (snd (Products.handleEdit print_bw))
    (fst (Products.handleEdit print_bw)) seed_catalog
    (Products.mkEnv false false "unused")
  = (seed_catalog, [toast_success "Product updated successfully"]).
Proof.
  apply (handleEdit_then_submit seed_catalog print_bw (Products.mkEnv false false "unused")).
  - split; repeat constructor; simpl; intuition discriminate.
  - right. left. reflexivity.
  - reflexivity.
  - discriminate.
  - reflexivity.
  - reflexivity.
Defined.

Lemma numbered_increasing (n : nat) :
  (n < 999)%nat -> String.ltb (numbered_code n) (numbered_code (S n)) = true.
Proof.
  intros Hn.
  assert (Hall : forallb (fun k => String.ltb (numbered_code k) (numbered_code (S k)))
                   (seq 0 999) = true) by (vm_compute; reflexivity).
  rewrite forallb_forall in Hall. apply Hall. apply in_seq. lia.
Qed.

(** X22. Below P999 the automatic code is a new one.  On a catalog whose
    greatest code is the numbered code of [n], with [n] below 999, a product
    submitted with the code field blank gets the numbered code of [n + 1],
    which no product has yet; the store takes the product when the call goes
    through, the key is new and the price is a number. *)
Theorem handleSubmit_next_code (db0 : Store.t) (n : nat) (formData : Products.FormData)
    (env : Products.Env) (price : Z) :
  greatest_code (map Product.code (Store.products db0)) (numbered_code n) ->
  (n < 999)%nat ->
  JS.trim (Products.code formData) = "" ->
  Products.price formData = JS.Num price ->
  Products.code_fault env = false ->
  Products.write_fault env = false ->
  ~ In (Products.new_id env) (map Product.id (Store.products db0)) ->
  Products.generateNextCode db0 false = numbered_code (S n)
  /\ ~ In (numbered_code (S n)) (map Product.code (Store.products db0))
  /\ Products.handleSubmit formData None db0 env
     = (Store.with_products db0
          (Store.products db0
           ++ [Product.mk (Products.new_id env) (numbered_code (S n))
                 (JS.trim (Products.name formData)) price]),
        [toast_success "Product added successfully"]).
Proof.
  intros Hgreat Hn Hblank Hprice Hcf Hwf Hkey.
  pose proof (generateNextCode_next_numbered db0 n Hgreat) as Hgen.
  assert (Hnew : ~ In (numbered_code (S n)) (map Product.code (Store.products db0))).
  { intros Hin. destruct Hgreat as [_ Hmax]. specialize (Hmax _ Hin).
    pose proof (numbered_increasing n Hn) as Hlt.
    unfold String.leb in Hmax. unfold String.ltb in Hlt.
    rewrite String.compare_antisym in Hmax.
    destruct (String.compare (numbered_code n) (numbered_code (S n)));
      simpl in *; discriminate. }
  split; [exact Hgen|]. split; [exact Hnew|].
  unfold Products.handleSubmit. rewrite Hblank, Hcf, Hgen, Hprice. simpl.
  unfold Store.insert_product. rewrite Hwf.
  apply mem_not_In in Hkey. apply mem_not_In in Hnew. rewrite Hkey, Hnew. reflexivity.
Qed.

Lemma handleSubmit_next_code_witness :
  map Product.code
    (Store.products
       (fst (Products.handleSubmit blank_code_form None seed_catalog
               (Products.mkEnv false false "id-4"))))
  = ["P001"; "P002"; "P003"; "P004"].
Proof.
  assert (Hg : greatest_code (map Product.code (Store.products seed_catalog))
                 (numbered_code 3)).
  { split; [right; right; left; reflexivity|].
    intros c [<-|[<-|[<-|[]]]]; reflexivity. }
  destruct (handleSubmit_next_code seed_catalog 3 blank_code_form
              (Products.mkEnv false false "id-4") 12000 Hg) as [_ [_ H]].
  - lia.
  - reflexivity.
  - reflexivity.
  - reflexivity.
  - reflexivity.
  - simpl. intuition discriminate.
  - rewrite H. reflexivity.
Defined.

(** X23. When the query for the last code fails, or the catalog is empty,
    the code proposed is P001; with P001 in the catalog already the store
    then refuses the product, and the catalog stays as it was. *)
Theorem generateNextCode_fallback (db0 : Store.t) (formData : Products.FormData)
    (env : Products.Env) :
  Products.generateNextCode db0 true = "P001"
  /\ (Store.products db0 = [] -> Products.generateNextCode db0 false = "P001")
  /\ (JS.trim (Products.code formData) = "" ->
      Products.code_fault env = true ->
      In "P001" (map Product.code (Store.products db0)) ->
      Products.handleSubmit formData None db0 env
      = (db0, [toast_error "Failed to add product"])).
Proof.
  split; [reflexivity|]. split.
  - intros H. unfold Products.generateNextCode, Store.last_code. rewrite H. reflexivity.
  - intros Hblank Hcf Hin. unfold Products.handleSubmit.
    rewrite Hblank, Hcf. simpl. unfold Store.insert_product.
    apply mem_In in Hin.
    destruct (Products.price formData); [reflexivity|].
    change (Products.generateNextCode db0 true) with "P001".
    rewrite Hin, !orb_true_r. reflexivity.
Qed.

Lemma generateNextCode_fallback_witness :
  Products.handleSubmit blank_code_form None seed_catalog
    (Products.mkEnv true false "id-4")
  = (seed_catalog, [toast_error "Failed to add product"]).
Proof.
  apply (proj2 (proj2 (generateNextCode_fallback seed_catalog blank_code_form
                         (Products.mkEnv true false "id-4")))).
  - reflexivity.
  - reflexivity.
  - left. reflexivity.
Defined.

(** ** From the sales screen to the other screens *)



(** ** Printing orders *)

Lemma printing_insert_check (table0 : PrintingOrders.Table) (env : PrintingOrders.Env) :
  PrintingOrders.write_fault env
  || Store.mem (PrintingOrders.new_id env) (map PrintingOrder.id table0) = false
  <-> PrintingOrders.write_fault env = false
      /\ ~ In (PrintingOrders.new_id env) (map PrintingOrder.id table0).
Proof. rewrite orb_false_iff, mem_not_In. tauto. Qed.

(** X25. A printing order is turned down, with nothing stored and the form
    kept, when the customer name, the phone number or the order name is blank
    once trimmed, and the notification names the first of them that is.
    Otherwise the insert is sent with the three texts trimmed, paid as chosen
    and not completed; when the store takes it the form is cleared, and when
    it does not nothing changes. *)
Theorem printing_handleSubmit (st : PrintingOrders.State) (table0 : PrintingOrders.Table)
    (env : PrintingOrders.Env) :
  let out := PrintingOrders.handleSubmit st table0 env in
  let name := JS.trim (PrintingOrders.customerName st) in
  let phone := JS.trim (PrintingOrders.phoneNumber st) in
  let order := JS.trim (PrintingOrders.orderName st) in
  (name = "" ->
   out = PrintingOrders.mkOutcome st table0
           [PrintingOrders.failure "Nama pelanggan tidak boleh kosong"])
  /\ (name <> "" -> phone = "" ->
      out = PrintingOrders.mkOutcome st table0
              [PrintingOrders.failure "Nomor HP tidak boleh kosong"])
  /\ (name <> "" -> phone <> "" -> order = "" ->
      out = PrintingOrders.mkOutcome st table0
              [PrintingOrders.failure "Nama orderan tidak boleh kosong"])
  /\ (name <> "" -> phone <> "" -> order <> "" ->
      (PrintingOrders.write_fault env = false ->
       ~ In (PrintingOrders.new_id env) (map PrintingOrder.id table0) ->
       PrintingOrders.table out
       = table0 ++ [PrintingOrder.mk (PrintingOrders.new_id env) name phone order
                      (PrintingOrders.isPaid st =? "true")%string false
                      (PrintingOrders.now env)]
       /\ PrintingOrders.customerName (PrintingOrders.state out) = ""
       /\ PrintingOrders.phoneNumber (PrintingOrders.state out) = ""
       /\ PrintingOrders.orderName (PrintingOrders.state out) = ""
       /\ PrintingOrders.isPaid (PrintingOrders.state out) = "false")
      /\ (~ (PrintingOrders.write_fault env = false
             /\ ~ In (PrintingOrders.new_id env) (map PrintingOrder.id table0)) ->
          out = PrintingOrders.mkOutcome st table0
                  [PrintingOrders.failure "Gagal menambahkan orderan"])).
Proof.
  intros out name phone order.
  assert (Hlen : forall s, (String.length s =? 0)%nat = false <-> s <> "").
  { intros s. rewrite <- length_zero_iff.
    destruct (String.length s =? 0)%nat; split; congruence. }
  assert (Hout : out = PrintingOrders.handleSubmit st table0 env) by reflexivity.
  unfold PrintingOrders.handleSubmit in Hout.
  fold name in Hout. fold phone in Hout. fold order in Hout.
  split; [|split; [|split]].
  - intros Hn. apply length_zero_iff in Hn. rewrite Hn in Hout. exact Hout.
  - intros Hn Hp. apply Hlen in Hn. apply length_zero_iff in Hp.
    rewrite Hn, Hp in Hout. exact Hout.
  - intros Hn Hp Ho. apply Hlen in Hn. apply Hlen in Hp. apply length_zero_iff in Ho.
    rewrite Hn, Hp, Ho in Hout. exact Hout.
  - intros Hn Hp Ho. apply Hlen in Hn. apply Hlen in Hp. apply Hlen in Ho.
    rewrite Hn, Hp, Ho in Hout. unfold PrintingOrders.insert in Hout.
    split.
    + intros Hf Hk.
      rewrite (proj2 (printing_insert_check table0 env) (conj Hf Hk)) in Hout.
      rewrite Hout. unfold PrintingOrders.fetchOrders.
      destruct (PrintingOrders.fetch_fault env); simpl; repeat split.
    + intros Hno. rewrite <- printing_insert_check in Hno.
      apply not_false_true in Hno. rewrite Hno in Hout. exact Hout.
Qed.

Lemma printing_handleSubmit_witness :
  PrintingOrders.table (PrintingOrders.handleSubmit order_form [banner] order_env)
  = [banner;
     PrintingOrder.mk "o-3" "Budi" "0812" "Banner 2x3 meter" true false
       "2025-01-07T10:00:00"].
Proof.
  destruct (printing_handleSubmit order_form [banner] order_env) as [_ [_ [_ H]]].
  destruct H as [H _]; try discriminate.
  destruct H as [H _]; [reflexivity|simpl; intuition discriminate|].
  exact H.
Defined.





(** X27. No handler of the screen changes what a stored order says beyond
    its completion: after a completion toggle or a delete every order in the
    store is one that was there, with the same key, customer, phone, order
    name, payment status and date; after a submit every order is one that was
    there, unchanged, or the new one, which is not completed. *)
Theorem printing_orders_keep_fields (st : PrintingOrders.State)
    (table0 : PrintingOrders.Table) (o' : PrintingOrder.t) :
  (forall orderId currentStatus update_fault fetch_fault,
     In o' (PrintingOrders.table
              (PrintingOrders.handleToggleComplete st table0 orderId currentStatus
                 update_fault fetch_fault)) ->
     exists o, In o table0 /\ same_but_completed o o')
  /\ (forall confirmed orderId delete_fault fetch_fault,
        In o' (PrintingOrders.table
                 (PrintingOrders.handleDelete st table0 confirmed orderId
                    delete_fault fetch_fault)) ->
        In o' table0)
  /\ (forall env,
        In o' (PrintingOrders.table (PrintingOrders.handleSubmit st table0 env)) ->
        In o' table0
        \/ (PrintingOrder.id o' = PrintingOrders.new_id env
            /\ PrintingOrder.is_completed o' = false
            /\ PrintingOrder.is_paid o' = (PrintingOrders.isPaid st =? "true")%string)).
Proof.
  split; [|split].
  - intros orderId currentStatus update_fault fetch_fault.
    unfold PrintingOrders.handleToggleComplete, PrintingOrders.update_completed.
    destruct update_fault; simpl.
    + intros Hin. exists o'. split; [exact Hin|]. repeat split.
    + destruct (PrintingOrders.fetchOrders _ _ _) as [s ns]. simpl.
      intros Hin. apply in_map_iff in Hin. destruct Hin as [o [Ho Hin]].
      exists o. split; [exact Hin|]. subst o'.
      destruct (PrintingOrder.id o =? orderId)%string; repeat split.
  - intros confirmed orderId delete_fault fetch_fault.
    unfold PrintingOrders.handleDelete, PrintingOrders.delete.
    destruct confirmed; simpl; [|tauto].
    destruct delete_fault; simpl; [tauto|].
    destruct (PrintingOrders.fetchOrders _ _ _) as [s ns]. simpl.
    intros Hin. apply filter_In in Hin. tauto.
  - intros env. unfold PrintingOrders.handleSubmit, PrintingOrders.insert.
    destruct (String.length (JS.trim (PrintingOrders.customerName st)) =? 0)%nat;
      [simpl; tauto|].
    destruct (String.length (JS.trim (PrintingOrders.phoneNumber st)) =? 0)%nat;
      [simpl; tauto|].
    destruct (String.length (JS.trim (PrintingOrders.orderName st)) =? 0)%nat;
      [simpl; tauto|].
    destruct (PrintingOrders.write_fault env || _); [simpl; tauto|].
    destruct (PrintingOrders.fetchOrders _ _ _) as [s ns]. simpl.
    intros Hin. apply in_app_or in Hin. destruct Hin as [Hin|[<-|[]]]; [tauto|].
    right. repeat split.
Qed.

Lemma printing_orders_keep_fields_witness :
  exists o, In o [banner; undangan] /\ same_but_completed o (completed_as banner true).
Proof.
  exact (proj1 (printing_orders_keep_fields order_form [banner; undangan]
                  (completed_as banner true))
           "o-1" false false false (or_introl eq_refl)).
Defined.

(** ** Prices in the cart *)

(** X28. The earlier sales screen and the stricter one: the earlier
    overrides never turn an input down.  Where the stricter screen lets a
    price or a name through, the earlier one gives the same cart, but for
    the name, which it stores as typed rather than trimmed; a price field
    that cannot be read sets the display price to 0, and a blank name is
    stored as the display name.  Both overrides keep the cart invariant. *)
Theorem lenient_overrides (cart : Cashier.Cart) (productId newName : string)
    (newPrice : JS.number) :
  (price_positive newPrice ->
   CashierLenient.updatePrice cart productId newPrice
   = fst (Cashier.updatePrice cart productId newPrice))
  /\ (name_not_blank newName ->
      CashierLenient.updateName cart productId (JS.trim newName)
      = fst (Cashier.updateName cart productId newName))
  /\ (forall l1 item l2,
        cart_inv cart -> cart = l1 ++ item :: l2 -> product_id item = productId ->
        CashierLenient.updatePrice cart productId JS.NaN
        = l1 ++ Cashier.with_displayPrice item 0 :: l2
        /\ CashierLenient.updateName cart productId newName
           = l1 ++ Cashier.with_displayName item newName :: l2)
  /\ (cart_inv cart ->
      cart_inv (CashierLenient.updatePrice cart productId newPrice)
      /\ cart_inv (CashierLenient.updateName cart productId newName)).
Proof.
  split; [|split; [|split]].
  - intros Hp. apply price_guard in Hp. unfold Cashier.updatePrice. rewrite Hp.
    reflexivity.
  - intros Hn. unfold Cashier.updateName.
    destruct (String.length (JS.trim newName) =? 0)%nat eqn:E; [|reflexivity].
    apply length_zero_iff in E. contradiction.
  - intros l1 item l2 [Hnd _] -> <-. split.
    + apply (map_line (fun x => Cashier.with_displayPrice x 0)). exact Hnd.
    + apply (map_line (fun x => Cashier.with_displayName x newName)). exact Hnd.
  - intros Hinv. split; apply cart_inv_map; try exact Hinv; intros x;
      destruct (Cashier.is_product productId x); simpl; auto.
Qed.

Lemma lenient_overrides_witness :
  CashierLenient.updatePrice example_cart "id-3" (JS.Num 2500)
  = fst (Cashier.updatePrice example_cart "id-3" (JS.Num 2500))
  /\ CashierLenient.updatePrice example_cart "id-3" JS.NaN
     = [CartItem.mk print_bw 2 500 "Print Hitam Putih A4";
        CartItem.mk print_warna 1 0 "Print Warna A4"].
Proof.
  destruct (lenient_overrides example_cart "id-3" "" (JS.Num 2500)) as [H1 [_ [H3 _]]].
  split.
  - apply H1. exists 2500. split; [reflexivity|lia].
  - exact (proj1 (H3 [CartItem.mk print_bw 2 500 "Print Hitam Putih A4"]
                    (CartItem.mk print_warna 1 2000 "Print Warna A4") []
                    example_cart_inv eq_refl eq_refl)).
Defined.

Lemma priced_map (f : CartItem.t -> CartItem.t) (cart : Cashier.Cart) :
  (forall x, 0 < CartItem.displayPrice x -> 0 < CartItem.displayPrice (f x)) ->
  priced cart -> priced (map f cart).
Proof.
  intros Hf Hp. unfold priced in *. apply Forall_map. revert Hp. apply Forall_impl.
  exact Hf.
Qed.

Lemma priced_filter (keep : CartItem.t -> bool) (cart : Cashier.Cart) :
  priced cart -> priced (filter keep cart).
Proof.
  unfold priced. rewrite !Forall_forall. intros H x Hx. apply H.
  apply filter_In in Hx. tauto.
Qed.

(** X29. The stricter sales screen keeps every display price above 0, as
    long as no product priced at 0 or less is added: each cart operation
    leaves a cart of positive display prices one. *)
Theorem priced_step (cart : Cashier.Cart) (e : Cashier.CartEvent) :
  priced cart -> brings_price e -> priced (Cashier.step cart e).
Proof.
  intros Hp He. destruct e as [product|pid delta|pid newPrice|pid newName|pid|]; simpl.
  - unfold Cashier.addToCart.
    destruct (find (Cashier.is_product (Product.id product)) cart).
    + apply priced_map; [|exact Hp]. intros x Hx.
      destruct (Cashier.is_product (Product.id product) x); exact Hx.
    + unfold priced. apply Forall_app. split; [exact Hp|].
      repeat constructor. exact He.
  - unfold Cashier.updateQuantity. apply priced_filter. apply priced_map; [|exact Hp].
    intros x Hx. destruct (Cashier.is_product pid x); exact Hx.
  - unfold Cashier.updatePrice.
    destruct (JS.isNaN newPrice || JS.le newPrice (JS.Num 0)) eqn:E; simpl; [exact Hp|].
    apply price_guard in E. destruct E as [v [-> Hv]].
    apply priced_map; [|exact Hp]. intros x Hx.
    destruct (Cashier.is_product pid x); [exact Hv|exact Hx].
  - unfold Cashier.updateName.
    destruct (String.length (JS.trim newName) =? 0)%nat; simpl; [exact Hp|].
    apply priced_map; [|exact Hp]. intros x Hx.
    destruct (Cashier.is_product pid x); exact Hx.
  - apply priced_filter. exact Hp.
  - constructor.
Qed.

Lemma example_cart_priced : priced example_cart.
Proof. repeat constructor. Defined.

Lemma priced_step_witness :
  priced (Cashier.step example_cart (Cashier.UpdatePrice "id-3" (JS.Num 2500))).
Proof.
  apply (priced_step example_cart (Cashier.UpdatePrice "id-3" (JS.Num 2500))
           example_cart_priced).
  exact I.
Defined.

Lemma priced_total (cart : Cashier.Cart) :
  cart_inv cart -> priced cart -> cart <> [] -> 0 < Cashier.totalAmount cart.
Proof.
  intros [_ Hq] Hp Hne. rewrite totalAmount_lines.
  assert (H : forall l, Forall (fun item => 1 <= CartItem.quantity item) l ->
                        priced l -> 0 <= Zsum (map line_subtotal l)
                        /\ (l <> [] -> 0 < Zsum (map line_subtotal l))).
  { induction l as [|x l IH]; intros H1 H2.
    - split; [simpl; lia|congruence].
    - inversion H1; subst. inversion H2; subst.
      destruct (IH ltac:(assumption) ltac:(assumption)) as [Hge _].
      assert (0 < line_subtotal x) by (unfold line_subtotal; nia).
      simpl. split; [lia|intros _; lia]. }
  apply H; assumption.
Qed.

(** X30. With every display price above 0, a cart that is not empty has a
    total above 0, and then a checkout is turned down at validation exactly
    when the payment field holds no number or less than the total: the test
    for a payment of 0 adds nothing. *)
Theorem handlePayment_priced (st : Cashier.State) (db0 : Store.t) (env : Cashier.Env) :
  cart_inv (Cashier.cart st) -> priced (Cashier.cart st) -> Cashier.cart st <> [] ->
  0 < Cashier.totalAmount (Cashier.cart st)
  /\ (Cashier.toasts (Cashier.handlePayment st db0 env)
      = [toast_error "Jumlah pembayaran tidak valid"]
      <-> JS.isNaN (Cashier.paymentAmount st) = true
          \/ JS.lt (Cashier.paymentAmount st)
               (JS.Num (Cashier.totalAmount (Cashier.cart st))) = true).
Proof.
  intros Hinv Hp Hne. pose proof (priced_total _ Hinv Hp Hne) as Htotal.
  split; [exact Htotal|].
  unfold Cashier.handlePayment.
  destruct (Cashier.paymentAmount st) as [|p]; simpl.
  - split; [intros _; left; reflexivity|reflexivity].
  - destruct (Z.ltb_spec p (Cashier.totalAmount (Cashier.cart st))) as [Hlt|Hge].
    + rewrite orb_true_r. simpl. split; [intros _; right; reflexivity|reflexivity].
    + destruct (Z.eqb_spec p 0) as [Hz|Hz]; [lia|]. simpl.
      unfold Store.insert_transaction.
      destruct (Cashier.transaction_fault env || _); simpl.
      * split; [discriminate|intros [H|H]; discriminate].
      * unfold Store.insert_transaction_items.
        destruct (Cashier.items_fault env || _ || _ || _); simpl;
          (split; [discriminate|intros [H|H]; discriminate]).
Qed.

Lemma handlePayment_priced_witness :
  0 < Cashier.totalAmount (Cashier.cart example_sale).
Proof.
  apply (handlePayment_priced example_sale Store.empty example_env).
  - exact example_cart_inv.
  - exact example_cart_priced.
  - discriminate.
Defined.
